(** * SUNTANS boundary tools (sunboundary.py): a shallow embedding

    The Python module [SUNTANS/sunboundary.py] holds the class [Boundary]
    (methods [__init__], [loadBoundary], [getTime], [ncTime], [initArrays],
    [write2NC]) and the function [modifyBCmarker].  Each of them is embedded
    below as a Rocq function; exceptions and effects are explicit:

    - a Python exception is a [Raise] result, a [while] loop that has not
      finished within its fuel is [OutOfFuel];
    - numpy integer arrays are lists of [Z], float64 arrays are lists of
      primitive floats, index arrays are lists of [Z] (negative indices wrap
      as numpy's do);
    - datetimes and timedeltas are whole numbers of microseconds, as Python
      holds them; the step of the time axis is an int or a float;
    - [print], the netCDF calls and the grid and figure writers are recorded
      as a trace of events, in program order. *)

From Stdlib Require Import String Ascii.
From Stdlib Require Import ZArith List Sorted Permutation Bool Lia Floats.
Import ListNotations.
Open Scope string_scope.
Open Scope list_scope.
Open Scope Z_scope.

(** ** Results of a Python call *)

Inductive exn : Type :=
| IndexError
| OverflowError
| ValueError
| IOError.

Inductive result (A : Type) : Type :=
| Ok (a : A)
| Raise (e : exn)
| OutOfFuel.

Arguments Ok {A} a.
Arguments Raise {A} e.
Arguments OutOfFuel {A}.

Definition bind {A B : Type} (r : result A) (k : A -> result B) : result B :=
  match r with
  | Ok a => k a
  | Raise e => Raise e
  | OutOfFuel => OutOfFuel
  end.

Notation "x <- e ;; k" := (bind e (fun x => k))
  (at level 61, e at next level, right associativity).

Fixpoint mapM {A B : Type} (f : A -> result B) (l : list A) : result (list B) :=
  match l with
  | [] => Ok []
  | a :: l' =>
      b <- f a ;;
      bs <- mapM f l' ;;
      Ok (b :: bs)
  end.

(** ** The numpy operations the module uses *)

Module np.

(** [a[i]] for an integer [i]: a negative index counts from the end, an index
    outside [-len(a), len(a))] raises IndexError. *)
Definition item {A : Type} (a : list A) (i : Z) : result A :=
  let n := Z.of_nat (length a) in
  let j := if i <? 0 then n + i else i in
  if (0 <=? j) && (j <? n) then
    match nth_error a (Z.to_nat j) with
    | Some x => Ok x
    | None => Raise IndexError
    end
  else Raise IndexError.

(** [a[idx]] for an integer index array [idx]. *)
Definition take {A : Type} (a : list A) (idx : list Z) : result (list A) :=
  mapM (item a) idx.

(** [a == v] and [a > v], element by element. *)
Definition eq (a : list Z) (v : Z) : list bool := map (fun x => x =? v) a.
Definition gt (a : list Z) (v : Z) : list bool := map (fun x => v <? x) a.

(** [np.argwhere(mask)] of a one-dimensional mask: the indices of its true
    entries, in increasing order. *)
Fixpoint argwhere_from (i : Z) (mask : list bool) : list Z :=
  match mask with
  | [] => []
  | b :: mask' =>
      if b then i :: argwhere_from (i + 1) mask' else argwhere_from (i + 1) mask'
  end.

Definition argwhere (mask : list bool) : list Z := argwhere_from 0 mask.

(** [np.mean(rows, axis=1)] of an (n,2) float array. *)
Definition mean_axis1 (rows : list (float * float)) : list float :=
  map (fun r => ((fst r + snd r) / 2)%float) rows.

(** [a[mask]] for a boolean mask: the entries of [a] where the mask is true.
    A mask of another length than [a] is an IndexError. *)
Fixpoint select_ {A : Type} (mask : list bool) (a : list A) : list A :=
  match mask, a with
  | b :: mask', x :: a' => if b then x :: select_ mask' a' else select_ mask' a'
  | _, _ => []
  end.

Definition select {A : Type} (mask : list bool) (a : list A) : result (list A) :=
  if Nat.eqb (length mask) (length a) then Ok (select_ mask a) else Raise IndexError.

(** [a[mask] = v] for a scalar [v]. *)
Fixpoint fill_ {A : Type} (mask : list bool) (a : list A) (v : A) : list A :=
  match mask, a with
  | b :: mask', x :: a' => (if b then v else x) :: fill_ mask' a' v
  | _, _ => a
  end.

Definition fill {A : Type} (mask : list bool) (a : list A) (v : A) : result (list A) :=
  if Nat.eqb (length mask) (length a) then Ok (fill_ mask a v) else Raise IndexError.

(** [a[mask] = vals] for an array [vals]: the true positions of the mask
    receive the entries of [vals] in order.  [vals] must have as many entries
    as the mask has true positions (ValueError otherwise). *)
Fixpoint scatter_ {A : Type} (mask : list bool) (a : list A) (vals : list A) : list A :=
  match mask, a with
  | b :: mask', x :: a' =>
      if b then
        match vals with
        | v :: vals' => v :: scatter_ mask' a' vals'
        | [] => x :: scatter_ mask' a' []
        end
      else x :: scatter_ mask' a' vals
  | _, _ => a
  end.

Definition count_true (mask : list bool) : nat := length (filter (fun b => b) mask).

Definition scatter {A : Type} (mask : list bool) (a : list A) (vals : list A)
  : result (list A) :=
  if Nat.eqb (length mask) (length a) then
    if Nat.eqb (count_true mask) (length vals) then Ok (scatter_ mask a vals)
    else Raise ValueError
  else Raise IndexError.

(** Arrays of two and three dimensions: a shape and the entries in row-major
    order. *)
Record ndarray : Type := mk_ndarray {
  shape : list nat;
  data : list float
}.

Definition size_of (sh : list nat) : nat := fold_right Nat.mul 1%nat sh.

(** [np.zeros(shape)]. *)
Definition zeros (sh : list nat) : ndarray :=
  {| shape := sh; data := repeat 0%float (size_of sh) |}.

(** Row-major offset of a multi-index; [None] when the index has another
    rank than the shape or a component out of range. *)
Fixpoint offset (sh : list nat) (idx : list nat) (acc : nat) : option nat :=
  match sh, idx with
  | [], [] => Some acc
  | d :: sh', i :: idx' =>
      if Nat.ltb i d then offset sh' idx' (acc * d + i)%nat else None
  | _, _ => None
  end.

(** [a[i, j, ...]] for a full multi-index. *)
Definition get (a : ndarray) (idx : list nat) : option float :=
  match offset (shape a) idx 0 with
  | Some o => nth_error (data a) o
  | None => None
  end.

End np.

(** ** The grid *)

Module Grid.

(** Modelled from the spec: the class [sunpy.Grid] is not part of the module.
    The fields are the ones [sunboundary.py] reads: vertex coordinates
    [xp], [yp]; [edges], the two vertex indices of each edge; [grad], the two
    cells next to each edge with -1 for no neighbour; cell centres [xv],
    [yv]; [mark], one integer marker per edge; the number of vertical layers
    [Nkmax] and the layer depths [z_r]. *)
Record t : Type := mk {
  xp : list float;
  yp : list float;
  edges : list (Z * Z);
  grad : list (Z * Z);
  xv : list float;
  yv : list float;
  mark : list Z;
  Nkmax : nat;
  z_r : list float
}.

(** The grid with [grd.mark] replaced. *)
Definition set_mark (g : t) (m : list Z) : t :=
  {| xp := xp g; yp := yp g; edges := edges g; grad := grad g;
     xv := xv g; yv := yv g; mark := m; Nkmax := Nkmax g; z_r := z_r g |}.

End Grid.

(** [np.mean(coords[grd.edges], axis=1)]: the mid-point coordinate of every
    edge. *)
Definition edge_mean (coords : list float) (es : list (Z * Z)) : result (list float) :=
  rows <- mapM (fun e => a <- np.item coords (fst e) ;;
                         b <- np.item coords (snd e) ;;
                         Ok (a, b)) es ;;
  Ok (np.mean_axis1 rows).

(** ** Dates and times *)

(** A Python number: the step [timeinfo[2]] is an int or a float. *)
Inductive number : Type :=
| PyInt (n : Z)
| PyFloat (f : float).

(** Python's datetimes and timedeltas hold whole microseconds.  A [datetime]
    is the number of microseconds from 0001-01-01T00:00:00 to it, a
    [timedelta] a number of microseconds.  Datetimes end with the year 9999
    and timedeltas at 999999999 days: arithmetic that leaves these ranges
    raises OverflowError. *)
Module datetime.

(** The microseconds of a second and of a day. *)
Definition second : Z := 1000000.
Definition day : Z := 86400 * second.

(** [datetime.max], 9999-12-31T23:59:59.999999. *)
Definition max : Z := 3652059 * day - 1.

Section Timedelta.

(** [float_microseconds f] is what the constructor of timedelta makes of a
    float number [f] of seconds: the nearest whole number of microseconds
    (Python 2 and Python 3 differ on ties), ValueError for a NaN and
    OverflowError for an infinity. *)
Variable float_microseconds : float -> result Z.

(** The microseconds of [seconds=x]: exact for an int, rounded for a
    float. *)
Definition microseconds (x : number) : result Z :=
  match x with
  | PyInt n => Ok (n * second)
  | PyFloat f => float_microseconds f
  end.

(** [timedelta(seconds=x)]. *)
Definition timedelta (x : number) : result Z :=
  us <- microseconds x ;;
  let days := us / day in
  if (-999999999 <=? days) && (days <=? 999999999) then Ok us
  else Raise OverflowError.

End Timedelta.

(** [t + d] for a datetime [t] and a timedelta [d]. *)
Definition add (t d : Z) : result Z :=
  let r := t + d in
  if (0 <=? r) && (r <=? max) then Ok r else Raise OverflowError.

(** [datetime(1990,1,1)]. *)
Definition epoch1990 : Z := (726468 - 1) * day.

(** [n / d] rounded to the nearest integer, a tie to the even one. *)
Definition round_half_even (n d : Z) : Z :=
  let q := n / d in
  let r := n mod d in
  if 2 * r <? d then q
  else if d <? 2 * r then q + 1
  else if Z.even q then q else q + 1.

(** [n * 2^k / 10^6] as a fraction of integers, and rounded. *)
Definition scaled (n k : Z) : Z * Z :=
  if 0 <=? k then (n * 2 ^ k, second) else (n, second * 2 ^ (- k)).

Definition mantissa (n k : Z) : Z :=
  round_half_even (fst (scaled n k)) (snd (scaled n k)).

(** The float [m * 2^(-k)]. *)
Definition float_of_parts (m k : Z) : float :=
  PrimFloat.ldshiftexp (PrimFloat.of_uint63 (Uint63.of_Z m))
    (Uint63.of_Z (FloatOps.shift - k)).

(** [n / 10**6] for a positive int [n], as Python's true division gives it:
    the float nearest to the quotient.  The exponent [k] is chosen so that
    the rounded [n * 2^k / 10^6] has 53 bits. *)
Definition div_million (n : Z) : float :=
  if n =? 0 then 0%float else
  let k0 := 52 - (Z.log2 n - 19) in
  let q0 := fst (scaled n k0) / snd (scaled n k0) in
  let k := if q0 <? 2 ^ 52 then k0 + 1 else if 2 ^ 53 <=? q0 then k0 - 1 else k0 in
  float_of_parts (mantissa n k) k.

(** [timedelta.total_seconds()]: the microseconds divided by 10**6. *)
Definition total_seconds (d : Z) : float :=
  if d <? 0 then (- div_million (- d))%float else div_million d.

End datetime.

(** ** The netCDF, print, grid-file and figure calls, as events *)

Inductive ncvalue : Type :=
| VFloats (l : list float)
| VInts (l : list Z)
| VArray (a : np.ndarray).

Inductive event : Type :=
| Print (s : string)
| NcDataset (file mode format : string)
| NcCreateDimension (name : string) (size : option nat)
| NcCreateVariable (name dtype : string) (dims : list string)
| NcAssign (name : string) (v : ncvalue)
| NcSetAttr (name key value : string)
| NcClose
| SaveEdges (file : string) (g : Grid.t)
| PltFigure
| PlotBC (g : Grid.t)
| PltPlot (x y : list float) (fmt : string) (linewidth : Z)
| PltSavefig (file : string).

(** The four lines [tmpvar=nc.createVariable(name,dtype,dims)],
    [tmpvar[:] = value], [tmpvar.setncattr('long_name',...)],
    [tmpvar.setncattr('units',...)]. *)
Definition nc_variable (name dtype : string) (dims : list string) (value : ncvalue)
    (long_name units : string) : list event :=
  [ NcCreateVariable name dtype dims;
    NcAssign name value;
    NcSetAttr name "long_name" long_name;
    NcSetAttr name "units" units ].

(** The values assigned to the variable [name], in the order of the trace. *)
Fixpoint assigned (name : string) (tr : list event) : list ncvalue :=
  match tr with
  | [] => []
  | NcAssign n v :: tr' =>
      if String.eqb n name then v :: assigned name tr' else assigned name tr'
  | _ :: tr' => assigned name tr'
  end.

(** The events that write a file. *)
Definition is_write (e : event) : bool :=
  match e with
  | SaveEdges _ _ | PltSavefig _ | NcDataset _ _ _ => true
  | _ => false
  end.

(** ** The class Boundary *)

Module Boundary.

(** What [loadBoundary] stores on the object. *)
Record Index : Type := mk_Index {
  edgep : list Z;
  N2 : nat;
  cellp : list Z;
  N3 : nat;
  xv : list float;
  yv : list float;
  xe : list float;
  ye : list float;
  Nk : nat;
  z : list float
}.

(** What [getTime] stores. *)
Record Time : Type := mk_Time {
  time : list Z;
  Nt : nat
}.

(** What [initArrays] stores. *)
Record Arrays : Type := mk_Arrays {
  boundary_u : np.ndarray;
  boundary_v : np.ndarray;
  boundary_w : np.ndarray;
  boundary_T : np.ndarray;
  boundary_S : np.ndarray;
  uc : np.ndarray;
  vc : np.ndarray;
  wc : np.ndarray;
  T : np.ndarray;
  S : np.ndarray;
  h : np.ndarray
}.

(** The object: the attributes in the order [__init__] sets them. *)
Record t : Type := mk {
  suntanspath : string;
  timeinfo : string * string * number;
  grd : Grid.t;
  index : Index;
  clock : Time;
  arrays : Arrays
}.

(** The loop [for c1,c2 in zip(cellp1,cellp2)] with [self.cellp] as
    accumulator. *)
Definition cellp_step (acc : list Z) (c : Z * Z) : list Z :=
  let (c1, c2) := c in
  if c1 =? -1 then acc ++ [c2]
  else if c2 =? -1 then acc ++ [c1]
  else acc.

Definition cellp_loop (pairs : list (Z * Z)) (acc : list Z) : list Z :=
  fold_left cellp_step pairs acc.

Definition loadBoundary (grd : Grid.t) : result Index :=
  let ind2 := np.argwhere (np.eq (Grid.mark grd) 2) in
  let ind3 := np.argwhere (np.eq (Grid.mark grd) 3) in
  let edgep := ind2 in
  let N2 := length edgep in
  cellp1 <- np.take (map fst (Grid.grad grd)) ind3 ;;
  cellp2 <- np.take (map snd (Grid.grad grd)) ind3 ;;
  let cellp := cellp_loop (combine cellp1 cellp2) [] in
  let N3 := length cellp in
  xv <- np.take (Grid.xv grd) cellp ;;
  yv <- np.take (Grid.yv grd) cellp ;;
  xe <- edge_mean (Grid.xp grd) (Grid.edges grd) ;;
  ye <- edge_mean (Grid.yp grd) (Grid.edges grd) ;;
  xe' <- np.take xe edgep ;;
  ye' <- np.take ye edgep ;;
  Ok {| edgep := edgep; N2 := N2; cellp := cellp; N3 := N3;
        xv := xv; yv := yv; xe := xe'; ye := ye';
        Nk := Grid.Nkmax grd; z := Grid.z_r grd |}.

(** [initArrays], reading [self.Nt], [self.Nk], [self.N2], [self.N3]. *)
Definition initArrays (Nt Nk N2 N3 : nat) : Arrays :=
  {| boundary_u := np.zeros [Nt; Nk; N2];
     boundary_v := np.zeros [Nt; Nk; N2];
     boundary_w := np.zeros [Nt; Nk; N2];
     boundary_T := np.zeros [Nt; Nk; N2];
     boundary_S := np.zeros [Nt; Nk; N2];
     uc := np.zeros [Nt; Nk; N3];
     vc := np.zeros [Nt; Nk; N3];
     wc := np.zeros [Nt; Nk; N3];
     T := np.zeros [Nt; Nk; N3];
     S := np.zeros [Nt; Nk; N3];
     h := np.zeros [Nt; N3] |}.

(** [ncTime]. *)
Definition ncTime (self : t) : list float :=
  map (fun t => datetime.total_seconds (t - datetime.epoch1990)) (time (clock self)).

(** [write2NC]: the calls on the dataset [nc] and the final [print], in
    program order. *)
Definition write2NC (self : t) (ncfile : string) : list event :=
  let ix := index self in
  let ar := arrays self in
  [ NcDataset ncfile "w" "NETCDF4_CLASSIC";
    NcCreateDimension "Nt" None;
    NcCreateDimension "Nk" (Some (Nk ix)) ]
  ++ (if (0 <? N2 ix)%nat then [ NcCreateDimension "Ntype2" (Some (N2 ix)) ] else [])
  ++ (if (0 <? N3 ix)%nat then [ NcCreateDimension "Ntype3" (Some (N3 ix)) ] else [])
  ++ (if (0 <? N3 ix)%nat then
        nc_variable "xv" "f8" ["Ntype3"] (VFloats (xv ix))
          "Easting of type-3 boundary points" "metres"
        ++ nc_variable "yv" "f8" ["Ntype3"] (VFloats (yv ix))
          "Northing of type-3 boundary points" "metres"
        ++ nc_variable "cellp" "i4" ["Ntype3"] (VInts (cellp ix))
          "Index of suntans grid cell corresponding to type-3 boundary" ""
      else [])
  ++ (if (0 <? N2 ix)%nat then
        nc_variable "xe" "f8" ["Ntype2"] (VFloats (xe ix))
          "Easting of type-2 boundary points" "metres"
        ++ nc_variable "ye" "f8" ["Ntype2"] (VFloats (ye ix))
          "Northing of type-2 boundary points" "metres"
        ++ nc_variable "edgep" "i4" ["Ntype2"] (VInts (edgep ix))
          "Index of suntans grid edge corresponding to type-2 boundary" ""
      else [])
  ++ nc_variable "z" "f8" ["Nk"] (VFloats (z ix))
       "Vertical grid mid-layer depth" "metres"
  ++ nc_variable "time" "f8" ["Nt"] (VFloats (ncTime self))
       "Boundary time" ""
  ++ (if (0 <? N2 ix)%nat then
        nc_variable "boundary_u" "f8" ["Nt"; "Nk"; "Ntype2"] (VArray (boundary_u ar))
          "Eastward velocity at type-2 boundary point" "metre second-1"
        ++ nc_variable "boundary_v" "f8" ["Nt"; "Nk"; "Ntype2"] (VArray (boundary_v ar))
          "Northward velocity at type-2 boundary point" "metre second-1"
        ++ nc_variable "boundary_w" "f8" ["Nt"; "Nk"; "Ntype2"] (VArray (boundary_w ar))
          "Vertical velocity at type-2 boundary point" "metre second-1"
        ++ nc_variable "boundary_T" "f8" ["Nt"; "Nk"; "Ntype2"] (VArray (boundary_T ar))
          "Water temperature at type-2 boundary point" "degrees C"
        ++ nc_variable "boundary_S" "f8" ["Nt"; "Nk"; "Ntype2"] (VArray (boundary_S ar))
          "Salinity at type-2 boundary point" "psu"
      else [])
  ++ (if (0 <? N3 ix)%nat then
        nc_variable "uc" "f8" ["Nt"; "Nk"; "Ntype3"] (VArray (uc ar))
          "Eastward velocity at type-3 boundary point" "metre second-1"
        ++ nc_variable "vc" "f8" ["Nt"; "Nk"; "Ntype3"] (VArray (vc ar))
          "Northward velocity at type-3 boundary point" "metre second-1"
        ++ nc_variable "wc" "f8" ["Nt"; "Nk"; "Ntype3"] (VArray (wc ar))
          "Vertical velocity at type-3 boundary point" "metre second-1"
        ++ nc_variable "T" "f8" ["Nt"; "Nk"; "Ntype3"] (VArray (T ar))
          "Water temperature at type-3 boundary point" "degrees C"
        ++ nc_variable "S" "f8" ["Nt"; "Nk"; "Ntype3"] (VArray (T ar))
          "Salinity at type-3 boundary point" "psu"
        ++ nc_variable "h" "f8" ["Nt"; "Ntype3"] (VArray (h ar))
          "Water surface elevation at type-3 boundary point" "metres"
      else [])
  ++ [ NcClose;
       Print ("Boundary data sucessfully written to: " ++ ncfile)%string ].

Section Collaborators.

(** Modelled from the spec: the functions the class imports.
    [strptime s fmt] is [datetime.strptime], giving a datetime or raising;
    [sunpy_Grid path] loads the grid of a folder.  [float_microseconds] is
    the rounding that [timedelta] applies to a float number of seconds. *)
Variable float_microseconds : float -> result Z.
Variable strptime : string -> string -> result Z.
Variable sunpy_Grid : string -> result Grid.t.

(** The loop of [getTime]: [while t0 < t2: self.time.append(t0);
    t0 += timedelta(seconds=self.timeinfo[2])]. *)
Fixpoint getTime_loop (fuel : nat) (step : number) (t2 t0 : Z) (time : list Z)
  : result (list Z) :=
  match fuel with
  | O => OutOfFuel
  | Datatypes.S fuel' =>
      if t0 <? t2 then
        let time' := time ++ [t0] in
        d <- datetime.timedelta float_microseconds step ;;
        t0' <- datetime.add t0 d ;;
        getTime_loop fuel' step t2 t0' time'
      else Ok time
  end.

(** [getTime]. *)
Definition getTime (timeinfo : string * string * number) (fuel : nat) : result Time :=
  t1 <- strptime (fst (fst timeinfo)) "%Y%m%d.%H%M" ;;
  t2 <- strptime (snd (fst timeinfo)) "%Y%m%d.%H%M" ;;
  time <- getTime_loop fuel (snd timeinfo) t2 t1 [] ;;
  Ok {| time := time; Nt := length time |}.

(** [__init__]. *)
Definition init (suntanspath : string) (timeinfo : string * string * number)
    (fuel : nat) : result t :=
  grd <- sunpy_Grid suntanspath ;;
  index <- loadBoundary grd ;;
  clock <- getTime timeinfo fuel ;;
  Ok {| suntanspath := suntanspath; timeinfo := timeinfo; grd := grd;
        index := index; clock := clock;
        arrays := initArrays (Nt clock) (Nk index) (N2 index) (N3 index) |}.

End Collaborators.

End Boundary.

(** ** modifyBCmarker *)

Definition polygon : Type := list (float * float).

Definition banner : string :=
  "#######################################################".

Definition dquote : string := String (ascii_of_nat 34) EmptyString.

Section Reclassifier.

(** Modelled from the spec: the functions [modifyBCmarker] imports.
    [sunpy_Grid path] loads the grid of a folder; [readShpPoly file field]
    gives the polygons of a shapefile and the value of [field] for each;
    [pnpoly x y poly] is the point-in-polygon test that
    [nxutils.points_inside_poly] applies to every point. *)
Variable sunpy_Grid : string -> result Grid.t.
Variable readShpPoly : string -> string -> result (list polygon * list Z).
Variable pnpoly : float -> float -> polygon -> bool.

Definition points_inside_poly (points : list (float * float)) (verts : polygon)
  : list bool :=
  map (fun p => pnpoly (fst p) (snd p) verts) points.

(** One pass of the body of [for xpoly, bctype in zip(XY,newmarker)]. *)
Definition reclassify_step (xe ye : list float) (grd : Grid.t) (pb : polygon * Z)
  : result Grid.t :=
  let (xpoly, bctype) := pb in
  let ind0 := np.gt (Grid.mark grd) 0 in
  xs <- np.select ind0 xe ;;
  ys <- np.select ind0 ye ;;
  let edges := combine xs ys in
  mark <- np.select ind0 (Grid.mark grd) ;;
  let ind1 := points_inside_poly edges xpoly in
  mark' <- np.fill ind1 mark bctype ;;
  m <- np.scatter ind0 (Grid.mark grd) mark' ;;
  Ok (Grid.set_mark grd m).

(** The whole [for] loop. *)
Fixpoint reclassify (xe ye : list float) (polys : list (polygon * Z)) (grd : Grid.t)
  : result Grid.t :=
  match polys with
  | [] => Ok grd
  | pb :: polys' =>
      grd' <- reclassify_step xe ye grd pb ;;
      reclassify xe ye polys' grd'
  end.

(** [modifyBCmarker(suntanspath,bcfile)]: the grid object as the call leaves
    it and the events of the call, for a call that returns. *)
Definition modifyBCmarker (suntanspath bcfile : string) : result (Grid.t * list event) :=
  let out0 :=
    [ Print banner;
      Print "     Modifying the boundary markers for grid in folder:";
      Print ("         " ++ suntanspath)%string ] in
  grd <- sunpy_Grid suntanspath ;;
  xe <- edge_mean (Grid.xp grd) (Grid.edges grd) ;;
  ye <- edge_mean (Grid.yp grd) (Grid.edges grd) ;;
  shp <- readShpPoly bcfile "marker" ;;
  let (XY, newmarker) := shp in
  if (length XY <? 1)%nat then
    Ok (grd, out0 ++
      [ Print ("Error - could not find any polygons with the field name "
               ++ dquote ++ "marker" ++ dquote ++ " in shapefile: " ++ bcfile)%string ])
  else
    grd' <- reclassify xe ye (combine XY newmarker) grd ;;
    let edgefile := (suntanspath ++ "/edges.dat")%string in
    let figfile := (suntanspath ++ "/BoundaryMarkerTypes.pdf")%string in
    Ok (grd', out0 ++
      [ SaveEdges edgefile grd';
        Print ("Updated markers written to: " ++ edgefile)%string;
        PltFigure;
        PlotBC grd';
        PltPlot (map fst (hd [] XY)) (map snd (hd [] XY)) "m" 2;
        PltSavefig figfile;
        Print ("Marker plot saved to: " ++ figfile)%string;
        Print "Done.";
        Print banner ]).

End Reclassifier.

(** ** Vocabulary of the statements *)

(** The edges with marker 3 and with marker 2, in edge order: what
    [loadBoundary] calls [ind3] and [ind2]. *)
Definition type3_edges (g : Grid.t) : list Z := np.argwhere (np.eq (Grid.mark g) 3).
Definition type2_edges (g : Grid.t) : list Z := np.argwhere (np.eq (Grid.mark g) 2).

(** The row of [grd.grad] of the edge [e]. *)
Definition adjacency (g : Grid.t) (e : Z) : option (Z * Z) :=
  nth_error (Grid.grad g) (Z.to_nat e).

(** What one pass of the loop of [loadBoundary] appends to [self.cellp] when
    it is at the edge [e]. *)
Definition appended_for (g : Grid.t) (e : Z) : list Z :=
  match adjacency g e with
  | Some row => Boundary.cellp_step [] row
  | None => []
  end.

(** The edge has two valid neighbours: neither entry of its row is -1. *)
Definition two_valid (g : Grid.t) (e : Z) : bool :=
  match adjacency g e with
  | Some (c1, c2) => negb (c1 =? -1) && negb (c2 =? -1)
  | None => false
  end.

(** [c] is the one valid neighbour of the edge [e]: the other entry of the
    row is the sentinel and [c] is not. *)
Definition resolved (g : Grid.t) (e c : Z) : Prop :=
  exists c1 c2, adjacency g e = Some (c1, c2) /\ c <> -1 /\
    ((c1 = -1 /\ c = c2) \/ (c2 = -1 /\ c = c1)).

(** [i] is an index into an array of [n] entries. *)
Definition index_ok (n : nat) (i : Z) : bool := (0 <=? i) && (i <? Z.of_nat n).

(** A grid as the loader builds it: one row of [edges] and of [grad] per
    marker, as many x as y coordinates, vertex indices within the vertices,
    and every entry of [grad] a cell index or the sentinel -1. *)
Definition grid_wf (g : Grid.t) : bool :=
  Nat.eqb (length (Grid.edges g)) (length (Grid.mark g))
  && Nat.eqb (length (Grid.grad g)) (length (Grid.mark g))
  && Nat.eqb (length (Grid.yp g)) (length (Grid.xp g))
  && Nat.eqb (length (Grid.yv g)) (length (Grid.xv g))
  && forallb (fun e => index_ok (length (Grid.xp g)) (fst e)
                       && index_ok (length (Grid.xp g)) (snd e)) (Grid.edges g)
  && forallb (fun r => ((fst r =? -1) || index_ok (length (Grid.xv g)) (fst r))
                       && ((snd r =? -1) || index_ok (length (Grid.xv g)) (snd r)))
             (Grid.grad g).

(** The invariant of the data model on the edges with marker 3: exactly one
    entry of the row is the sentinel. *)
Definition type3_invariant (g : Grid.t) : bool :=
  forallb (fun mr => if fst mr =? 3
                     then xorb (fst (snd mr) =? -1) (snd (snd mr) =? -1)
                     else true)
          (combine (Grid.mark g) (Grid.grad g)).

(** The number of instants of the time axis as the data model words it:
    none when the end is not after the start, else (end - start) / step
    rounded up. *)
Definition axis_length (t1 t2 dt : Z) : Z :=
  if t1 <? t2 then (t2 - t1 + dt - 1) / dt else 0.

(** The instants [t1], [t1 + dt], ... , [t1 + (n-1) dt]. *)
Definition axis (t1 dt : Z) (n : nat) : list Z :=
  map (fun k => t1 + Z.of_nat k * dt) (seq 0 n).

(** The array has the shape [sh] and reads as zero at every index. *)
Definition zero_array (a : np.ndarray) (sh : list nat) : Prop :=
  np.shape a = sh /\
  length (np.data a) = np.size_of sh /\
  Forall (fun x => x = 0%float) (np.data a) /\
  forall idx, Forall2 lt idx sh -> np.get a idx = Some 0%float.

(** What one pass of the loop of [modifyBCmarker] does to the marker [m] of
    an edge with mid-point (x, y), and what the passes for [polys] do in
    turn. *)
Definition relabel_one (pnpoly : float -> float -> polygon -> bool)
    (x y : float) (m : Z) (pb : polygon * Z) : Z :=
  if (0 <? m) && pnpoly x y (fst pb) then snd pb else m.

Definition relabel_all (pnpoly : float -> float -> polygon -> bool)
    (x y : float) (polys : list (polygon * Z)) (m : Z) : Z :=
  fold_left (relabel_one pnpoly x y) polys m.

(** The same for the whole marker array, given the mid-points of all
    edges. *)
Fixpoint relabel (pnpoly : float -> float -> polygon -> bool) (pb : polygon * Z)
    (xe ye : list float) (marks : list Z) : list Z :=
  match xe, ye, marks with
  | x :: xe', y :: ye', m :: marks' =>
      relabel_one pnpoly x y m pb :: relabel pnpoly pb xe' ye' marks'
  | _, _, _ => marks
  end.

(** The dimensions and the variables that a trace creates, in order. *)
Fixpoint created_dims (tr : list event) : list string :=
  match tr with
  | [] => []
  | NcCreateDimension d _ :: tr' => d :: created_dims tr'
  | _ :: tr' => created_dims tr'
  end.

Fixpoint created_vars (tr : list event) : list string :=
  match tr with
  | [] => []
  | NcCreateVariable v _ _ :: tr' => v :: created_vars tr'
  | _ :: tr' => created_vars tr'
  end.

Definition mem (s : string) (l : list string) : bool := existsb (String.eqb s) l.

(** The calls that a run of [write2NC] has made when it ends after [k] of
    them.  A run that returns has made all the calls of [Boundary.write2NC];
    a run in which a call raises (the import, a dimension that netCDF
    refuses, a value that does not fit its variable) has made the calls
    before that one, and nothing after it. *)
Definition write2NC_calls (self : Boundary.t) (ncfile : string) (k : nat)
  : list event :=
  firstn k (Boundary.write2NC self ncfile).

(** How far a dataset has come: not opened; open, with its dimensions and
    variables, between two variables; a variable just created (its value is
    due), assigned (its long_name is due), named (its units are due); closed;
    and closed with the final [print] done. *)
Inductive nc_phase : Type :=
| Unopened
| Ready (dims vars : list string)
| Created (dims vars : list string) (v : string)
| Assigned (dims vars : list string) (v : string)
| Named (dims vars : list string) (v : string)
| Closed
| Done.

(** One call in order: the dataset is opened first; a dimension is created
    once; a variable is created once, over dimensions created before it, and
    is then assigned, given its long_name and given its units; the dataset is
    closed between two variables, and only the [print] follows.  Any other
    call is out of order. *)
Definition nc_step (ph : nc_phase) (e : event) : option nc_phase :=
  match ph, e with
  | Unopened, NcDataset _ _ _ => Some (Ready [] [])
  | Ready dims vars, NcCreateDimension d _ =>
      if mem d dims then None else Some (Ready (d :: dims) vars)
  | Ready dims vars, NcCreateVariable v _ ds =>
      if negb (mem v vars) && forallb (fun d => mem d dims) ds
      then Some (Created dims (v :: vars) v) else None
  | Created dims vars v, NcAssign v' _ =>
      if String.eqb v' v then Some (Assigned dims vars v) else None
  | Assigned dims vars v, NcSetAttr v' k _ =>
      if String.eqb v' v && String.eqb k "long_name"
      then Some (Named dims vars v) else None
  | Named dims vars v, NcSetAttr v' k _ =>
      if String.eqb v' v && String.eqb k "units"
      then Some (Ready dims vars) else None
  | Ready _ _, NcClose => Some Closed
  | Closed, Print _ => Some Done
  | _, _ => None
  end.

(** The calls of a trace, one after the other. *)
Fixpoint nc_run (ph : nc_phase) (tr : list event) : option nc_phase :=
  match tr with
  | [] => Some ph
  | e :: tr' =>
      match nc_step ph e with
      | Some ph' => nc_run ph' tr'
      | None => None
      end
  end.

(** The markers of the polygons of the sequence that hold the point (x, y),
    in order, and what the marker [c] of such a polygon does to the marker
    [m] of an edge. *)
Definition containing (pnpoly : float -> float -> polygon -> bool)
    (x y : float) (polys : list (polygon * Z)) : list Z :=
  map snd (filter (fun pb => pnpoly x y (fst pb)) polys).

Definition take_marker (m c : Z) : Z := if 0 <? m then c else m.

(** ** Example data *)

(** A unit square cut into two triangles: vertices 0..3, the four sides as
    edges 0..3 and the diagonal 0-2 as edge 4; cell 0 lies below the
    diagonal, cell 1 above it.  Sides 0 and 3 are type-3 boundaries, side 1
    is a type-2 boundary, side 2 a closed wall, the diagonal is interior. *)
Definition demo_grid : Grid.t :=
  {| Grid.xp := [0; 1; 1; 0]%float;
     Grid.yp := [0; 0; 1; 1]%float;
     Grid.edges := [(0, 1); (1, 2); (2, 3); (3, 0); (0, 2)];
     Grid.grad := [(0, -1); (0, -1); (1, -1); (-1, 1); (0, 1)];
     Grid.xv := [0.75; 0.25]%float;
     Grid.yv := [0.25; 0.75]%float;
     Grid.mark := [3; 2; 1; 3; 0];
     Grid.Nkmax := 2;
     Grid.z_r := [-1; -3]%float |}.

(** The same grid with the diagonal marked 3 although it has two
    neighbours. *)
Definition demo_grid_two_valid : Grid.t := Grid.set_mark demo_grid [3; 2; 1; 3; 3].

(** The same grid with side 0 as its only type-3 edge, and no neighbour
    recorded for it. *)
Definition demo_grid_no_valid : Grid.t :=
  {| Grid.xp := Grid.xp demo_grid;
     Grid.yp := Grid.yp demo_grid;
     Grid.edges := Grid.edges demo_grid;
     Grid.grad := [(-1, -1); (0, -1); (1, -1); (-1, 1); (0, 1)];
     Grid.xv := Grid.xv demo_grid;
     Grid.yv := Grid.yv demo_grid;
     Grid.mark := [3; 2; 1; 1; 0];
     Grid.Nkmax := Grid.Nkmax demo_grid;
     Grid.z_r := Grid.z_r demo_grid |}.

(** What [loadBoundary] stores for [demo_grid] and for
    [demo_grid_two_valid]. *)
Definition demo_index : Boundary.Index :=
  {| Boundary.edgep := [1];
     Boundary.N2 := 1;
     Boundary.cellp := [0; 1];
     Boundary.N3 := 2;
     Boundary.xv := [0.75; 0.25]%float;
     Boundary.yv := [0.25; 0.75]%float;
     Boundary.xe := [1]%float;
     Boundary.ye := [0.5]%float;
     Boundary.Nk := 2;
     Boundary.z := [-1; -3]%float |}.

(** What [loadBoundary] stores for [demo_grid_no_valid]. *)
Definition demo_index_no_valid : Boundary.Index :=
  {| Boundary.edgep := [1];
     Boundary.N2 := 1;
     Boundary.cellp := [-1];
     Boundary.N3 := 1;
     Boundary.xv := [0.25]%float;
     Boundary.yv := [0.75]%float;
     Boundary.xe := [1]%float;
     Boundary.ye := [0.5]%float;
     Boundary.Nk := 2;
     Boundary.z := [-1; -3]%float |}.

(** A reader of zero-padded timestamps [YYYYMMDD.HHMM], for the examples:
    it stands for [datetime.strptime] on such strings and on the format of
    [getTime], and raises ValueError on anything else. *)
Definition digit (c : ascii) : option Z :=
  let n := Z.of_nat (nat_of_ascii c) in
  if (48 <=? n) && (n <=? 57) then Some (n - 48) else None.

Fixpoint digits (s : list ascii) (acc : Z) : option Z :=
  match s with
  | [] => Some acc
  | c :: s' =>
      match digit c with
      | Some d => digits s' (10 * acc + d)
      | None => None
      end
  end.

Definition is_leap (y : Z) : bool :=
  ((y mod 4 =? 0) && negb (y mod 100 =? 0)) || (y mod 400 =? 0).

Definition days_in_month (y m : Z) : Z :=
  if m =? 2 then (if is_leap y then 29 else 28)
  else if (m =? 4) || (m =? 6) || (m =? 9) || (m =? 11) then 30 else 31.

Fixpoint days_before_month (y : Z) (m : nat) : Z :=
  match m with
  | O => 0
  | S m' => days_before_month y m' + days_in_month y (Z.of_nat m)
  end.

Definition days_before_year (y : Z) : Z :=
  let p := y - 1 in p * 365 + p / 4 - p / 100 + p / 400.

Definition demo_strptime (s fmt : string) : result Z :=
  if negb (String.eqb fmt "%Y%m%d.%H%M") then Raise ValueError else
  match list_ascii_of_string s with
  | [y1; y2; y3; y4; m1; m2; d1; d2; dot; h1; h2; n1; n2] =>
      match digits [y1; y2; y3; y4] 0, digits [m1; m2] 0, digits [d1; d2] 0,
            digits [h1; h2] 0, digits [n1; n2] 0 with
      | Some y, Some m, Some d, Some hh, Some mi =>
          if Ascii.eqb dot "."
             && (1 <=? y) && (1 <=? m) && (m <=? 12)
             && (1 <=? d) && (d <=? days_in_month y m)
             && (hh <=? 23) && (mi <=? 59)
          then Ok (((days_before_year y + days_before_month y (Z.to_nat (m - 1)) + d - 1)
                    * 86400 + hh * 3600 + mi * 60) * datetime.second)
          else Raise ValueError
      | _, _, _, _, _ => Raise ValueError
      end
  | _ => Raise ValueError
  end.

(** A rounding of float seconds to microseconds, for the examples: the
    value of the float times 10^6, rounded to the nearest integer, a tie to
    the even one.  Python multiplies in floating point before it rounds, so
    that the two can differ by a microsecond next to a tie; the examples take
    steps on which they agree: 0.5 and 22.5, whose microseconds are whole,
    and 2^-22. *)
Definition demo_float_microseconds (f : float) : result Z :=
  match Prim2SF f with
  | S754_zero _ => Ok 0
  | S754_infinity _ => Raise OverflowError
  | S754_nan => Raise ValueError
  | S754_finite s m e =>
      let n := Z.pos m * datetime.second in
      let r := if 0 <=? e then n * 2 ^ e
               else datetime.round_half_even n (2 ^ (- e)) in
      Ok (if s then - r else r)
  end.

(** A positive float step of 2^-22 seconds, about 0.24 microseconds. *)
Definition demo_tiny_step : float := 0x1p-22%float.

(** A grid folder and the object built from it, for the examples. *)
Definition demo_sunpy_Grid (path : string) : result Grid.t :=
  if String.eqb path "demo" then Ok demo_grid else Raise IOError.

(** A Boundary object whose temperature and salinity differ. *)
Definition demo_boundary : Boundary.t :=
  {| Boundary.suntanspath := "demo";
     Boundary.timeinfo := ("20120101.0000", "20120101.0200", PyInt 3600);
     Boundary.grd := demo_grid;
     Boundary.index := demo_index;
     Boundary.clock := {| Boundary.time := [63460972800000000; 63460976400000000];
                          Boundary.Nt := 2 |};
     Boundary.arrays :=
       {| Boundary.boundary_u := np.zeros [2; 2; 1]%nat;
          Boundary.boundary_v := np.zeros [2; 2; 1]%nat;
          Boundary.boundary_w := np.zeros [2; 2; 1]%nat;
          Boundary.boundary_T := np.zeros [2; 2; 1]%nat;
          Boundary.boundary_S := np.zeros [2; 2; 1]%nat;
          Boundary.uc := np.zeros [2; 2; 2]%nat;
          Boundary.vc := np.zeros [2; 2; 2]%nat;
          Boundary.wc := np.zeros [2; 2; 2]%nat;
          Boundary.T := {| np.shape := [2; 2; 2]%nat;
                           np.data := repeat 20%float 8 |};
          Boundary.S := {| np.shape := [2; 2; 2]%nat;
                           np.data := repeat 35%float 8 |};
          Boundary.h := np.zeros [2; 2]%nat |} |}.

(** A ray-casting point-in-polygon test, for the examples: the number of
    polygon sides that a ray from (x, y) towards +x crosses is odd. *)
Definition crosses (x y : float) (p q : float * float) : bool :=
  let (xi, yi) := p in
  let (xj, yj) := q in
  (negb (Bool.eqb (PrimFloat.ltb y yi) (PrimFloat.ltb y yj)))
  && PrimFloat.ltb x ((xj - xi) * (y - yi) / (yj - yi) + xi)%float.

Fixpoint crossings (x y : float) (prev : float * float) (ring : polygon) : bool :=
  match ring with
  | [] => false
  | p :: ring' => xorb (crosses x y p prev) (crossings x y p ring')
  end.

Definition demo_pnpoly (x y : float) (poly : polygon) : bool :=
  match poly with
  | [] => false
  | _ :: _ => crossings x y (last poly (0, 0)%float) poly
  end.

(** Rectangles over the unit square of [demo_grid]: [poly_low] holds the
    mid-points of the edges 0, 1 and 4, [poly_high] those of the edges 1, 2
    and 4, [poly_all] all five. *)
Definition poly_low : polygon :=
  [(0.25, -0.25); (1.25, -0.25); (1.25, 0.75); (0.25, 0.75)]%float.
Definition poly_high : polygon :=
  [(0.25, 0.25); (1.25, 0.25); (1.25, 1.25); (0.25, 1.25)]%float.
Definition poly_all : polygon :=
  [(-0.5, -0.5); (1.5, -0.5); (1.5, 1.5); (-0.5, 1.5)]%float.

(** Shapefiles, by name, for the examples. *)
Definition demo_readShpPoly (file field : string) : result (list polygon * list Z) :=
  if negb (String.eqb field "marker") then Ok ([], [])
  else if String.eqb file "low5_high7.shp" then Ok ([poly_low; poly_high], [5; 7])
  else if String.eqb file "high7_low5.shp" then Ok ([poly_high; poly_low], [7; 5])
  else if String.eqb file "low0_all5.shp" then Ok ([poly_low; poly_all], [0; 5])
  else if String.eqb file "none.shp" then Ok ([], [])
  else Raise IOError.

(** The mid-points of the edges of [demo_grid]. *)
Definition demo_xe : list float := [0.5; 1; 0.5; 0; 0.5]%float.
Definition demo_ye : list float := [0; 0.5; 1; 0.5; 0.5]%float.

(** [demo_grid] with the last two rows of [grad] missing. *)
Definition demo_grid_short_grad : Grid.t :=
  {| Grid.xp := Grid.xp demo_grid;
     Grid.yp := Grid.yp demo_grid;
     Grid.edges := Grid.edges demo_grid;
     Grid.grad := [(0, -1); (0, -1); (1, -1)];
     Grid.xv := Grid.xv demo_grid;
     Grid.yv := Grid.yv demo_grid;
     Grid.mark := Grid.mark demo_grid;
     Grid.Nkmax := Grid.Nkmax demo_grid;
     Grid.z_r := Grid.z_r demo_grid |}.

(** Two rectangles that share no edge mid-point of [demo_grid]: [poly_left]
    holds the mid-point of edge 3 only, [poly_right] that of edge 1 only. *)
Definition poly_left : polygon :=
  [(-0.25, 0.25); (0.25, 0.25); (0.25, 0.75); (-0.25, 0.75)]%float.
Definition poly_right : polygon :=
  [(0.75, 0.25); (1.25, 0.25); (1.25, 0.75); (0.75, 0.75)]%float.

(** More shapefiles, by name. *)
Definition demo_readShpPoly2 (file field : string) : result (list polygon * list Z) :=
  if String.eqb file "left2.shp" && String.eqb field "marker"
  then Ok ([poly_left], [2])
  else demo_readShpPoly file field.

(** * Properties *)

(** ** The result monad and the numpy operations *)

Lemma bind_Ok_inv {A B : Type} (r : result A) (k : A -> result B) (b : B) :
  (x <- r ;; k x) = Ok b -> exists a, r = Ok a /\ k a = Ok b.
Proof. destruct r as [a| |]; simpl; intros H; try discriminate. exists a; auto. Qed.

Ltac inv_bind H :=
  let a := fresh "v" in
  let Ha := fresh "Hv" in
  apply bind_Ok_inv in H; destruct H as (a & Ha & H).

Lemma mapM_Ok_Forall2 {A B : Type} (f : A -> result B) (l : list A) (r : list B) :
  mapM f l = Ok r -> Forall2 (fun a b => f a = Ok b) l r.
Proof.
  revert r; induction l as [|a l IH]; simpl; intros r H.
  - injection H as <-. constructor.
  - inv_bind H. inv_bind H. injection H as <-. constructor; auto.
Qed.

Lemma Forall2_mapM_Ok {A B : Type} (f : A -> result B) (l : list A) (r : list B) :
  Forall2 (fun a b => f a = Ok b) l r -> mapM f l = Ok r.
Proof.
  induction 1 as [|a b l r Hab _ IH]; simpl; [reflexivity|].
  rewrite Hab; simpl. rewrite IH; reflexivity.
Qed.

Lemma item_Ok_nth {A : Type} (a : list A) (i : Z) (x : A) :
  0 <= i -> np.item a i = Ok x -> nth_error a (Z.to_nat i) = Some x.
Proof.
  intros Hi. unfold np.item.
  destruct (i <? 0) eqn:E; [apply Z.ltb_lt in E; lia|].
  destruct ((0 <=? i) && (i <? Z.of_nat (length a))); [|discriminate].
  destruct (nth_error a (Z.to_nat i)); [|discriminate].
  intros H; injection H as <-; reflexivity.
Qed.

Lemma nth_item_Ok {A : Type} (a : list A) (i : Z) (x : A) :
  0 <= i -> nth_error a (Z.to_nat i) = Some x -> np.item a i = Ok x.
Proof.
  intros Hi Hn. unfold np.item.
  destruct (i <? 0) eqn:E; [apply Z.ltb_lt in E; lia|].
  assert (Hlt : (Z.to_nat i < length a)%nat) by (apply nth_error_Some; congruence).
  replace ((0 <=? i) && (i <? Z.of_nat (length a))) with true.
  - rewrite Hn; reflexivity.
  - symmetry; apply andb_true_iff; split; [apply Z.leb_le|apply Z.ltb_lt]; lia.
Qed.

Lemma argwhere_from_In (mask : list bool) (k i : Z) :
  In i (np.argwhere_from k mask) <->
  k <= i /\ nth_error mask (Z.to_nat (i - k)) = Some true.
Proof.
  revert k; induction mask as [|b m IH]; intros k; simpl.
  - split; [tauto|]. intros [_ H]. destruct (Z.to_nat (i - k)); discriminate.
  - assert (Hrec : In i (np.argwhere_from (k + 1) m) <->
                   k + 1 <= i /\ nth_error m (Z.to_nat (i - (k + 1))) = Some true) by apply IH.
    assert (Hstep : k + 1 <= i -> Z.to_nat (i - k) = S (Z.to_nat (i - (k + 1)))) by lia.
    destruct b; simpl; rewrite Hrec; split.
    + intros [<- | [H1 H2]].
      * split; [lia|]. replace (k - k) with 0 by lia. reflexivity.
      * split; [lia|]. rewrite Hstep by lia. exact H2.
    + intros [H1 H2]. destruct (Z.eq_dec k i) as [->|Hne]; [now left|right].
      split; [lia|]. rewrite Hstep in H2 by lia. exact H2.
    + intros [H1 H2]. split; [lia|]. rewrite Hstep by lia. exact H2.
    + intros [H1 H2]. destruct (Z.eq_dec k i) as [->|Hne].
      * replace (i - i) with 0 in H2 by lia. discriminate.
      * split; [lia|]. rewrite Hstep in H2 by lia. exact H2.
Qed.

Lemma argwhere_from_sorted (mask : list bool) (k : Z) :
  StronglySorted Z.lt (np.argwhere_from k mask).
Proof.
  revert k; induction mask as [|b m IH]; intros k; simpl; [constructor|].
  destruct b; [|apply IH].
  constructor; [apply IH|].
  apply Forall_forall. intros i Hi. apply argwhere_from_In in Hi. lia.
Qed.

Lemma argwhere_from_length (mask : list bool) (k : Z) :
  length (np.argwhere_from k mask) = np.count_true mask.
Proof.
  revert k; induction mask as [|b m IH]; intros k; simpl; [reflexivity|].
  unfold np.count_true in *. destruct b; simpl; rewrite IH; reflexivity.
Qed.

Lemma count_true_eq (a : list Z) (v : Z) :
  np.count_true (np.eq a v) = count_occ Z.eq_dec a v.
Proof.
  unfold np.count_true, np.eq. induction a as [|x a IH]; simpl; [reflexivity|].
  destruct (Z.eq_dec x v) as [->|Hne].
  - rewrite Z.eqb_refl. simpl. now rewrite IH.
  - apply Z.eqb_neq in Hne. rewrite Hne. exact IH.
Qed.

Lemma nth_error_eq_mask (a : list Z) (v : Z) (n : nat) :
  nth_error (np.eq a v) n = Some true <-> nth_error a n = Some v.
Proof.
  unfold np.eq. rewrite nth_error_map.
  destruct (nth_error a n) as [x|]; simpl; split; intros H; try discriminate.
  - injection H as H. apply Z.eqb_eq in H. now subst.
  - injection H as ->. now rewrite Z.eqb_refl.
Qed.

Lemma argwhere_eq_In (a : list Z) (v i : Z) :
  In i (np.argwhere (np.eq a v)) <-> 0 <= i /\ nth_error a (Z.to_nat i) = Some v.
Proof.
  unfold np.argwhere. rewrite argwhere_from_In, Z.sub_0_r, nth_error_eq_mask. tauto.
Qed.

(** ** Boundary.loadBoundary *)

Lemma argwhere_nonneg (mask : list bool) :
  Forall (fun e => 0 <= e) (np.argwhere mask).
Proof.
  apply Forall_forall. intros e He. apply argwhere_from_In in He. lia.
Qed.

Lemma take_columns (rows : list (Z * Z)) (idx c1s c2s : list Z) :
  Forall (fun e => 0 <= e) idx ->
  np.take (map fst rows) idx = Ok c1s ->
  np.take (map snd rows) idx = Ok c2s ->
  Forall2 (fun e row => nth_error rows (Z.to_nat e) = Some row) idx (combine c1s c2s).
Proof.
  unfold np.take. intros Hpos; revert c1s c2s.
  induction Hpos as [|e idx He _ IH]; simpl; intros c1s c2s H1 H2.
  - injection H1 as <-. constructor.
  - inv_bind H1. inv_bind H1. injection H1 as <-.
    inv_bind H2. inv_bind H2. injection H2 as <-.
    simpl. constructor; [|apply IH; assumption].
    apply item_Ok_nth in Hv, Hv1; try assumption.
    rewrite nth_error_map in Hv, Hv1.
    destruct (nth_error rows (Z.to_nat e)) as [[a b]|]; simpl in *; congruence.
Qed.

Lemma cellp_loop_flat_map (rows : list (Z * Z)) (acc : list Z) :
  Boundary.cellp_loop rows acc = acc ++ flat_map (Boundary.cellp_step []) rows.
Proof.
  unfold Boundary.cellp_loop. revert acc.
  induction rows as [|[c1 c2] rows IH]; intros acc; simpl.
  - now rewrite app_nil_r.
  - rewrite IH. destruct (c1 =? -1); [|destruct (c2 =? -1)]; simpl;
      rewrite <- ?app_assoc; reflexivity.
Qed.

Lemma flat_map_Forall2 {A B C : Type} (f : A -> list C) (h : B -> list C)
    (l : list A) (r : list B) :
  Forall2 (fun a b => f a = h b) l r -> flat_map f l = flat_map h r.
Proof. induction 1; simpl; congruence. Qed.

Lemma columns_cellp (g : Grid.t) (c1s c2s : list Z) :
  np.take (map fst (Grid.grad g)) (type3_edges g) = Ok c1s ->
  np.take (map snd (Grid.grad g)) (type3_edges g) = Ok c2s ->
  Forall (fun e => adjacency g e <> None) (type3_edges g) /\
  Boundary.cellp_loop (combine c1s c2s) [] = flat_map (appended_for g) (type3_edges g).
Proof.
  intros H1 H2.
  pose proof (take_columns _ _ _ _ (argwhere_nonneg _) H1 H2) as Hrows.
  fold (type3_edges g) in Hrows. split.
  - clear -Hrows. induction Hrows as [|e row es rows Hr _ IH]; constructor; auto.
    unfold adjacency. congruence.
  - rewrite cellp_loop_flat_map. simpl. symmetry.
    apply flat_map_Forall2.
    eapply Forall2_impl; [|exact Hrows].
    intros e row Hr. unfold appended_for, adjacency. now rewrite Hr.
Qed.

(** What a call of [loadBoundary] that returns has stored in the index
    attributes. *)
Lemma loadBoundary_Ok (g : Grid.t) (b : Boundary.Index) :
  Boundary.loadBoundary g = Ok b ->
  Boundary.edgep b = type2_edges g /\
  Boundary.N2 b = length (Boundary.edgep b) /\
  Forall (fun e => adjacency g e <> None) (type3_edges g) /\
  Boundary.cellp b = flat_map (appended_for g) (type3_edges g) /\
  Boundary.N3 b = length (Boundary.cellp b) /\
  Boundary.Nk b = Grid.Nkmax g.
Proof.
  unfold Boundary.loadBoundary. intros H.
  inv_bind H. inv_bind H. do 6 inv_bind H. injection H as <-. simpl.
  destruct (columns_cellp g _ _ Hv Hv0) as [Hadj Hc].
  repeat split; try reflexivity; assumption.
Qed.

Lemma cellp_step_length (row : Z * Z) :
  (length (Boundary.cellp_step [] row) <= 1)%nat.
Proof.
  destruct row as [c1 c2]. simpl.
  destruct (c1 =? -1); [|destruct (c2 =? -1)]; simpl; lia.
Qed.

Lemma appended_for_length (g : Grid.t) (e : Z) :
  (length (appended_for g e) <= 1)%nat.
Proof.
  unfold appended_for. destruct (adjacency g e); [apply cellp_step_length|simpl; lia].
Qed.

Lemma appended_two_valid (g : Grid.t) (e : Z) :
  adjacency g e <> None ->
  length (appended_for g e) = if two_valid g e then 0%nat else 1%nat.
Proof.
  unfold appended_for, two_valid. destruct (adjacency g e) as [[c1 c2]|]; [|congruence].
  intros _. simpl. destruct (c1 =? -1); [|destruct (c2 =? -1)]; reflexivity.
Qed.

Lemma flat_map_count (g : Grid.t) (es : list Z) :
  Forall (fun e => adjacency g e <> None) es ->
  (length (flat_map (appended_for g) es) + length (filter (two_valid g) es)
   = length es)%nat.
Proof.
  induction 1 as [|e es He _ IH]; simpl; [reflexivity|].
  rewrite length_app, (appended_two_valid g e He).
  destruct (two_valid g e); simpl; lia.
Qed.

Lemma filter_In_length {A : Type} (f : A -> bool) (l : list A) (x : A) :
  In x l -> f x = true -> (0 < length (filter f l))%nat.
Proof.
  intros Hin Hf. assert (Hx : In x (filter f l)) by (apply filter_In; auto).
  destruct (filter f l); [contradiction|simpl; lia].
Qed.

Lemma index_ok_item {A : Type} (a : list A) (i : Z) :
  index_ok (length a) i = true -> exists x, np.item a i = Ok x.
Proof.
  unfold index_ok. intros H. apply andb_true_iff in H as [H1 H2].
  apply Z.leb_le in H1. apply Z.ltb_lt in H2.
  destruct (nth_error a (Z.to_nat i)) as [x|] eqn:E.
  - exists x. now apply nth_item_Ok.
  - apply nth_error_None in E. lia.
Qed.

Lemma take_total {A : Type} (a : list A) (idx : list Z) :
  Forall (fun i => index_ok (length a) i = true) idx ->
  exists r, np.take a idx = Ok r /\ length r = length idx.
Proof.
  unfold np.take. induction 1 as [|i idx Hi _ (r & Hr & Hlen)]; simpl.
  - exists []; auto.
  - destruct (index_ok_item a i Hi) as (x & ->). simpl. rewrite Hr. simpl.
    exists (x :: r). simpl. auto.
Qed.

Lemma edge_mean_total (coords : list float) (es : list (Z * Z)) :
  forallb (fun e => index_ok (length coords) (fst e)
                    && index_ok (length coords) (snd e)) es = true ->
  exists m, edge_mean coords es = Ok m /\ length m = length es.
Proof.
  unfold edge_mean. intros H.
  assert (Hrows : exists rows,
    mapM (fun e => a <- np.item coords (fst e) ;;
                   b <- np.item coords (snd e) ;; Ok (a, b)) es = Ok rows /\
    length rows = length es).
  { induction es as [|e es IH]; simpl in *; [exists []; auto|].
    apply andb_true_iff in H as [He Hes]. apply andb_true_iff in He as [Ha Hb].
    destruct (index_ok_item coords _ Ha) as (x & ->).
    destruct (index_ok_item coords _ Hb) as (y & ->). simpl.
    destruct (IH Hes) as (rows & -> & Hlen). simpl.
    exists ((x, y) :: rows). simpl. auto. }
  destruct Hrows as (rows & -> & Hlen). simpl.
  eexists; split; [reflexivity|]. unfold np.mean_axis1. now rewrite length_map.
Qed.

Lemma mapM_length {A B : Type} (f : A -> result B) (l : list A) (r : list B) :
  mapM f l = Ok r -> length r = length l.
Proof. intros H. symmetry. exact (Forall2_length (mapM_Ok_Forall2 f l r H)). Qed.

Lemma edge_mean_length (coords : list float) (es : list (Z * Z)) (m : list float) :
  edge_mean coords es = Ok m -> length m = length es.
Proof.
  unfold edge_mean. intros H. inv_bind H. injection H as <-.
  unfold np.mean_axis1. rewrite length_map. exact (mapM_length _ _ _ Hv).
Qed.

Lemma argwhere_eq_index_ok (a : list Z) (v : Z) :
  Forall (fun i => index_ok (length a) i = true) (np.argwhere (np.eq a v)).
Proof.
  apply Forall_forall. intros i Hi. apply argwhere_eq_In in Hi as [H0 Hn].
  assert (Hlt : (Z.to_nat i < length a)%nat) by (apply nth_error_Some; congruence).
  unfold index_ok. apply andb_true_iff. split; [apply Z.leb_le|apply Z.ltb_lt]; lia.
Qed.

Lemma grid_wf_inv (g : Grid.t) :
  grid_wf g = true ->
  length (Grid.edges g) = length (Grid.mark g) /\
  length (Grid.grad g) = length (Grid.mark g) /\
  length (Grid.yp g) = length (Grid.xp g) /\
  length (Grid.yv g) = length (Grid.xv g) /\
  forallb (fun e => index_ok (length (Grid.xp g)) (fst e)
                    && index_ok (length (Grid.xp g)) (snd e)) (Grid.edges g) = true /\
  forallb (fun r => ((fst r =? -1) || index_ok (length (Grid.xv g)) (fst r))
                    && ((snd r =? -1) || index_ok (length (Grid.xv g)) (snd r)))
          (Grid.grad g) = true.
Proof.
  unfold grid_wf. intros H.
  repeat (apply andb_true_iff in H as [H ?]).
  repeat match goal with H : Nat.eqb _ _ = true |- _ => apply Nat.eqb_eq in H end.
  repeat split; assumption.
Qed.

(** On a well-formed grid, [loadBoundary] returns as soon as the cells it
    resolves are indices into the cell centres. *)
Lemma loadBoundary_total (g : Grid.t) :
  grid_wf g = true ->
  Forall (fun c => index_ok (length (Grid.xv g)) c = true)
         (flat_map (appended_for g) (type3_edges g)) ->
  exists b, Boundary.loadBoundary g = Ok b.
Proof.
  intros Hwf Hcells.
  destruct (grid_wf_inv g Hwf) as (Hedges & Hgrad & Hyp & Hyv & Hvert & _).
  unfold Boundary.loadBoundary. fold (type3_edges g).
  destruct (take_total (map fst (Grid.grad g)) (type3_edges g)) as (c1s & Hc1 & _).
  { rewrite length_map. rewrite Hgrad.
    apply argwhere_eq_index_ok. }
  destruct (take_total (map snd (Grid.grad g)) (type3_edges g)) as (c2s & Hc2 & _).
  { rewrite length_map. rewrite Hgrad.
    apply argwhere_eq_index_ok. }
  rewrite Hc1, Hc2. simpl.
  destruct (columns_cellp g c1s c2s Hc1 Hc2) as [_ ->].
  destruct (take_total (Grid.xv g) _ Hcells) as (xs & -> & _). simpl.
  destruct (take_total (Grid.yv g) (flat_map (appended_for g) (type3_edges g)))
    as (ys & -> & _).
  { rewrite Hyv. exact Hcells. }
  simpl.
  destruct (edge_mean_total (Grid.xp g) (Grid.edges g)) as (mx & -> & Hmx); [assumption|].
  destruct (edge_mean_total (Grid.yp g) (Grid.edges g)) as (my & -> & Hmy).
  { rewrite Hyp. assumption. }
  simpl.
  destruct (take_total mx (np.argwhere (np.eq (Grid.mark g) 2))) as (ex & -> & _).
  { replace (length mx) with (length (Grid.mark g)) by congruence.
    apply argwhere_eq_index_ok. }
  destruct (take_total my (np.argwhere (np.eq (Grid.mark g) 2))) as (ey & -> & _).
  { replace (length my) with (length (Grid.mark g)) by congruence.
    apply argwhere_eq_index_ok. }
  simpl. eexists; reflexivity.
Qed.

Lemma forallb_combine_nth {A B : Type} (f : A * B -> bool) (a : list A) (b : list B)
    (n : nat) (x : A) (y : B) :
  forallb f (combine a b) = true ->
  nth_error a n = Some x -> nth_error b n = Some y -> f (x, y) = true.
Proof.
  revert b n; induction a as [|a0 a IH]; intros b n H Ha Hb.
  - destruct n; discriminate.
  - destruct b as [|b0 b]; [destruct n; discriminate|].
    simpl in H. apply andb_true_iff in H as [H0 H].
    destruct n as [|n]; simpl in Ha, Hb.
    + injection Ha as <-. injection Hb as <-. exact H0.
    + eapply IH; eassumption.
Qed.

(** Under the invariant, the loop appends for a marker-3 edge exactly its
    one valid neighbour. *)
Lemma invariant_resolved (g : Grid.t) (e : Z) :
  type3_invariant g = true ->
  In e (type3_edges g) -> adjacency g e <> None ->
  exists c, appended_for g e = [c] /\ resolved g e c.
Proof.
  intros Hinv He Hadj. apply argwhere_eq_In in He as [H0 Hm].
  unfold appended_for, resolved.
  destruct (adjacency g e) as [[c1 c2]|] eqn:E; [|congruence].
  pose proof (forallb_combine_nth _ _ _ _ _ _ Hinv Hm E) as Hx. simpl in Hx.
  simpl. destruct (c1 =? -1) eqn:E1; destruct (c2 =? -1) eqn:E2; simpl in Hx;
    try discriminate.
  - apply Z.eqb_eq in E1. apply Z.eqb_neq in E2.
    exists c2. split; [reflexivity|]. exists c1, c2. auto.
  - apply Z.eqb_neq in E1. apply Z.eqb_eq in E2.
    exists c1. split; [reflexivity|]. exists c1, c2. auto.
Qed.

Lemma wf_adjacency (g : Grid.t) (e : Z) :
  grid_wf g = true -> In e (type3_edges g) -> adjacency g e <> None.
Proof.
  intros Hwf He.
  destruct (grid_wf_inv g Hwf) as (_ & Hgrad & _).
  apply argwhere_eq_In in He as [Hpos Hm].
  unfold adjacency. apply nth_error_Some.
  rewrite Hgrad.
  apply nth_error_Some. congruence.
Qed.

Lemma wf_resolved_index_ok (g : Grid.t) (e c : Z) :
  grid_wf g = true -> resolved g e c -> index_ok (length (Grid.xv g)) c = true.
Proof.
  intros Hwf (c1 & c2 & Hadj & Hc & Hcase).
  destruct (grid_wf_inv g Hwf) as (_ & _ & _ & _ & _ & Hrng).
  rewrite forallb_forall in Hrng. specialize (Hrng (c1, c2) (nth_error_In _ _ Hadj)).
  simpl in Hrng. apply andb_true_iff in Hrng as [Ha Hb].
  apply orb_true_iff in Ha, Hb.
  destruct Hcase as [[-> ->]|[-> ->]].
  - destruct Hb as [Hb|Hb]; [apply Z.eqb_eq in Hb; congruence|exact Hb].
  - destruct Ha as [Ha|Ha]; [apply Z.eqb_eq in Ha; congruence|exact Ha].
Qed.

(** ** Claims on Boundary.loadBoundary *)

(** C4: for a grid on which [loadBoundary] returns, [self.edgep] holds
    exactly the indices of the edges whose marker is 2, in strictly
    increasing order, and [self.N2] is the number of these edges. *)
Theorem loadBoundary_edgep_type2 (g : Grid.t) (b : Boundary.Index) :
  Boundary.loadBoundary g = Ok b ->
  (forall i, In i (Boundary.edgep b) <->
             0 <= i /\ nth_error (Grid.mark g) (Z.to_nat i) = Some 2) /\
  StronglySorted Z.lt (Boundary.edgep b) /\
  Boundary.N2 b = length (Boundary.edgep b) /\
  Boundary.N2 b = count_occ Z.eq_dec (Grid.mark g) 2.
Proof.
  intros H. destruct (loadBoundary_Ok g b H) as (He & Hn & _).
  rewrite Hn, He. unfold type2_edges.
  split; [intros i; apply argwhere_eq_In|].
  split; [apply argwhere_from_sorted|].
  split; [reflexivity|].
  unfold np.argwhere. rewrite argwhere_from_length. apply count_true_eq.
Qed.

Lemma loadBoundary_edgep_type2_witness :
  (forall i, In i (Boundary.edgep demo_index) <->
             0 <= i /\ nth_error (Grid.mark demo_grid) (Z.to_nat i) = Some 2) /\
  StronglySorted Z.lt (Boundary.edgep demo_index) /\
  Boundary.N2 demo_index = length (Boundary.edgep demo_index) /\
  Boundary.N2 demo_index = count_occ Z.eq_dec (Grid.mark demo_grid) 2.
Proof. apply (loadBoundary_edgep_type2 demo_grid demo_index). vm_compute. reflexivity. Defined.

(** C1, as the code has it: for a marker-3 edge with two valid neighbours
    (neither entry of its row is -1) the loop of [loadBoundary] appends
    nothing, so that [self.N3] falls short of the number of marker-3 edges by
    the number of such edges; for a marker-3 edge with no valid neighbour
    (both entries -1) the loop appends -1, and [self.N3] counts the edge. *)
Theorem loadBoundary_two_valid_skipped (g : Grid.t) (b : Boundary.Index) :
  Boundary.loadBoundary g = Ok b ->
  Boundary.cellp b = flat_map (appended_for g) (type3_edges g) /\
  Boundary.N3 b = length (Boundary.cellp b) /\
  (Boundary.N3 b + length (filter (two_valid g) (type3_edges g))
   = count_occ Z.eq_dec (Grid.mark g) 3%Z)%nat /\
  (forall e c1 c2, In e (type3_edges g) -> adjacency g e = Some (c1, c2) ->
     c1 <> -1 -> c2 <> -1 ->
     appended_for g e = [] /\
     (Boundary.N3 b < count_occ Z.eq_dec (Grid.mark g) 3%Z)%nat) /\
  (forall e, In e (type3_edges g) -> adjacency g e = Some (-1, -1) ->
     appended_for g e = [-1]).
Proof.
  intros H. destruct (loadBoundary_Ok g b H) as (_ & _ & Hadj & Hc & Hn & _).
  assert (Hcount : (Boundary.N3 b + length (filter (two_valid g) (type3_edges g))
                    = count_occ Z.eq_dec (Grid.mark g) 3%Z)%nat).
  { rewrite Hn, Hc, (flat_map_count g _ Hadj).
    unfold type3_edges, np.argwhere. rewrite argwhere_from_length. apply count_true_eq. }
  split; [exact Hc|]. split; [exact Hn|]. split; [exact Hcount|]. split.
  - intros e c1 c2 He Hrow H1 H2. apply Z.eqb_neq in H1, H2. split.
    + unfold appended_for. rewrite Hrow. simpl. now rewrite H1, H2.
    + assert (Htv : two_valid g e = true).
      { unfold two_valid. rewrite Hrow. now rewrite H1, H2. }
      pose proof (filter_In_length _ _ _ He Htv). lia.
  - intros e He Hrow. unfold appended_for. now rewrite Hrow.
Qed.

Lemma loadBoundary_two_valid_skipped_witness :
  Boundary.cellp demo_index = flat_map (appended_for demo_grid_two_valid)
                                (type3_edges demo_grid_two_valid) /\
  Boundary.N3 demo_index = length (Boundary.cellp demo_index) /\
  (Boundary.N3 demo_index
   + length (filter (two_valid demo_grid_two_valid) (type3_edges demo_grid_two_valid))
   = count_occ Z.eq_dec (Grid.mark demo_grid_two_valid) 3%Z)%nat /\
  (forall e c1 c2, In e (type3_edges demo_grid_two_valid) ->
     adjacency demo_grid_two_valid e = Some (c1, c2) ->
     c1 <> -1 -> c2 <> -1 ->
     appended_for demo_grid_two_valid e = [] /\
     (Boundary.N3 demo_index < count_occ Z.eq_dec (Grid.mark demo_grid_two_valid) 3%Z)%nat) /\
  (forall e, In e (type3_edges demo_grid_two_valid) ->
     adjacency demo_grid_two_valid e = Some (-1, -1) ->
     appended_for demo_grid_two_valid e = [-1]).
Proof.
  apply (loadBoundary_two_valid_skipped demo_grid_two_valid demo_index).
  vm_compute. reflexivity.
Defined.

(** C1 as stated fails: side 0 of [demo_grid_no_valid] is a marker-3 edge
    whose row of [grad] is (-1,-1); [loadBoundary] appends -1 for it, and
    [self.N3] is 1, the number of marker-3 edges. *)
Lemma loadBoundary_no_valid_appends :
  Boundary.loadBoundary demo_grid_no_valid = Ok demo_index_no_valid /\
  type3_edges demo_grid_no_valid = [0] /\
  adjacency demo_grid_no_valid 0 = Some (-1, -1) /\
  appended_for demo_grid_no_valid 0 = [-1] /\
  Boundary.cellp demo_index_no_valid = [-1] /\
  Boundary.N3 demo_index_no_valid = count_occ Z.eq_dec (Grid.mark demo_grid_no_valid) 3.
Proof. vm_compute. repeat split; reflexivity. Qed.

(** C2: on a grid where every marker-3 edge has exactly one valid
    neighbour, a call of [loadBoundary] that returns has listed in
    [self.cellp], in the order of the marker-3 edges, the one valid
    neighbour of each, and [self.N3], the length of [self.cellp], is the
    number of marker-3 edges; and on such a grid the call returns whenever
    the grid is well formed. *)
Theorem loadBoundary_resolves_type3 (g : Grid.t) :
  type3_invariant g = true ->
  (forall b, Boundary.loadBoundary g = Ok b ->
     Forall2 (resolved g) (type3_edges g) (Boundary.cellp b) /\
     Boundary.N3 b = length (Boundary.cellp b) /\
     Boundary.N3 b = count_occ Z.eq_dec (Grid.mark g) 3) /\
  (grid_wf g = true -> exists b, Boundary.loadBoundary g = Ok b).
Proof.
  intros Hinv.
  assert (Hres : Forall (fun e => adjacency g e <> None) (type3_edges g) ->
                 Forall2 (resolved g) (type3_edges g)
                   (flat_map (appended_for g) (type3_edges g))).
  { intros Hadj.
    assert (Hall : forall e, In e (type3_edges g) ->
                     exists c, appended_for g e = [c] /\ resolved g e c).
    { intros e He. apply invariant_resolved; auto.
      rewrite Forall_forall in Hadj. now apply Hadj. }
    clear Hadj. induction (type3_edges g) as [|e es IH]; simpl; [constructor|].
    destruct (Hall e (or_introl Logic.eq_refl)) as (c & -> & Hc). simpl.
    constructor; [exact Hc|]. apply IH. intros e' He'. apply Hall. now right. }
  split.
  - intros b Hb.
    destruct (loadBoundary_Ok g b Hb) as (_ & _ & Hadj & Hc & Hn & _).
    specialize (Hres Hadj).
    rewrite Hn, Hc. split; [exact Hres|]. split; [reflexivity|].
    rewrite <- (Forall2_length Hres).
    unfold type3_edges, np.argwhere. rewrite argwhere_from_length. apply count_true_eq.
  - intros Hwf. apply (loadBoundary_total g Hwf).
    assert (Hadj : Forall (fun e => adjacency g e <> None) (type3_edges g)).
    { apply Forall_forall. intros e He. now apply wf_adjacency. }
    specialize (Hres Hadj). clear -Hwf Hres.
    induction Hres as [|e c es cs Hc _ IH]; constructor; auto.
    eapply wf_resolved_index_ok; eassumption.
Qed.

Lemma loadBoundary_resolves_type3_witness :
  Boundary.loadBoundary demo_grid = Ok demo_index /\
  Forall2 (resolved demo_grid) [0; 3] [0; 1] /\
  Boundary.N3 demo_index = 2%nat /\
  count_occ Z.eq_dec (Grid.mark demo_grid) 3 = 2%nat.
Proof.
  assert (E : Boundary.loadBoundary demo_grid = Ok demo_index)
    by (vm_compute; reflexivity).
  split; [exact E|].
  destruct (loadBoundary_resolves_type3 demo_grid) as [H _];
    [vm_compute; reflexivity|].
  destruct (H demo_index E) as (Hres & Hlen & Hcount).
  split; [exact Hres|]. split; [exact Hlen|]. reflexivity.
Defined.

(** ** Boundary.getTime *)

Lemma timedelta_Ok (fm : float -> result Z) (step : number) (d : Z) :
  datetime.microseconds fm step = Ok d ->
  0 < d -> d <= datetime.max -> datetime.timedelta fm step = Ok d.
Proof.
  intros Hd Hpos Hmax. unfold datetime.timedelta. rewrite Hd. cbn [bind].
  assert (Hday : 0 < datetime.day) by reflexivity.
  assert (H1 : 0 <= d / datetime.day) by (apply Z.div_pos; lia).
  assert (H2 : d / datetime.day <= datetime.max / datetime.day)
    by (apply Z.div_le_mono; lia).
  assert (E : datetime.max / datetime.day = 3652058) by (vm_compute; reflexivity).
  rewrite E in H2.
  replace ((-999999999 <=? d / datetime.day) && (d / datetime.day <=? 999999999))
    with true; [reflexivity|].
  symmetry. apply andb_true_iff. split; apply Z.leb_le; lia.
Qed.

Lemma add_Ok (t d : Z) :
  0 <= t + d <= datetime.max -> datetime.add t d = Ok (t + d).
Proof.
  intros H. unfold datetime.add.
  replace ((0 <=? t + d) && (t + d <=? datetime.max)) with true; [reflexivity|].
  symmetry. apply andb_true_iff. split; apply Z.leb_le; lia.
Qed.

Lemma axis_S (t0 dt : Z) (n : nat) :
  axis t0 dt (S n) = t0 :: axis (t0 + dt) dt n.
Proof.
  unfold axis. simpl. f_equal; [lia|].
  rewrite <- seq_shift, map_map. apply map_ext. intros k. lia.
Qed.

(** The loop started at [t0] with [n] instants still to come, for a step
    that a timedelta holds as [d] microseconds. *)
Lemma getTime_loop_Ok (fm : float -> result Z) (step : number) (d t2 : Z) (n : nat) :
  datetime.microseconds fm step = Ok d ->
  0 < d ->
  forall (t0 : Z) (acc : list Z) (fuel : nat),
    0 <= t0 ->
    t2 <= t0 + Z.of_nat n * d ->
    ((0 < n)%nat -> t0 + (Z.of_nat n - 1) * d < t2) ->
    ((0 < n)%nat -> t0 + Z.of_nat n * d <= datetime.max) ->
    (n < fuel)%nat ->
    Boundary.getTime_loop fm fuel step t2 t0 acc = Ok (acc ++ axis t0 d n).
Proof.
  intros Hd Hdt. induction n as [|n IH]; intros t0 acc fuel H0 Hup Hlow Hmax Hfuel.
  - destruct fuel as [|fuel]; [lia|]. simpl.
    destruct (t0 <? t2) eqn:E; [apply Z.ltb_lt in E; lia|].
    unfold axis. simpl. now rewrite app_nil_r.
  - destruct fuel as [|fuel]; [lia|]. simpl Boundary.getTime_loop.
    assert (Hlow' := Hlow ltac:(lia)). assert (Hmax' := Hmax ltac:(lia)).
    assert (Hlt : t0 < t2) by nia.
    apply Z.ltb_lt in Hlt. rewrite Hlt.
    rewrite (timedelta_Ok fm step d Hd Hdt) by nia. cbn [bind].
    rewrite add_Ok by nia. cbn [bind].
    rewrite IH; try lia; try nia.
    rewrite axis_S, <- app_assoc. reflexivity.
Qed.

Lemma axis_length_bounds (t1 t2 dt : Z) :
  0 < dt -> t1 < t2 ->
  0 < axis_length t1 t2 dt /\
  t2 <= t1 + axis_length t1 t2 dt * dt /\
  t1 + (axis_length t1 t2 dt - 1) * dt < t2.
Proof.
  intros Hdt Hlt. unfold axis_length.
  apply Z.ltb_lt in Hlt as Hb. rewrite Hb.
  pose proof (Z.div_mod (t2 - t1 + dt - 1) dt ltac:(lia)) as Hdm.
  pose proof (Z.mod_pos_bound (t2 - t1 + dt - 1) dt Hdt) as Hr.
  nia.
Qed.

Lemma axis_length_ceil (t1 t2 dt : Z) :
  0 < dt -> t1 < t2 ->
  ((t2 - t1) mod dt = 0 -> axis_length t1 t2 dt = (t2 - t1) / dt) /\
  ((t2 - t1) mod dt <> 0 -> axis_length t1 t2 dt = (t2 - t1) / dt + 1).
Proof.
  intros Hdt Hlt. unfold axis_length.
  apply Z.ltb_lt in Hlt as Hb. rewrite Hb.
  pose proof (Z.div_mod (t2 - t1) dt ltac:(lia)) as Hdm.
  pose proof (Z.mod_pos_bound (t2 - t1) dt Hdt) as Hr.
  split; intros Hm.
  - symmetry. apply (Z.div_unique _ _ _ (dt - 1)); [lia|].
    rewrite Hm in Hdm. lia.
  - symmetry. apply (Z.div_unique _ _ _ ((t2 - t1) mod dt - 1)); lia.
Qed.

Lemma axis_nth (t1 dt : Z) (n k : nat) :
  (k < n)%nat -> nth_error (axis t1 dt n) k = Some (t1 + Z.of_nat k * dt).
Proof.
  intros Hk. unfold axis.
  rewrite nth_error_map, nth_error_seq.
  destruct (Nat.ltb_spec k n); [reflexivity|lia].
Qed.

Lemma axis_length_eq (t1 dt : Z) (n : nat) : length (axis t1 dt n) = n.
Proof. unfold axis. now rewrite length_map, length_seq. Qed.

Lemma axis_sorted (d : Z) (n : nat) :
  0 < d -> forall t1, StronglySorted Z.lt (axis t1 d n).
Proof.
  intros Hd. induction n as [|n IH]; intros t1; [constructor|].
  rewrite axis_S. constructor; [apply IH|].
  apply Forall_forall. intros t Ht. apply In_nth_error in Ht as (k & Hk).
  assert (Hlt : (k < n)%nat).
  { rewrite <- (axis_length_eq (t1 + d) d n). apply nth_error_Some. congruence. }
  rewrite axis_nth in Hk by exact Hlt.
  assert (Et : t = t1 + d + Z.of_nat k * d) by congruence.
  nia.
Qed.

(** A step that a timedelta holds as no time at all: the loop never leaves
    its first instant. *)
Lemma getTime_loop_zero (fm : float -> result Z) (step : number) (t2 : Z) :
  datetime.microseconds fm step = Ok 0 ->
  forall (fuel : nat) (t0 : Z) (acc : list Z),
    0 <= t0 <= datetime.max -> t0 < t2 ->
    Boundary.getTime_loop fm fuel step t2 t0 acc = OutOfFuel.
Proof.
  intros Hd. induction fuel as [|fuel IH]; intros t0 acc Hr Hlt; [reflexivity|].
  simpl Boundary.getTime_loop. apply Z.ltb_lt in Hlt as Hb. rewrite Hb.
  unfold datetime.timedelta. rewrite Hd. cbn [bind].
  change (0 / datetime.day) with 0. cbn [Z.leb Z.compare andb bind].
  rewrite add_Ok by lia. cbn [bind].
  replace (t0 + 0) with t0 by lia. now apply IH.
Qed.

(** C5, as the code has it: for timestamps that parse to [t1] and [t2] and a
    step, an int or a float number of seconds, that [timedelta] holds as
    [d > 0] microseconds ([d] is the step itself for an int, the step rounded
    to the microsecond for a float), provided the instant the loop computes
    last, [t1 + Nt * d], is still a datetime (not after 9999-12-31),
    [getTime] returns (with [Nt + 1] units of fuel or more) the axis
    [t1, t1 + d, ...] of the instants before [t2]: it is strictly
    increasing, consecutive instants differ by [d], [Nt] is [(t2 - t1) / d]
    when [d] divides [t2 - t1] and one more when it does not, and [Nt] is 0
    when [t2 <= t1]. *)
Theorem getTime_axis (float_microseconds : float -> result Z)
    (strptime : string -> string -> result Z)
    (s1 s2 : string) (step : number) (d t1 t2 : Z) :
  strptime s1 "%Y%m%d.%H%M" = Ok t1 ->
  strptime s2 "%Y%m%d.%H%M" = Ok t2 ->
  0 <= t1 ->
  datetime.microseconds float_microseconds step = Ok d ->
  0 < d ->
  (t1 < t2 -> t1 + axis_length t1 t2 d * d <= datetime.max) ->
  exists tm : Boundary.Time,
    (forall fuel, (Boundary.Nt tm < fuel)%nat ->
       Boundary.getTime float_microseconds strptime (s1, s2, step) fuel = Ok tm) /\
    Boundary.Nt tm = length (Boundary.time tm) /\
    Boundary.time tm = axis t1 d (Boundary.Nt tm) /\
    StronglySorted Z.lt (Boundary.time tm) /\
    (forall k a b, nth_error (Boundary.time tm) k = Some a ->
                   nth_error (Boundary.time tm) (S k) = Some b -> b = a + d) /\
    Forall (fun t => t1 <= t < t2) (Boundary.time tm) /\
    t2 <= t1 + Z.of_nat (Boundary.Nt tm) * d /\
    (t2 <= t1 -> Boundary.Nt tm = 0%nat) /\
    (t1 < t2 -> (t2 - t1) mod d = 0 -> Z.of_nat (Boundary.Nt tm) = (t2 - t1) / d) /\
    (t1 < t2 -> (t2 - t1) mod d <> 0 ->
       Z.of_nat (Boundary.Nt tm) = (t2 - t1) / d + 1) /\
    (forall n, step = PyInt n -> d = n * datetime.second).
Proof.
  intros Hs1 Hs2 H0 Hd Hdt Hmax.
  set (n := Z.to_nat (axis_length t1 t2 d)).
  assert (Hn : (t2 <= t1 /\ n = 0%nat) \/
               (t1 < t2 /\ 0 < axis_length t1 t2 d /\ Z.of_nat n = axis_length t1 t2 d)).
  { destruct (Z.lt_ge_cases t1 t2) as [Hlt|Hge].
    - right. destruct (axis_length_bounds t1 t2 d Hdt Hlt) as (Hp & _). subst n. lia.
    - left. split; [lia|]. subst n. unfold axis_length.
      destruct (t1 <? t2) eqn:E; [apply Z.ltb_lt in E; lia|reflexivity]. }
  assert (Hup : t2 <= t1 + Z.of_nat n * d).
  { destruct Hn as [[Hge ->]|(Hlt & Hp & ->)]; [simpl; lia|].
    apply (axis_length_bounds t1 t2 d Hdt Hlt). }
  assert (Hlow : (0 < n)%nat -> t1 + (Z.of_nat n - 1) * d < t2).
  { destruct Hn as [[Hge ->]|(Hlt & Hp & ->)]; [lia|]. intros _.
    apply (axis_length_bounds t1 t2 d Hdt Hlt). }
  exists {| Boundary.time := axis t1 d n; Boundary.Nt := n |}.
  cbn [Boundary.time Boundary.Nt].
  split; [|split; [|split; [|split; [|split; [|split; [|split; [|split; [|split;
    [|split]]]]]]]]].
  - intros fuel Hfuel. unfold Boundary.getTime. cbn [fst snd]. rewrite Hs1, Hs2.
    cbn [bind].
    rewrite (getTime_loop_Ok float_microseconds step d t2 n Hd Hdt t1 [] fuel);
      try assumption.
    + cbn [bind app]. now rewrite axis_length_eq.
    + intros Hpos. destruct Hn as [[Hge ->]|(Hlt & Hp & ->)]; [lia|]. auto.
  - now rewrite axis_length_eq.
  - reflexivity.
  - now apply axis_sorted.
  - intros k a b Ha Hb.
    assert (Hk : (S k < n)%nat).
    { rewrite <- (axis_length_eq t1 d n). apply nth_error_Some. congruence. }
    rewrite axis_nth in Ha, Hb by lia.
    assert (Ea : a = t1 + Z.of_nat k * d) by congruence.
    assert (Eb : b = t1 + Z.of_nat (S k) * d) by congruence.
    rewrite Ea, Eb, Nat2Z.inj_succ. unfold Z.succ. ring.
  - apply Forall_forall. intros t Ht. apply In_nth_error in Ht as (k & Hk).
    assert (Hlt : (k < n)%nat).
    { rewrite <- (axis_length_eq t1 d n). apply nth_error_Some. congruence. }
    rewrite axis_nth in Hk by lia.
    assert (Et : t = t1 + Z.of_nat k * d) by congruence.
    specialize (Hlow ltac:(lia)). nia.
  - exact Hup.
  - intros Hge. destruct Hn as [[_ ->]|(Hlt & _)]; [reflexivity|lia].
  - intros Hlt Hm. destruct Hn as [[Hge _]|(_ & _ & ->)]; [lia|].
    now apply axis_length_ceil.
  - intros Hlt Hm. destruct Hn as [[Hge _]|(_ & _ & ->)]; [lia|].
    now apply axis_length_ceil.
  - intros k ->. cbn [datetime.microseconds] in Hd. congruence.
Qed.

Lemma getTime_axis_witness :
  exists tm : Boundary.Time,
    (forall fuel, (Boundary.Nt tm < fuel)%nat ->
       Boundary.getTime demo_float_microseconds demo_strptime
         ("20120101.0000", "20120101.0001", PyFloat 0.5) fuel = Ok tm) /\
    Boundary.Nt tm = length (Boundary.time tm) /\
    Boundary.time tm = axis 63460972800000000 500000 (Boundary.Nt tm) /\
    StronglySorted Z.lt (Boundary.time tm) /\
    (forall k a b, nth_error (Boundary.time tm) k = Some a ->
                   nth_error (Boundary.time tm) (S k) = Some b -> b = a + 500000) /\
    Forall (fun t => 63460972800000000 <= t < 63460972860000000) (Boundary.time tm) /\
    63460972860000000 <= 63460972800000000 + Z.of_nat (Boundary.Nt tm) * 500000 /\
    (63460972860000000 <= 63460972800000000 -> Boundary.Nt tm = 0%nat) /\
    (63460972800000000 < 63460972860000000 ->
       (63460972860000000 - 63460972800000000) mod 500000 = 0 ->
       Z.of_nat (Boundary.Nt tm) = (63460972860000000 - 63460972800000000) / 500000) /\
    (63460972800000000 < 63460972860000000 ->
       (63460972860000000 - 63460972800000000) mod 500000 <> 0 ->
       Z.of_nat (Boundary.Nt tm)
       = (63460972860000000 - 63460972800000000) / 500000 + 1) /\
    (forall n, PyFloat 0.5 = PyInt n -> 500000 = n * datetime.second).
Proof.
  apply (getTime_axis demo_float_microseconds demo_strptime
           "20120101.0000" "20120101.0001" (PyFloat 0.5) 500000
           63460972800000000 63460972860000000).
  - vm_compute. reflexivity.
  - vm_compute. reflexivity.
  - lia.
  - vm_compute. reflexivity.
  - lia.
  - intros _. vm_compute. discriminate.
Defined.

(** C5 as stated fails, in three ways.  With a step of 10^12 seconds from
    2012-01-01 the first addition leaves the range of datetimes, and with a
    step of one hour from 9999-12-31T00:00 to 23:59 the addition after the
    24th instant does: [getTime] raises OverflowError in both cases, whatever
    the fuel.  And a positive float step of 2^-22 seconds, under a quarter of
    a microsecond, is a timedelta of no time at all: the loop stays at its
    first instant and [getTime] does not return, whatever the fuel. *)
Lemma getTime_overflow :
  demo_strptime "20120101.0000" "%Y%m%d.%H%M" = Ok 63460972800000000 /\
  demo_strptime "20120102.0000" "%Y%m%d.%H%M" = Ok 63461059200000000 /\
  (forall fuel,
     Boundary.getTime demo_float_microseconds demo_strptime
       ("20120101.0000", "20120102.0000", PyInt 1000000000000)
       (S fuel) = Raise OverflowError) /\
  demo_strptime "99991231.0000" "%Y%m%d.%H%M" = Ok 315537811200000000 /\
  demo_strptime "99991231.2359" "%Y%m%d.%H%M" = Ok 315537897540000000 /\
  (forall fuel,
     Boundary.getTime demo_float_microseconds demo_strptime
       ("99991231.0000", "99991231.2359", PyInt 3600)
       (24 + fuel) = Raise OverflowError /\
     Boundary.getTime demo_float_microseconds demo_strptime
       ("99991231.0000", "99991231.2359", PyInt 3600)
       (Nat.min fuel 23) = OutOfFuel) /\
  PrimFloat.ltb 0 demo_tiny_step = true /\
  demo_float_microseconds demo_tiny_step = Ok 0 /\
  (forall fuel,
     Boundary.getTime demo_float_microseconds demo_strptime
       ("20120101.0000", "20120102.0000", PyFloat demo_tiny_step) fuel = OutOfFuel).
Proof.
  split; [vm_compute; reflexivity|]. split; [vm_compute; reflexivity|].
  split; [intros fuel; vm_compute; reflexivity|].
  split; [vm_compute; reflexivity|]. split; [vm_compute; reflexivity|].
  split.
  { intros fuel. split; [vm_compute; reflexivity|].
    do 24 (destruct fuel as [|fuel]; [vm_compute; reflexivity|]).
    vm_compute; reflexivity. }
  split; [vm_compute; reflexivity|]. split; [vm_compute; reflexivity|].
  intros fuel. unfold Boundary.getTime. cbn [fst snd].
  assert (E1 : demo_strptime "20120101.0000" "%Y%m%d.%H%M" = Ok 63460972800000000)
    by (vm_compute; reflexivity).
  assert (E2 : demo_strptime "20120102.0000" "%Y%m%d.%H%M" = Ok 63461059200000000)
    by (vm_compute; reflexivity).
  rewrite E1, E2. cbn [bind].
  rewrite (getTime_loop_zero demo_float_microseconds (PyFloat demo_tiny_step)
             63461059200000000); [reflexivity|vm_compute; reflexivity| |lia].
  split; [lia|]. vm_compute. discriminate.
Qed.

(** ** Boundary.initArrays and Boundary.__init__ *)

Lemma offset_bound (sh idx : list nat) :
  Forall2 lt idx sh ->
  forall acc, exists o, np.offset sh idx acc = Some o /\
                        (o < (acc + 1) * np.size_of sh)%nat.
Proof.
  induction 1 as [|i d idx sh Hid _ IH]; intros acc; simpl.
  - exists acc. split; [reflexivity|lia].
  - apply Nat.ltb_lt in Hid as Hb. rewrite Hb.
    destruct (IH (acc * d + i)%nat) as (o & Ho & Hlt).
    exists o. split; [exact Ho|]. nia.
Qed.

Lemma zeros_zero_array (sh : list nat) : zero_array (np.zeros sh) sh.
Proof.
  unfold zero_array, np.zeros, np.get. simpl.
  split; [reflexivity|]. split; [apply repeat_length|].
  split; [apply Forall_forall; intros x Hx; now apply repeat_spec in Hx|].
  intros idx Hidx. destruct (offset_bound sh idx Hidx 0%nat) as (o & -> & Hlt).
  apply nth_error_repeat. lia.
Qed.

(** C6: an object that [__init__] has built holds the type-2 arrays
    [boundary_u], [boundary_v], [boundary_w], [boundary_T], [boundary_S] of
    shape (Nt, Nk, N2), the type-3 arrays [uc], [vc], [wc], [T], [S] of shape
    (Nt, Nk, N3) and [h] of shape (Nt, N3), every entry of every one of them
    zero. *)
Theorem init_arrays_zero (float_microseconds : float -> result Z)
    (strptime : string -> string -> result Z)
    (sunpy_Grid : string -> result Grid.t)
    (path : string) (timeinfo : string * string * number) (fuel : nat)
    (b : Boundary.t) :
  Boundary.init float_microseconds strptime sunpy_Grid path timeinfo fuel = Ok b ->
  let Nt := Boundary.Nt (Boundary.clock b) in
  let Nk := Boundary.Nk (Boundary.index b) in
  let N2 := Boundary.N2 (Boundary.index b) in
  let N3 := Boundary.N3 (Boundary.index b) in
  let a := Boundary.arrays b in
  zero_array (Boundary.boundary_u a) [Nt; Nk; N2] /\
  zero_array (Boundary.boundary_v a) [Nt; Nk; N2] /\
  zero_array (Boundary.boundary_w a) [Nt; Nk; N2] /\
  zero_array (Boundary.boundary_T a) [Nt; Nk; N2] /\
  zero_array (Boundary.boundary_S a) [Nt; Nk; N2] /\
  zero_array (Boundary.uc a) [Nt; Nk; N3] /\
  zero_array (Boundary.vc a) [Nt; Nk; N3] /\
  zero_array (Boundary.wc a) [Nt; Nk; N3] /\
  zero_array (Boundary.T a) [Nt; Nk; N3] /\
  zero_array (Boundary.S a) [Nt; Nk; N3] /\
  zero_array (Boundary.h a) [Nt; N3].
Proof.
  unfold Boundary.init. intros H.
  inv_bind H. inv_bind H. inv_bind H. injection H as <-.
  cbn [Boundary.arrays Boundary.clock Boundary.index Boundary.initArrays
       Boundary.boundary_u Boundary.boundary_v Boundary.boundary_w
       Boundary.boundary_T Boundary.boundary_S Boundary.uc Boundary.vc
       Boundary.wc Boundary.T Boundary.S Boundary.h].
  repeat (split; [apply zeros_zero_array|]). apply zeros_zero_array.
Qed.

Lemma init_arrays_zero_witness :
  exists b,
    Boundary.init demo_float_microseconds demo_strptime demo_sunpy_Grid "demo"
      ("20120101.0000", "20120101.0200", PyInt 3600) 3 = Ok b /\
    Boundary.Nt (Boundary.clock b) = 2%nat /\
    zero_array (Boundary.boundary_u (Boundary.arrays b)) [2; 2; 1]%nat /\
    zero_array (Boundary.S (Boundary.arrays b)) [2; 2; 2]%nat /\
    zero_array (Boundary.h (Boundary.arrays b)) [2; 2]%nat.
Proof.
  destruct (Boundary.init demo_float_microseconds demo_strptime demo_sunpy_Grid "demo"
              ("20120101.0000", "20120101.0200", PyInt 3600) 3) as [b| |] eqn:E;
    [|vm_compute in E; discriminate E|vm_compute in E; discriminate E].
  exists b. split; [reflexivity|].
  pose proof (init_arrays_zero demo_float_microseconds demo_strptime demo_sunpy_Grid
                "demo" ("20120101.0000", "20120101.0200", PyInt 3600) 3 b E) as H.
  vm_compute in E. injection E as <-.
  split; [reflexivity|].
  cbv zeta in H. destruct H as (Hu & _ & _ & _ & _ & _ & _ & _ & _ & HS & Hh).
  exact (conj Hu (conj HS Hh)).
Defined.

(** ** Boundary.write2NC *)

(** C10: when [self.N3 > 0], the value [write2NC] assigns to the variable
    'S' is the array [self.T], not [self.S]; the variables 'uc', 'vc', 'wc',
    'T' and 'h' each receive the attribute of their own name. *)
Theorem write2NC_S_from_T (self : Boundary.t) (ncfile : string) :
  (0 < Boundary.N3 (Boundary.index self))%nat ->
  let a := Boundary.arrays self in
  let tr := Boundary.write2NC self ncfile in
  assigned "S" tr = [VArray (Boundary.T a)] /\
  (Boundary.S a <> Boundary.T a -> assigned "S" tr <> [VArray (Boundary.S a)]) /\
  assigned "uc" tr = [VArray (Boundary.uc a)] /\
  assigned "vc" tr = [VArray (Boundary.vc a)] /\
  assigned "wc" tr = [VArray (Boundary.wc a)] /\
  assigned "T" tr = [VArray (Boundary.T a)] /\
  assigned "h" tr = [VArray (Boundary.h a)].
Proof.
  intros H3. apply Nat.ltb_lt in H3. cbv zeta.
  unfold Boundary.write2NC. rewrite H3.
  destruct (0 <? Boundary.N2 (Boundary.index self))%nat;
    (split; [reflexivity|]); (split; [|repeat split; reflexivity]);
    intros Hne Heq; apply Hne; change (assigned "S" _) with
      [VArray (Boundary.T (Boundary.arrays self))] in Heq; congruence.
Qed.

Lemma write2NC_S_from_T_witness :
  assigned "S" (Boundary.write2NC demo_boundary "bc.nc")
  = [VArray {| np.shape := [2; 2; 2]%nat; np.data := repeat 20%float 8 |}]
  /\ assigned "T" (Boundary.write2NC demo_boundary "bc.nc")
  = [VArray {| np.shape := [2; 2; 2]%nat; np.data := repeat 20%float 8 |}]
  /\ Boundary.S (Boundary.arrays demo_boundary)
  = {| np.shape := [2; 2; 2]%nat; np.data := repeat 35%float 8 |}.
Proof.
  destruct (write2NC_S_from_T demo_boundary "bc.nc") as (HS & _ & _ & _ & _ & HT & _).
  - simpl. lia.
  - cbv zeta in HS, HT. split; [exact HS|]. split; [exact HT|reflexivity].
Defined.

(** ** modifyBCmarker *)

Lemma select_length {A : Type} (mask : list bool) (a : list A) :
  length mask = length a -> length (np.select_ mask a) = np.count_true mask.
Proof.
  unfold np.count_true. revert a; induction mask as [|b mask IH]; intros [|x a] H;
    simpl in *; try reflexivity; try discriminate.
  injection H as H. destruct b; simpl; now rewrite IH.
Qed.

Lemma fill_length {A : Type} (mask : list bool) (a : list A) (v : A) :
  length (np.fill_ mask a v) = length a.
Proof.
  revert a; induction mask as [|b mask IH]; intros [|x a]; simpl; try reflexivity.
  now rewrite IH.
Qed.

Lemma gt_length (a : list Z) (v : Z) : length (np.gt a v) = length a.
Proof. unfold np.gt. apply length_map. Qed.

Section Reclassify.

Variable pnpoly : float -> float -> polygon -> bool.

Lemma scatter_relabel (pb : polygon * Z) (xe ye : list float) (marks : list Z) :
  length xe = length marks -> length ye = length marks ->
  np.scatter_ (np.gt marks 0) marks
    (np.fill_ (points_inside_poly pnpoly
                 (combine (np.select_ (np.gt marks 0) xe) (np.select_ (np.gt marks 0) ye))
                 (fst pb))
              (np.select_ (np.gt marks 0) marks) (snd pb))
  = relabel pnpoly pb xe ye marks.
Proof.
  revert xe ye; induction marks as [|m marks IH]; intros [|x xe] [|y ye] Hx Hy;
    simpl in *; try reflexivity; try discriminate.
  injection Hx as Hx. injection Hy as Hy.
  unfold relabel_one at 1. destruct (0 <? m); simpl.
  - rewrite <- (IH xe ye Hx Hy). destruct (pnpoly x y (fst pb)); reflexivity.
  - now rewrite <- (IH xe ye Hx Hy).
Qed.

(** A pass that returns has relabelled the markers edge by edge. *)
Lemma reclassify_step_inv (xe ye : list float) (g g1 : Grid.t) (pb : polygon * Z) :
  reclassify_step pnpoly xe ye g pb = Ok g1 ->
  length xe = length (Grid.mark g) /\ length ye = length (Grid.mark g) /\
  g1 = Grid.set_mark g (relabel pnpoly pb xe ye (Grid.mark g)).
Proof.
  unfold reclassify_step. destruct pb as [xpoly bctype]. intros H.
  inv_bind H. inv_bind H. inv_bind H. inv_bind H. inv_bind H.
  injection H as <-.
  unfold np.select in Hv, Hv0, Hv1.
  rewrite gt_length in Hv, Hv0, Hv1.
  destruct (Nat.eqb_spec (length (Grid.mark g)) (length xe)); [|discriminate].
  destruct (Nat.eqb_spec (length (Grid.mark g)) (length ye)); [|discriminate].
  rewrite Nat.eqb_refl in Hv1.
  injection Hv as <-. injection Hv0 as <-. injection Hv1 as <-.
  unfold np.fill in Hv2.
  destruct (Nat.eqb (length _) (length _)) in Hv2; [|discriminate].
  injection Hv2 as <-.
  unfold np.scatter in Hv3. rewrite gt_length, Nat.eqb_refl in Hv3.
  destruct (Nat.eqb (np.count_true _) (length _)) in Hv3; [|discriminate].
  injection Hv3 as <-.
  split; [auto|]. split; [auto|].
  f_equal. apply (scatter_relabel (xpoly, bctype)); auto.
Qed.

(** A pass returns when there is one mid-point per marker. *)
Lemma reclassify_step_Ok (xe ye : list float) (g : Grid.t) (pb : polygon * Z) :
  length xe = length (Grid.mark g) -> length ye = length (Grid.mark g) ->
  reclassify_step pnpoly xe ye g pb
  = Ok (Grid.set_mark g (relabel pnpoly pb xe ye (Grid.mark g))).
Proof.
  intros Hx Hy. unfold reclassify_step. destruct pb as [xpoly bctype].
  unfold np.select. rewrite gt_length, Hx, Hy, Nat.eqb_refl. cbn [bind].
  unfold np.fill, points_inside_poly.
  rewrite length_map, length_combine, !select_length, Nat.min_id, Nat.eqb_refl
    by (rewrite gt_length; auto).
  cbn [bind]. unfold np.scatter.
  rewrite gt_length, Nat.eqb_refl, fill_length, select_length, Nat.eqb_refl
    by (rewrite gt_length; auto).
  cbn [bind]. f_equal. f_equal.
  apply (scatter_relabel (xpoly, bctype)); auto.
Qed.

Lemma relabel_length (pb : polygon * Z) (xe ye : list float) (marks : list Z) :
  length (relabel pnpoly pb xe ye marks) = length marks.
Proof.
  revert xe ye; induction marks as [|m marks IH]; intros [|x xe] [|y ye];
    simpl; try reflexivity. now rewrite IH.
Qed.

Lemma relabel_nth (pb : polygon * Z) (xe ye : list float) (marks : list Z)
    (i : nat) (x y : float) (m : Z) :
  nth_error xe i = Some x -> nth_error ye i = Some y -> nth_error marks i = Some m ->
  nth_error (relabel pnpoly pb xe ye marks) i = Some (relabel_one pnpoly x y m pb).
Proof.
  revert xe ye marks; induction i as [|i IH]; intros [|x0 xe] [|y0 ye] [|m0 marks];
    simpl; try discriminate.
  - intros Hx Hy Hm. congruence.
  - apply IH.
Qed.

Lemma reclassify_app (xe ye : list float) (pre post : list (polygon * Z)) (g : Grid.t) :
  reclassify pnpoly xe ye (pre ++ post) g
  = (gk <- reclassify pnpoly xe ye pre g ;; reclassify pnpoly xe ye post gk).
Proof.
  revert g; induction pre as [|pb pre IH]; intros g; simpl; [reflexivity|].
  destruct (reclassify_step pnpoly xe ye g pb); simpl; auto.
Qed.

(** The loop keeps the number of markers and treats every edge on its own. *)
Lemma reclassify_inv (xe ye : list float) (polys : list (polygon * Z)) (g g' : Grid.t) :
  reclassify pnpoly xe ye polys g = Ok g' ->
  length (Grid.mark g') = length (Grid.mark g) /\
  forall i x y m,
    nth_error xe i = Some x -> nth_error ye i = Some y ->
    nth_error (Grid.mark g) i = Some m ->
    nth_error (Grid.mark g') i = Some (relabel_all pnpoly x y polys m).
Proof.
  revert g; induction polys as [|pb polys IH]; intros g H; simpl in H.
  - injection H as <-. split; [reflexivity|]. intros i x y m _ _ Hm. exact Hm.
  - inv_bind H. apply reclassify_step_inv in Hv as (Hx & Hy & ->).
    destruct (IH _ H) as (Hlen & Hnth). simpl in Hlen, Hnth.
    rewrite relabel_length in Hlen. split; [exact Hlen|].
    intros i x y m Hxi Hyi Hm. simpl.
    apply Hnth; auto. now apply relabel_nth.
Qed.

(** A loop that returns and made a pass had one mid-point per marker. *)
Lemma reclassify_step_lengths (xe ye : list float) (polys : list (polygon * Z))
    (g g' : Grid.t) :
  reclassify pnpoly xe ye polys g = Ok g' ->
  polys = [] \/
  (length xe = length (Grid.mark g) /\ length ye = length (Grid.mark g)).
Proof.
  intros H. destruct polys as [|pb polys]; [now left|right].
  simpl in H. inv_bind H. apply reclassify_step_inv in Hv. tauto.
Qed.

Lemma reclassify_total (xe ye : list float) (polys : list (polygon * Z)) (g : Grid.t) :
  length xe = length (Grid.mark g) -> length ye = length (Grid.mark g) ->
  exists g', reclassify pnpoly xe ye polys g = Ok g'.
Proof.
  revert g; induction polys as [|pb polys IH]; intros g Hx Hy; simpl.
  - eexists; reflexivity.
  - rewrite reclassify_step_Ok by assumption. cbn [bind].
    apply IH; simpl; now rewrite relabel_length.
Qed.

(** What the passes do to one marker. *)
Lemma relabel_all_nonpositive (x y : float) (polys : list (polygon * Z)) (m : Z) :
  m <= 0 -> relabel_all pnpoly x y polys m = m.
Proof.
  unfold relabel_all. induction polys as [|pb polys IH]; intros Hm; simpl; [reflexivity|].
  unfold relabel_one at 2. destruct (0 <? m) eqn:E; [apply Z.ltb_lt in E; lia|].
  simpl. now apply IH.
Qed.

Lemma relabel_all_outside (x y : float) (polys : list (polygon * Z)) (m : Z) :
  (forall P c, In (P, c) polys -> pnpoly x y P = false) ->
  relabel_all pnpoly x y polys m = m.
Proof.
  unfold relabel_all. revert m; induction polys as [|[P c] polys IH]; intros m Hout;
    simpl; [reflexivity|].
  unfold relabel_one at 2. simpl. rewrite (Hout P c (or_introl Logic.eq_refl)).
  rewrite andb_false_r. apply IH. intros Q d Hin. apply (Hout Q d). now right.
Qed.

Lemma relabel_all_positive (x y : float) (polys : list (polygon * Z)) (m : Z) :
  0 < m ->
  (forall P c, In (P, c) polys -> pnpoly x y P = true -> 0 < c) ->
  0 < relabel_all pnpoly x y polys m.
Proof.
  unfold relabel_all. revert m; induction polys as [|[P c] polys IH]; intros m Hm Hpos;
    simpl; [exact Hm|].
  apply IH; [|intros Q d Hin; apply (Hpos Q d); now right].
  unfold relabel_one. simpl. destruct (0 <? m); simpl; [|exact Hm].
  destruct (pnpoly x y P) eqn:E; [|exact Hm].
  apply (Hpos P c); [now left|exact E].
Qed.

Lemma relabel_all_last (x y : float) (pre post : list (polygon * Z))
    (P : polygon) (b m : Z) :
  0 < m ->
  (forall Q c, In (Q, c) pre -> pnpoly x y Q = true -> 0 < c) ->
  pnpoly x y P = true ->
  (forall Q c, In (Q, c) post -> pnpoly x y Q = false) ->
  relabel_all pnpoly x y (pre ++ (P, b) :: post) m = b.
Proof.
  intros Hm Hpre HP Hpost. unfold relabel_all.
  rewrite fold_left_app. simpl.
  pose proof (relabel_all_positive x y pre m Hm Hpre) as Hk.
  unfold relabel_all in Hk. unfold relabel_one at 2. simpl.
  apply Z.ltb_lt in Hk. rewrite Hk, HP. simpl.
  now apply relabel_all_outside.
Qed.

(** With positive polygon markers the loop keeps the set of edges with a
    positive marker. *)
Lemma relabel_gt (pb : polygon * Z) (xe ye : list float) (marks : list Z) :
  0 < snd pb -> np.gt (relabel pnpoly pb xe ye marks) 0 = np.gt marks 0.
Proof.
  intros Hb. revert xe ye; induction marks as [|m marks IH]; intros [|x xe] [|y ye];
    simpl; try reflexivity.
  rewrite IH. f_equal. unfold relabel_one.
  destruct (0 <? m) eqn:E; simpl; [|exact E].
  destruct (pnpoly x y (fst pb)); [|exact E]. now apply Z.ltb_lt.
Qed.

Lemma reclassify_gt (xe ye : list float) (polys : list (polygon * Z)) (g g' : Grid.t) :
  Forall (fun q => 0 < snd q) polys ->
  reclassify pnpoly xe ye polys g = Ok g' ->
  np.gt (Grid.mark g') 0 = np.gt (Grid.mark g) 0.
Proof.
  intros Hpos; revert g; induction Hpos as [|pb polys Hb _ IH]; intros g H; simpl in H.
  - now injection H as <-.
  - inv_bind H. apply reclassify_step_inv in Hv as (_ & _ & ->).
    rewrite (IH _ H). simpl. now apply relabel_gt.
Qed.

End Reclassify.

Section ModifyBCmarker.

Variable sunpy_Grid : string -> result Grid.t.
Variable readShpPoly : string -> string -> result (list polygon * list Z).
Variable pnpoly : float -> float -> polygon -> bool.

(** A call that returns has loaded the grid, computed the mid-points, read
    the polygons and, unless there are none, run the loop over them. *)
Lemma modifyBCmarker_inv (path bcfile : string) (g' : Grid.t) (tr : list event) :
  modifyBCmarker sunpy_Grid readShpPoly pnpoly path bcfile = Ok (g', tr) ->
  exists g xe ye XY newmarker,
    sunpy_Grid path = Ok g /\
    edge_mean (Grid.xp g) (Grid.edges g) = Ok xe /\
    edge_mean (Grid.yp g) (Grid.edges g) = Ok ye /\
    readShpPoly bcfile "marker" = Ok (XY, newmarker) /\
    ((XY = [] /\ g' = g) \/
     (XY <> [] /\ reclassify pnpoly xe ye (combine XY newmarker) g = Ok g')).
Proof.
  unfold modifyBCmarker. intros H.
  inv_bind H. inv_bind H. inv_bind H. inv_bind H. destruct v2 as [XY newmarker].
  exists v, v0, v1, XY, newmarker. repeat (split; [assumption|]).
  destruct XY as [|P XY]; simpl in H.
  - left. split; [reflexivity|]. now injection H as <- _.
  - right. split; [discriminate|]. inv_bind H. now injection H as <- _.
Qed.

Lemma modifyBCmarker_loop (path bcfile : string) (g g' : Grid.t) (tr : list event)
    (xe ye : list float) (XY : list polygon) (newmarker : list Z) :
  sunpy_Grid path = Ok g ->
  edge_mean (Grid.xp g) (Grid.edges g) = Ok xe ->
  edge_mean (Grid.yp g) (Grid.edges g) = Ok ye ->
  readShpPoly bcfile "marker" = Ok (XY, newmarker) ->
  modifyBCmarker sunpy_Grid readShpPoly pnpoly path bcfile = Ok (g', tr) ->
  length (Grid.mark g') = length (Grid.mark g) /\
  forall i x y m,
    nth_error xe i = Some x -> nth_error ye i = Some y ->
    nth_error (Grid.mark g) i = Some m ->
    nth_error (Grid.mark g') i
    = Some (relabel_all pnpoly x y (combine XY newmarker) m).
Proof.
  intros Hg Hxe Hye Hshp H.
  destruct (modifyBCmarker_inv _ _ _ _ H)
    as (g0 & xe0 & ye0 & XY0 & nm0 & Hg0 & Hxe0 & Hye0 & Hshp0 & Hcase).
  rewrite Hg in Hg0. injection Hg0 as <-.
  rewrite Hxe in Hxe0. injection Hxe0 as <-.
  rewrite Hye in Hye0. injection Hye0 as <-.
  rewrite Hshp in Hshp0. injection Hshp0 as <- <-.
  destruct Hcase as [[-> ->]|[_ Hloop]].
  - split; [reflexivity|]. intros i x y m _ _ Hm. exact Hm.
  - now apply reclassify_inv.
Qed.

(** C8: after a call of [modifyBCmarker] that returns, the grid has as many
    markers as before, every edge whose marker was 0 still has marker 0, and
    every edge whose mid-point lies in none of the polygons has the marker it
    had; and the call returns whenever the grid has one marker per edge. *)
Theorem modifyBCmarker_frame (path bcfile : string) (g : Grid.t)
    (xe ye : list float) (XY : list polygon) (newmarker : list Z) :
  sunpy_Grid path = Ok g ->
  edge_mean (Grid.xp g) (Grid.edges g) = Ok xe ->
  edge_mean (Grid.yp g) (Grid.edges g) = Ok ye ->
  readShpPoly bcfile "marker" = Ok (XY, newmarker) ->
  (forall g' tr,
     modifyBCmarker sunpy_Grid readShpPoly pnpoly path bcfile = Ok (g', tr) ->
     length (Grid.mark g') = length (Grid.mark g) /\
     (forall i, nth_error (Grid.mark g) i = Some 0 ->
                nth_error (Grid.mark g') i = Some 0) /\
     (forall i x y m,
        nth_error xe i = Some x -> nth_error ye i = Some y ->
        nth_error (Grid.mark g) i = Some m ->
        (forall P, In P XY -> pnpoly x y P = false) ->
        nth_error (Grid.mark g') i = Some m)) /\
  (length (Grid.edges g) = length (Grid.mark g) ->
   exists g' tr,
     modifyBCmarker sunpy_Grid readShpPoly pnpoly path bcfile = Ok (g', tr)).
Proof.
  intros Hg Hxe Hye Hshp. split.
  - intros g' tr H.
    destruct (modifyBCmarker_inv _ _ _ _ H)
      as (g0 & xe0 & ye0 & XY0 & nm0 & Hg0 & Hxe0 & Hye0 & Hshp0 & Hcase).
    rewrite Hg in Hg0. injection Hg0 as <-.
    rewrite Hxe in Hxe0. injection Hxe0 as <-.
    rewrite Hye in Hye0. injection Hye0 as <-.
    rewrite Hshp in Hshp0. injection Hshp0 as <- <-.
    destruct (modifyBCmarker_loop _ _ _ _ _ _ _ _ _ Hg Hxe Hye Hshp H) as (Hlen & Hnth).
    split; [exact Hlen|]. split.
    + intros i Hm. destruct Hcase as [[_ ->]|[_ Hloop]]; [exact Hm|].
      apply reclassify_step_lengths in Hloop as Hl.
      destruct Hl as [Hnil|(Hx & Hy)].
      * rewrite Hnil in Hloop. simpl in Hloop. now injection Hloop as <-.
      * assert (Hi : (i < length (Grid.mark g))%nat)
          by (apply nth_error_Some; congruence).
        destruct (nth_error xe i) as [x|] eqn:Ex;
          [|apply nth_error_None in Ex; lia].
        destruct (nth_error ye i) as [y|] eqn:Ey;
          [|apply nth_error_None in Ey; lia].
        rewrite (Hnth i x y 0 Ex Ey Hm). f_equal.
        apply relabel_all_nonpositive. lia.
    + intros i x y m Hx Hy Hm Hout. rewrite (Hnth i x y m Hx Hy Hm). f_equal.
      apply relabel_all_outside. intros P c Hin. apply Hout.
      now apply in_combine_l in Hin.
  - intros Hlen. unfold modifyBCmarker.
    rewrite Hg. cbn [bind]. rewrite Hxe, Hye. cbn [bind]. rewrite Hshp. cbn [bind].
    destruct (length XY <? 1)%nat; [do 2 eexists; reflexivity|].
    destruct (reclassify_total pnpoly xe ye (combine XY newmarker) g) as (g' & ->).
    + rewrite (edge_mean_length _ _ _ Hxe). exact Hlen.
    + rewrite (edge_mean_length _ _ _ Hye). exact Hlen.
    + cbn [bind]. do 2 eexists; reflexivity.
Qed.

Ltac relabel_eval :=
  unfold relabel_all, relabel_one; cbn [fold_left fst snd];
  repeat (match goal with
          | H : (0 <? _) = true |- _ => rewrite H
          | H : pnpoly _ _ _ = _ |- _ => rewrite H
          end; cbn [andb Z.ltb Z.compare]);
  reflexivity.

(** C3, as the code has it: an edge whose marker is positive before the call
    and whose mid-point lies in one or more polygons ends with the marker of
    the last polygon of the sequence that contains it, provided the polygons
    before that one which contain it carry positive markers.  So for a
    polygon [P1] with marker 5 over the edges A and B and a polygon [P2] with
    marker 7 over B and C, all three with positive markers, the order P1, P2
    gives A=5, B=7, C=7 and the order P2, P1 gives A=5, B=5, C=7. *)
Theorem modifyBCmarker_last_polygon_wins :
  (forall (path bcfile : string) (g g' : Grid.t) (tr : list event)
          (xe ye : list float) (XY : list polygon) (newmarker : list Z)
          (i : nat) (x y : float) (m : Z)
          (pre post : list (polygon * Z)) (P : polygon) (b : Z),
     sunpy_Grid path = Ok g ->
     edge_mean (Grid.xp g) (Grid.edges g) = Ok xe ->
     edge_mean (Grid.yp g) (Grid.edges g) = Ok ye ->
     readShpPoly bcfile "marker" = Ok (XY, newmarker) ->
     modifyBCmarker sunpy_Grid readShpPoly pnpoly path bcfile = Ok (g', tr) ->
     nth_error xe i = Some x -> nth_error ye i = Some y ->
     nth_error (Grid.mark g) i = Some m -> 0 < m ->
     combine XY newmarker = pre ++ (P, b) :: post ->
     pnpoly x y P = true ->
     (forall Q c, In (Q, c) post -> pnpoly x y Q = false) ->
     (forall Q c, In (Q, c) pre -> pnpoly x y Q = true -> 0 < c) ->
     nth_error (Grid.mark g') i = Some b) /\
  (forall (xe ye : list float) (g : Grid.t) (P1 P2 : polygon)
          (A B C : nat) (xA yA xB yB xC yC : float) (mA mB mC : Z),
     length xe = length (Grid.mark g) -> length ye = length (Grid.mark g) ->
     nth_error xe A = Some xA -> nth_error ye A = Some yA ->
     nth_error xe B = Some xB -> nth_error ye B = Some yB ->
     nth_error xe C = Some xC -> nth_error ye C = Some yC ->
     nth_error (Grid.mark g) A = Some mA -> 0 < mA ->
     nth_error (Grid.mark g) B = Some mB -> 0 < mB ->
     nth_error (Grid.mark g) C = Some mC -> 0 < mC ->
     pnpoly xA yA P1 = true -> pnpoly xB yB P1 = true -> pnpoly xC yC P1 = false ->
     pnpoly xA yA P2 = false -> pnpoly xB yB P2 = true -> pnpoly xC yC P2 = true ->
     exists g12 g21,
       reclassify pnpoly xe ye [(P1, 5); (P2, 7)] g = Ok g12 /\
       nth_error (Grid.mark g12) A = Some 5 /\
       nth_error (Grid.mark g12) B = Some 7 /\
       nth_error (Grid.mark g12) C = Some 7 /\
       reclassify pnpoly xe ye [(P2, 7); (P1, 5)] g = Ok g21 /\
       nth_error (Grid.mark g21) A = Some 5 /\
       nth_error (Grid.mark g21) B = Some 5 /\
       nth_error (Grid.mark g21) C = Some 7).
Proof.
  split.
  - intros path bcfile g g' tr xe ye XY newmarker i x y m pre post P b
      Hg Hxe Hye Hshp H Hx Hy Hm Hpos Hsplit HP Hpost Hpre.
    destruct (modifyBCmarker_loop _ _ _ _ _ _ _ _ _ Hg Hxe Hye Hshp H) as (_ & Hnth).
    rewrite (Hnth i x y m Hx Hy Hm), Hsplit. f_equal.
    now apply relabel_all_last.
  - intros xe ye g P1 P2 A B C xA yA xB yB xC yC mA mB mC Hlx Hly
      HxA HyA HxB HyB HxC HyC HmA HpA HmB HpB HmC HpC HA1 HB1 HC1 HA2 HB2 HC2.
    destruct (reclassify_total pnpoly xe ye [(P1, 5); (P2, 7)] g Hlx Hly) as (g12 & H12).
    destruct (reclassify_total pnpoly xe ye [(P2, 7); (P1, 5)] g Hlx Hly) as (g21 & H21).
    exists g12, g21.
    destruct (reclassify_inv pnpoly _ _ _ _ _ H12) as (_ & N12).
    destruct (reclassify_inv pnpoly _ _ _ _ _ H21) as (_ & N21).
    apply Z.ltb_lt in HpA, HpB, HpC.
    split; [exact H12|].
    split; [rewrite (N12 A xA yA mA) by assumption; relabel_eval|].
    split; [rewrite (N12 B xB yB mB) by assumption; relabel_eval|].
    split; [rewrite (N12 C xC yC mC) by assumption; relabel_eval|].
    split; [exact H21|].
    split; [rewrite (N21 A xA yA mA) by assumption; relabel_eval|].
    split; [rewrite (N21 B xB yB mB) by assumption; relabel_eval|].
    rewrite (N21 C xC yC mC) by assumption; relabel_eval.
Qed.

(** C7, as the code has it: the edges that a pass may relabel are those whose
    marker is positive when that pass starts; the set is computed anew in
    each pass.  The pass tests the mid-points of these edges against its
    polygon: an edge of the set whose mid-point lies in the polygon takes the
    marker of the polygon, every other edge keeps its marker.  When the
    polygons of the earlier passes carry positive markers the set is the set
    of the edges whose marker was positive before the first pass. *)
Theorem reclassify_candidates (xe ye : list float) (pre post : list (polygon * Z))
    (p : polygon * Z) (g g' : Grid.t) :
  reclassify pnpoly xe ye (pre ++ p :: post) g = Ok g' ->
  exists gk gk',
    reclassify pnpoly xe ye pre g = Ok gk /\
    reclassify_step pnpoly xe ye gk p = Ok gk' /\
    reclassify pnpoly xe ye post gk' = Ok g' /\
    length xe = length (Grid.mark gk) /\
    length ye = length (Grid.mark gk) /\
    length (Grid.mark gk') = length (Grid.mark gk) /\
    (forall i, nth_error (np.gt (Grid.mark gk) 0) i = Some true <->
               exists m, nth_error (Grid.mark gk) i = Some m /\ 0 < m) /\
    (forall i x y m,
       nth_error (np.gt (Grid.mark gk) 0) i = Some true ->
       nth_error xe i = Some x -> nth_error ye i = Some y ->
       nth_error (Grid.mark gk) i = Some m ->
       nth_error (Grid.mark gk') i
       = Some (if pnpoly x y (fst p) then snd p else m)) /\
    (forall i, nth_error (np.gt (Grid.mark gk) 0) i = Some false ->
               nth_error (Grid.mark gk') i = nth_error (Grid.mark gk) i) /\
    (Forall (fun q => 0 < snd q) pre ->
     np.gt (Grid.mark gk) 0 = np.gt (Grid.mark g) 0).
Proof.
  intros H. rewrite reclassify_app in H. inv_bind H.
  simpl in H. inv_bind H. exists v, v0.
  split; [exact Hv|]. split; [exact Hv0|]. split; [exact H|].
  apply reclassify_step_inv in Hv0 as (Hx & Hy & ->).
  cbn [Grid.set_mark Grid.mark].
  split; [exact Hx|]. split; [exact Hy|]. split; [apply relabel_length|].
  split; [|split; [|split]].
  - intros i. unfold np.gt. rewrite nth_error_map.
    destruct (nth_error (Grid.mark v) i) as [m|]; simpl; split.
    + intros E. injection E as E. apply Z.ltb_lt in E. eauto.
    + intros (m' & E & Hm). injection E as ->. f_equal. now apply Z.ltb_lt.
    + discriminate.
    + intros (m' & E & _). discriminate.
  - intros i x y m Hi Ex Ey Em.
    unfold np.gt in Hi. rewrite nth_error_map, Em in Hi. simpl in Hi.
    injection Hi as Hi.
    rewrite (relabel_nth pnpoly p xe ye _ i x y m Ex Ey Em).
    unfold relabel_one. now rewrite Hi.
  - intros i Hi.
    unfold np.gt in Hi. rewrite nth_error_map in Hi.
    destruct (nth_error (Grid.mark v) i) as [m|] eqn:Em; [|discriminate].
    simpl in Hi. injection Hi as Hi.
    assert (Hlt : (i < length (Grid.mark v))%nat) by (apply nth_error_Some; congruence).
    destruct (nth_error xe i) as [x|] eqn:Ex; [|apply nth_error_None in Ex; lia].
    destruct (nth_error ye i) as [y|] eqn:Ey; [|apply nth_error_None in Ey; lia].
    rewrite (relabel_nth pnpoly p xe ye _ i x y m Ex Ey Em).
    unfold relabel_one. now rewrite Hi.
  - intros Hpos. eapply reclassify_gt; eassumption.
Qed.

(** C9: when the shapefile holds no polygon with the field (the loader's
    result is empty), [modifyBCmarker] prints its heading and the error and
    returns: the grid is the grid as loaded, markers included, and no event
    of the call writes a file. *)
Theorem modifyBCmarker_no_polygons (path bcfile : string) (g : Grid.t)
    (xe ye : list float) (newmarker : list Z) :
  sunpy_Grid path = Ok g ->
  edge_mean (Grid.xp g) (Grid.edges g) = Ok xe ->
  edge_mean (Grid.yp g) (Grid.edges g) = Ok ye ->
  readShpPoly bcfile "marker" = Ok ([], newmarker) ->
  exists tr,
    modifyBCmarker sunpy_Grid readShpPoly pnpoly path bcfile = Ok (g, tr) /\
    tr = [ Print banner;
           Print "     Modifying the boundary markers for grid in folder:";
           Print ("         " ++ path)%string;
           Print ("Error - could not find any polygons with the field name "
                  ++ dquote ++ "marker" ++ dquote ++ " in shapefile: " ++ bcfile)%string ] /\
    filter is_write tr = [].
Proof.
  intros Hg Hxe Hye Hshp. unfold modifyBCmarker.
  rewrite Hg. cbn [bind]. rewrite Hxe, Hye. cbn [bind]. rewrite Hshp. cbn [bind].
  eexists. split; [reflexivity|]. split; reflexivity.
Qed.

End ModifyBCmarker.

Lemma modifyBCmarker_frame_witness :
  exists g' tr,
    modifyBCmarker demo_sunpy_Grid demo_readShpPoly demo_pnpoly "demo" "low5_high7.shp"
    = Ok (g', tr) /\
    length (Grid.mark g') = 5%nat /\
    nth_error (Grid.mark g') 4 = Some 0 /\
    nth_error (Grid.mark g') 3 = Some 3.
Proof.
  destruct (modifyBCmarker_frame demo_sunpy_Grid demo_readShpPoly demo_pnpoly
              "demo" "low5_high7.shp" demo_grid demo_xe demo_ye
              [poly_low; poly_high] [5; 7]) as (Hframe & Hreturns);
    try (vm_compute; reflexivity).
  destruct (Hreturns Logic.eq_refl) as (g' & tr & E).
  exists g', tr. split; [exact E|].
  destruct (Hframe g' tr E) as (Hlen & Hzero & Hout).
  split; [exact Hlen|]. split.
  - apply Hzero. reflexivity.
  - apply (Hout 3%nat 0%float 0.5%float 3); try reflexivity.
    intros P [<-|[<-|[]]]; vm_compute; reflexivity.
Defined.

Lemma modifyBCmarker_last_polygon_wins_witness :
  (exists g' tr,
     modifyBCmarker demo_sunpy_Grid demo_readShpPoly demo_pnpoly "demo" "low5_high7.shp"
     = Ok (g', tr) /\ nth_error (Grid.mark g') 1 = Some 7) /\
  (exists g' tr,
     modifyBCmarker demo_sunpy_Grid demo_readShpPoly demo_pnpoly "demo" "high7_low5.shp"
     = Ok (g', tr) /\ nth_error (Grid.mark g') 1 = Some 5) /\
  (exists g12 g21,
     reclassify demo_pnpoly demo_xe demo_ye [(poly_low, 5); (poly_high, 7)] demo_grid
     = Ok g12 /\
     nth_error (Grid.mark g12) 0 = Some 5 /\
     nth_error (Grid.mark g12) 1 = Some 7 /\
     nth_error (Grid.mark g12) 2 = Some 7 /\
     reclassify demo_pnpoly demo_xe demo_ye [(poly_high, 7); (poly_low, 5)] demo_grid
     = Ok g21 /\
     nth_error (Grid.mark g21) 0 = Some 5 /\
     nth_error (Grid.mark g21) 1 = Some 5 /\
     nth_error (Grid.mark g21) 2 = Some 7).
Proof.
  destruct (modifyBCmarker_last_polygon_wins demo_sunpy_Grid demo_readShpPoly
              demo_pnpoly) as [Hlast Hpair].
  split; [|split].
  - destruct (modifyBCmarker demo_sunpy_Grid demo_readShpPoly demo_pnpoly
                "demo" "low5_high7.shp") as [[g' tr]| |] eqn:E;
      [|vm_compute in E; discriminate E|vm_compute in E; discriminate E].
    exists g', tr. split; [reflexivity|].
    apply (Hlast "demo" "low5_high7.shp" demo_grid g' tr demo_xe demo_ye
             [poly_low; poly_high] [5; 7] 1%nat 1%float 0.5%float 2
             [(poly_low, 5)] [] poly_high 7);
      try (vm_compute; reflexivity); try exact E; try lia.
    + intros Q c [].
    + intros Q c [Hq|[]] _. injection Hq as _ <-. lia.
  - destruct (modifyBCmarker demo_sunpy_Grid demo_readShpPoly demo_pnpoly
                "demo" "high7_low5.shp") as [[g' tr]| |] eqn:E;
      [|vm_compute in E; discriminate E|vm_compute in E; discriminate E].
    exists g', tr. split; [reflexivity|].
    apply (Hlast "demo" "high7_low5.shp" demo_grid g' tr demo_xe demo_ye
             [poly_high; poly_low] [7; 5] 1%nat 1%float 0.5%float 2
             [(poly_high, 7)] [] poly_low 5);
      try (vm_compute; reflexivity); try exact E; try lia.
    + intros Q c [].
    + intros Q c [Hq|[]] _. injection Hq as _ <-. lia.
  - apply (Hpair demo_xe demo_ye demo_grid poly_low poly_high 0%nat 1%nat 2%nat
             0.5%float 0%float 1%float 0.5%float 0.5%float 1%float 3 2 1);
      try (vm_compute; reflexivity); lia.
Defined.

(** C3 as stated fails.  In the shapefile low0_all5.shp both polygons hold
    the mid-point of edge 0 of [demo_grid], whose marker is 3; the last of
    them carries the marker 5, and the edge ends with the marker 0 of the
    first.  And the diagonal, edge 4 with marker 0, lies in both polygons of
    low5_high7.shp and keeps the marker 0. *)
Lemma modifyBCmarker_last_polygon_loses :
  demo_readShpPoly "low0_all5.shp" "marker" = Ok ([poly_low; poly_all], [0; 5]) /\
  Grid.mark demo_grid = [3; 2; 1; 3; 0] /\
  demo_pnpoly 0.5 0 poly_low = true /\
  demo_pnpoly 0.5 0 poly_all = true /\
  (exists g' tr,
     modifyBCmarker demo_sunpy_Grid demo_readShpPoly demo_pnpoly "demo" "low0_all5.shp"
     = Ok (g', tr) /\ Grid.mark g' = [0; 0; 5; 5; 0]) /\
  demo_readShpPoly "low5_high7.shp" "marker" = Ok ([poly_low; poly_high], [5; 7]) /\
  demo_pnpoly 0.5 0.5 poly_low = true /\
  demo_pnpoly 0.5 0.5 poly_high = true /\
  (exists g' tr,
     modifyBCmarker demo_sunpy_Grid demo_readShpPoly demo_pnpoly "demo" "low5_high7.shp"
     = Ok (g', tr) /\ Grid.mark g' = [5; 7; 7; 3; 0]).
Proof.
  repeat (split; [vm_compute; reflexivity|]).
  split; [do 2 eexists; split; [vm_compute; reflexivity|reflexivity]|].
  repeat (split; [vm_compute; reflexivity|]).
  do 2 eexists; split; [vm_compute; reflexivity|reflexivity].
Qed.

Lemma reclassify_candidates_witness :
  exists gk gk',
    reclassify demo_pnpoly demo_xe demo_ye [(poly_low, 0)] demo_grid = Ok gk /\
    reclassify_step demo_pnpoly demo_xe demo_ye gk (poly_all, 5) = Ok gk' /\
    reclassify demo_pnpoly demo_xe demo_ye [] gk'
    = Ok (Grid.set_mark demo_grid [0; 0; 5; 5; 0]) /\
    length demo_xe = length (Grid.mark gk) /\
    length demo_ye = length (Grid.mark gk) /\
    length (Grid.mark gk') = length (Grid.mark gk) /\
    (forall i, nth_error (np.gt (Grid.mark gk) 0) i = Some true <->
               exists m, nth_error (Grid.mark gk) i = Some m /\ 0 < m) /\
    (forall i x y m,
       nth_error (np.gt (Grid.mark gk) 0) i = Some true ->
       nth_error demo_xe i = Some x -> nth_error demo_ye i = Some y ->
       nth_error (Grid.mark gk) i = Some m ->
       nth_error (Grid.mark gk') i
       = Some (if demo_pnpoly x y (fst (poly_all, 5)) then snd (poly_all, 5) else m)) /\
    (forall i, nth_error (np.gt (Grid.mark gk) 0) i = Some false ->
               nth_error (Grid.mark gk') i = nth_error (Grid.mark gk) i) /\
    (Forall (fun q => 0 < snd q) [(poly_low, 0)] ->
     np.gt (Grid.mark gk) 0 = np.gt (Grid.mark demo_grid) 0).
Proof.
  apply (reclassify_candidates demo_pnpoly demo_xe demo_ye [(poly_low, 0)] []
           (poly_all, 5) demo_grid (Grid.set_mark demo_grid [0; 0; 5; 5; 0])).
  vm_compute. reflexivity.
Defined.

(** C7 as stated fails.  In [demo_grid] the edges 0 to 3 have a nonzero
    marker.  The pass for [poly_low] with marker 0 sets the markers of the
    edges 0 and 1 to 0; the next pass, for [poly_all] with marker 5, selects
    the edges 2 and 3 only, and the edges 0 and 1, whose mid-points lie in
    [poly_all], keep the marker 0. *)
Lemma reclassify_candidates_change :
  Grid.mark demo_grid = [3; 2; 1; 3; 0] /\
  np.gt (Grid.mark demo_grid) 0 = [true; true; true; true; false] /\
  reclassify demo_pnpoly demo_xe demo_ye [(poly_low, 0)] demo_grid
  = Ok (Grid.set_mark demo_grid [0; 0; 1; 3; 0]) /\
  np.gt (Grid.mark (Grid.set_mark demo_grid [0; 0; 1; 3; 0])) 0
  = [false; false; true; true; false] /\
  points_inside_poly demo_pnpoly (combine demo_xe demo_ye) poly_all
  = [true; true; true; true; true] /\
  reclassify demo_pnpoly demo_xe demo_ye [(poly_low, 0); (poly_all, 5)] demo_grid
  = Ok (Grid.set_mark demo_grid [0; 0; 5; 5; 0]).
Proof. repeat split; vm_compute; reflexivity. Qed.

Lemma modifyBCmarker_no_polygons_witness :
  exists tr,
    modifyBCmarker demo_sunpy_Grid demo_readShpPoly demo_pnpoly "demo" "none.shp"
    = Ok (demo_grid, tr) /\
    tr = [ Print banner;
           Print "     Modifying the boundary markers for grid in folder:";
           Print ("         " ++ "demo")%string;
           Print ("Error - could not find any polygons with the field name "
                  ++ dquote ++ "marker" ++ dquote ++ " in shapefile: "
                  ++ "none.shp")%string ] /\
    filter is_write tr = [].
Proof.
  apply (modifyBCmarker_no_polygons demo_sunpy_Grid demo_readShpPoly demo_pnpoly
           "demo" "none.shp" demo_grid demo_xe demo_ye []);
    vm_compute; reflexivity.
Defined.

(** * Further properties *)

(** ** Boundary.getTime: every outcome *)

Lemma timedelta_cases (fm : float -> result Z) (step : number) (d : Z) :
  datetime.microseconds fm step = Ok d ->
  datetime.timedelta fm step = Ok d \/ datetime.timedelta fm step = Raise OverflowError.
Proof.
  intros Hd. unfold datetime.timedelta. rewrite Hd. cbn [bind].
  destruct (_ && _); auto.
Qed.

Lemma timedelta_inv (fm : float -> result Z) (step : number) (d : Z) :
  datetime.timedelta fm step = Ok d -> datetime.microseconds fm step = Ok d.
Proof.
  unfold datetime.timedelta. intros H.
  destruct (datetime.microseconds fm step) as [us| |]; try discriminate.
  cbn [bind] in H. destruct (_ && _); congruence.
Qed.

Lemma add_cases (t d : Z) :
  (datetime.add t d = Ok (t + d) /\ 0 <= t + d <= datetime.max) \/
  (datetime.add t d = Raise OverflowError /\ (t + d < 0 \/ datetime.max < t + d)).
Proof.
  unfold datetime.add.
  destruct (0 <=? t + d) eqn:E1; destruct (t + d <=? datetime.max) eqn:E2; simpl;
    try apply Z.leb_le in E1; try apply Z.leb_le in E2;
    try apply Z.leb_gt in E1; try apply Z.leb_gt in E2;
    [left|right|right|right]; split; auto; lia.
Qed.

(** A loop that returns has appended the instants [t0], [t0 + d], ... up to
    the last one before [t2], and every addition stayed a datetime. *)
Lemma getTime_loop_sound (fm : float -> result Z) (step : number) (d t2 : Z) :
  datetime.microseconds fm step = Ok d ->
  0 < d ->
  forall (fuel : nat) (t0 : Z) (acc r : list Z),
    Boundary.getTime_loop fm fuel step t2 t0 acc = Ok r ->
    exists n : nat,
      r = acc ++ axis t0 d n /\
      t2 <= t0 + Z.of_nat n * d /\
      ((0 < n)%nat -> t0 + (Z.of_nat n - 1) * d < t2) /\
      ((0 < n)%nat -> t0 + Z.of_nat n * d <= datetime.max).
Proof.
  intros Hd Hdt. induction fuel as [|fuel IH]; intros t0 acc r H; [discriminate|].
  simpl in H. destruct (t0 <? t2) eqn:E.
  - apply Z.ltb_lt in E.
    destruct (timedelta_cases fm step d Hd) as [Ht|Ht]; rewrite Ht in H; [|discriminate].
    cbn [bind] in H.
    destruct (add_cases t0 d) as [[Ha Hr]|[Ha _]]; rewrite Ha in H; [|discriminate].
    cbn [bind] in H. destruct (IH _ _ _ H) as (n & -> & Hup & Hlow & Hmax).
    exists (S n). rewrite axis_S, <- app_assoc. split; [reflexivity|].
    assert (HS : Z.of_nat (S n) = Z.of_nat n + 1) by lia. rewrite HS.
    split; [lia|]. split; intros _.
    + destruct (Nat.eq_dec n 0) as [->|Hn]; [lia|].
      specialize (Hlow ltac:(lia)). lia.
    + destruct (Nat.eq_dec n 0) as [->|Hn]; [lia|].
      specialize (Hmax ltac:(lia)). lia.
  - apply Z.ltb_ge in E. injection H as <-. exists 0%nat.
    unfold axis. simpl. rewrite app_nil_r. split; [reflexivity|].
    split; [lia|]. split; intros; lia.
Qed.

(** A loop that returns has used one unit of fuel per instant and one for
    the last test. *)
Lemma getTime_loop_fuel (fm : float -> result Z) (step : number) (t2 : Z)
    (fuel : nat) (t0 : Z) (acc r : list Z) :
  Boundary.getTime_loop fm fuel step t2 t0 acc = Ok r ->
  (length r - length acc < fuel)%nat /\ (length acc <= length r)%nat.
Proof.
  revert t0 acc; induction fuel as [|fuel IH]; intros t0 acc H; [discriminate|].
  simpl in H. destruct (t0 <? t2).
  - inv_bind H. inv_bind H. apply IH in H. rewrite length_app in H. simpl in H. lia.
  - injection H as <-. lia.
Qed.

Lemma axis_length_unique (t1 t2 dt : Z) (n : nat) :
  0 < dt ->
  t2 <= t1 + Z.of_nat n * dt ->
  ((0 < n)%nat -> t1 + (Z.of_nat n - 1) * dt < t2) ->
  Z.of_nat n = axis_length t1 t2 dt.
Proof.
  intros Hdt Hup Hlow. unfold axis_length.
  destruct (t1 <? t2) eqn:E.
  - apply Z.ltb_lt in E.
    assert (Hn : (0 < n)%nat) by (destruct n; [simpl in Hup; lia|lia]).
    specialize (Hlow Hn).
    apply (Z.div_unique _ _ _ (t2 - t1 + dt - 1 - dt * Z.of_nat n)); nia.
  - apply Z.ltb_ge in E. destruct n as [|n]; [reflexivity|].
    specialize (Hlow ltac:(lia)). nia.
Qed.

(** A loop that starts before [t2] and returns has built its timedelta. *)
Lemma getTime_loop_step (fm : float -> result Z) (step : number) (t2 : Z)
    (fuel : nat) (t0 : Z) (acc r : list Z) :
  t0 < t2 -> Boundary.getTime_loop fm fuel step t2 t0 acc = Ok r ->
  exists d, datetime.microseconds fm step = Ok d.
Proof.
  intros Hlt H. destruct fuel as [|fuel]; [discriminate|]. simpl in H.
  apply Z.ltb_lt in Hlt. rewrite Hlt in H.
  destruct (datetime.timedelta fm step) as [d| |] eqn:E; try discriminate.
  exists d. now apply timedelta_inv.
Qed.

(** With a step that is not positive the loop never reaches [t2]. *)
Lemma getTime_loop_stuck (fm : float -> result Z) (step : number) (d t2 : Z) :
  datetime.microseconds fm step = Ok d ->
  d <= 0 ->
  forall (fuel : nat) (t0 : Z) (acc r : list Z),
    t0 < t2 -> Boundary.getTime_loop fm fuel step t2 t0 acc <> Ok r.
Proof.
  intros Hd Hdt. induction fuel as [|fuel IH]; intros t0 acc r Hlt; [discriminate|].
  simpl. apply Z.ltb_lt in Hlt as Hb. rewrite Hb.
  destruct (timedelta_cases fm step d Hd) as [-> | ->]; [|discriminate]. cbn [bind].
  destruct (add_cases t0 d) as [[-> _]|[-> _]]; [|discriminate]. cbn [bind].
  apply IH. lia.
Qed.

(** X1: whenever [getTime] returns, both timestamps parsed, [Nt] is the
    length of the axis, and either the end is not after the start and the
    axis is empty, or the step, int or float, is a timedelta of [d > 0]
    microseconds ([d] is the step itself for an int) and the axis is
    [t1, t1 + d, ...] with [Nt] the rounded-up quotient of [t2 - t1] by [d],
    the instant computed last still a datetime. *)
Theorem getTime_sound (float_microseconds : float -> result Z)
    (strptime : string -> string -> result Z)
    (s1 s2 : string) (step : number) (fuel : nat) (tm : Boundary.Time) :
  Boundary.getTime float_microseconds strptime (s1, s2, step) fuel = Ok tm ->
  exists t1 t2,
    strptime s1 "%Y%m%d.%H%M" = Ok t1 /\
    strptime s2 "%Y%m%d.%H%M" = Ok t2 /\
    Boundary.Nt tm = length (Boundary.time tm) /\
    (Boundary.Nt tm < fuel)%nat /\
    (t2 <= t1 -> Boundary.time tm = []) /\
    (t1 < t2 ->
     exists d,
       datetime.microseconds float_microseconds step = Ok d /\
       0 < d /\
       (forall n, step = PyInt n -> d = n * datetime.second) /\
       Z.of_nat (Boundary.Nt tm) = axis_length t1 t2 d /\
       Boundary.time tm = axis t1 d (Boundary.Nt tm) /\
       t1 + axis_length t1 t2 d * d <= datetime.max).
Proof.
  intros H. unfold Boundary.getTime in H. cbn [fst snd] in H.
  inv_bind H. inv_bind H. inv_bind H. injection H as <-.
  exists v, v0. split; [exact Hv|]. split; [exact Hv0|].
  cbn [Boundary.time Boundary.Nt].
  assert (Hfuel := getTime_loop_fuel float_microseconds step v0 fuel v [] v1 Hv1).
  split; [reflexivity|]. split; [simpl in Hfuel; lia|]. split.
  - intros Hge. destruct fuel as [|fuel]; [discriminate|]. simpl in Hv1.
    destruct (v <? v0) eqn:E; [apply Z.ltb_lt in E; lia|]. now injection Hv1.
  - intros Hlt.
    destruct (getTime_loop_step float_microseconds step v0 fuel v [] v1 Hlt Hv1)
      as (d & Hd).
    exists d. split; [exact Hd|].
    assert (Hdt : 0 < d).
    { destruct (Z_lt_le_dec 0 d) as [Hp|Hn]; [exact Hp|]. exfalso.
      exact (getTime_loop_stuck float_microseconds step d v0 Hd Hn fuel v [] v1 Hlt Hv1). }
    split; [exact Hdt|]. split.
    { intros n ->. cbn [datetime.microseconds] in Hd. congruence. }
    destruct (getTime_loop_sound float_microseconds step d v0 Hd Hdt _ _ _ _ Hv1)
      as (n & Hr & Hup & Hlow & Hmax).
    simpl in Hr. subst v1. rewrite axis_length_eq in *.
    pose proof (axis_length_unique v v0 d n Hdt Hup Hlow) as Hn.
    split; [exact Hn|]. split; [reflexivity|].
    rewrite <- Hn. apply Hmax.
    destruct n; [simpl in Hup; lia|lia].
Qed.

Lemma getTime_sound_witness :
  exists t1 t2,
    demo_strptime "20120101.0000" "%Y%m%d.%H%M" = Ok t1 /\
    demo_strptime "20120101.0001" "%Y%m%d.%H%M" = Ok t2 /\
    3%nat = length [63460972800000000; 63460972822500000; 63460972845000000] /\
    (3 < 10)%nat /\
    (t2 <= t1 ->
     [63460972800000000; 63460972822500000; 63460972845000000] = []) /\
    (t1 < t2 ->
     exists d,
       datetime.microseconds demo_float_microseconds (PyFloat 22.5) = Ok d /\
       0 < d /\
       (forall n, PyFloat 22.5 = PyInt n -> d = n * datetime.second) /\
       Z.of_nat 3 = axis_length t1 t2 d /\
       [63460972800000000; 63460972822500000; 63460972845000000] = axis t1 d 3 /\
       t1 + axis_length t1 t2 d * d <= datetime.max).
Proof.
  apply (getTime_sound demo_float_microseconds demo_strptime
           "20120101.0000" "20120101.0001" (PyFloat 22.5) 10
           {| Boundary.time :=
                [63460972800000000; 63460972822500000; 63460972845000000];
              Boundary.Nt := 3 |}).
  vm_compute. reflexivity.
Defined.

(** The loop with [n] instants to come, the last addition leaving the range
    of datetimes. *)
Lemma getTime_loop_overflow (fm : float -> result Z) (step : number) (d t2 : Z) :
  datetime.microseconds fm step = Ok d ->
  0 < d -> t2 <= datetime.max ->
  forall (n : nat) (t0 : Z) (acc : list Z) (fuel : nat),
    0 <= t0 ->
    t0 + Z.of_nat n * d < t2 ->
    datetime.max < t0 + (Z.of_nat n + 1) * d ->
    (n < fuel)%nat ->
    Boundary.getTime_loop fm fuel step t2 t0 acc = Raise OverflowError.
Proof.
  intros Hd Hdt Ht2. induction n as [|n IH]; intros t0 acc fuel H0 Hlow Hover Hfuel;
    (destruct fuel as [|fuel]; [lia|]); simpl Boundary.getTime_loop.
  - assert (Hlt : t0 < t2) by lia. apply Z.ltb_lt in Hlt. rewrite Hlt.
    destruct (timedelta_cases fm step d Hd) as [-> | ->]; [|reflexivity]. cbn [bind].
    destruct (add_cases t0 d) as [[_ Hr]|[-> _]]; [lia|reflexivity].
  - assert (HS : Z.of_nat (S n) = Z.of_nat n + 1) by lia. rewrite HS in Hlow, Hover.
    assert (Hlt : t0 < t2) by nia. apply Z.ltb_lt in Hlt. rewrite Hlt.
    rewrite (timedelta_Ok fm step d Hd Hdt) by nia. cbn [bind].
    rewrite add_Ok by nia. cbn [bind].
    apply IH; lia.
Qed.

(** X2: for timestamps that parse to datetimes [t1 < t2] and a step, int or
    float, of [d > 0] microseconds, when the instant after the last one of
    the axis, [t1 + Nt * d], lies after the last datetime of the year 9999,
    [getTime] raises OverflowError as soon as the fuel covers the [Nt] passes
    of the loop. *)
Theorem getTime_raises_overflow (float_microseconds : float -> result Z)
    (strptime : string -> string -> result Z)
    (s1 s2 : string) (step : number) (d t1 t2 : Z) (fuel : nat) :
  strptime s1 "%Y%m%d.%H%M" = Ok t1 ->
  strptime s2 "%Y%m%d.%H%M" = Ok t2 ->
  0 <= t1 -> t1 < t2 -> t2 <= datetime.max ->
  datetime.microseconds float_microseconds step = Ok d ->
  0 < d ->
  datetime.max < t1 + axis_length t1 t2 d * d ->
  (Z.to_nat (axis_length t1 t2 d) <= fuel)%nat ->
  Boundary.getTime float_microseconds strptime (s1, s2, step) fuel
  = Raise OverflowError.
Proof.
  intros Hs1 Hs2 H0 Hlt Ht2 Hd Hdt Hover Hfuel.
  destruct (axis_length_bounds t1 t2 d Hdt Hlt) as (Hpos & Hup & Hlow).
  unfold Boundary.getTime. cbn [fst snd]. rewrite Hs1, Hs2. cbn [bind].
  assert (Hn : Z.of_nat (Z.to_nat (axis_length t1 t2 d - 1))
               = axis_length t1 t2 d - 1) by lia.
  rewrite (getTime_loop_overflow float_microseconds step d t2 Hd Hdt Ht2
             (Z.to_nat (axis_length t1 t2 d - 1)) t1 [] fuel);
    [reflexivity|exact H0|rewrite Hn; exact Hlow|rewrite Hn|lia].
  replace (axis_length t1 t2 d - 1 + 1) with (axis_length t1 t2 d) by lia.
  exact Hover.
Qed.

Lemma getTime_raises_overflow_witness :
  Boundary.getTime demo_float_microseconds demo_strptime
    ("99991231.0000", "99991231.2359", PyInt 3600) 24
  = Raise OverflowError.
Proof.
  apply (getTime_raises_overflow demo_float_microseconds demo_strptime
           "99991231.0000" "99991231.2359" (PyInt 3600) 3600000000
           315537811200000000 315537897540000000 24).
  - vm_compute. reflexivity.
  - vm_compute. reflexivity.
  - lia.
  - lia.
  - vm_compute. discriminate.
  - reflexivity.
  - lia.
  - vm_compute. reflexivity.
  - vm_compute. lia.
Defined.

(** X3: when the end is after the start and the step is a timedelta that is
    not positive, [getTime] never returns an axis: the loop steps away from
    the end (until the datetimes run out) or, for a step of no time at all,
    stays at the start for ever. *)
Theorem getTime_nonpositive_step (float_microseconds : float -> result Z)
    (strptime : string -> string -> result Z)
    (s1 s2 : string) (step : number) (d t1 t2 : Z) :
  strptime s1 "%Y%m%d.%H%M" = Ok t1 ->
  strptime s2 "%Y%m%d.%H%M" = Ok t2 ->
  datetime.microseconds float_microseconds step = Ok d ->
  t1 < t2 -> d <= 0 ->
  (forall fuel tm,
     Boundary.getTime float_microseconds strptime (s1, s2, step) fuel <> Ok tm) /\
  (d = 0 -> 0 <= t1 <= datetime.max ->
   forall fuel,
     Boundary.getTime float_microseconds strptime (s1, s2, step) fuel = OutOfFuel).
Proof.
  intros Hs1 Hs2 Hd Hlt Hdt. split.
  - intros fuel tm H. unfold Boundary.getTime in H. cbn [fst snd] in H.
    rewrite Hs1, Hs2 in H. cbn [bind] in H. inv_bind H.
    exact (getTime_loop_stuck float_microseconds step d t2 Hd Hdt fuel t1 [] v Hlt Hv).
  - intros E Hr fuel. subst d. unfold Boundary.getTime. cbn [fst snd].
    rewrite Hs1, Hs2. cbn [bind].
    now rewrite (getTime_loop_zero float_microseconds step t2 Hd).
Qed.

Lemma getTime_nonpositive_step_witness :
  (forall fuel tm,
     Boundary.getTime demo_float_microseconds demo_strptime
       ("20120101.0000", "20120102.0000", PyInt 0) fuel <> Ok tm) /\
  (0 = 0 -> 0 <= 63460972800000000 <= datetime.max ->
   forall fuel,
     Boundary.getTime demo_float_microseconds demo_strptime
       ("20120101.0000", "20120102.0000", PyInt 0) fuel
     = OutOfFuel).
Proof.
  apply (getTime_nonpositive_step demo_float_microseconds demo_strptime
           "20120101.0000" "20120102.0000" (PyInt 0) 0
           63460972800000000 63461059200000000).
  - vm_compute. reflexivity.
  - vm_compute. reflexivity.
  - reflexivity.
  - lia.
  - lia.
Defined.

(** ** Boundary.__init__: how the parts fit *)

Lemma getTime_loop_empty (fm : float -> result Z) (fuel : nat) (step : number)
    (t2 t0 : Z) (acc r : list Z) :
  t2 <= t0 -> Boundary.getTime_loop fm fuel step t2 t0 acc = Ok r -> r = acc.
Proof.
  intros Hge H. destruct fuel as [|fuel]; [discriminate|]. simpl in H.
  destruct (t0 <? t2) eqn:E; [apply Z.ltb_lt in E; lia|]. now injection H.
Qed.

(** X4: an object built for a window whose end is not after its start,
    whatever the step, has an empty time axis, [Nt] = 0, and field arrays
    with no entry: the type-2 ones of shape (0, Nk, N2), the type-3 ones of
    shape (0, Nk, N3), [h] of shape (0, N3). *)
Theorem init_empty_window (float_microseconds : float -> result Z)
    (strptime : string -> string -> result Z)
    (sunpy_Grid : string -> result Grid.t)
    (path s1 s2 : string) (step : number) (t1 t2 : Z) (fuel : nat) (b : Boundary.t) :
  Boundary.init float_microseconds strptime sunpy_Grid path (s1, s2, step) fuel
  = Ok b ->
  strptime s1 "%Y%m%d.%H%M" = Ok t1 ->
  strptime s2 "%Y%m%d.%H%M" = Ok t2 ->
  t2 <= t1 ->
  Boundary.time (Boundary.clock b) = [] /\
  Boundary.Nt (Boundary.clock b) = 0%nat /\
  Forall (fun a => np.data a = [] /\
                   np.shape a = [0%nat; Boundary.Nk (Boundary.index b);
                                 Boundary.N2 (Boundary.index b)])
    [Boundary.boundary_u (Boundary.arrays b); Boundary.boundary_v (Boundary.arrays b);
     Boundary.boundary_w (Boundary.arrays b); Boundary.boundary_T (Boundary.arrays b);
     Boundary.boundary_S (Boundary.arrays b)] /\
  Forall (fun a => np.data a = [] /\
                   np.shape a = [0%nat; Boundary.Nk (Boundary.index b);
                                 Boundary.N3 (Boundary.index b)])
    [Boundary.uc (Boundary.arrays b); Boundary.vc (Boundary.arrays b);
     Boundary.wc (Boundary.arrays b); Boundary.T (Boundary.arrays b);
     Boundary.S (Boundary.arrays b)] /\
  np.data (Boundary.h (Boundary.arrays b)) = [] /\
  np.shape (Boundary.h (Boundary.arrays b)) = [0%nat; Boundary.N3 (Boundary.index b)].
Proof.
  intros H Hs1 Hs2 Hge. unfold Boundary.init in H.
  inv_bind H. inv_bind H. inv_bind H. injection H as <-.
  unfold Boundary.getTime in Hv1. cbn [fst snd] in Hv1.
  rewrite Hs1, Hs2 in Hv1. cbn [bind] in Hv1. inv_bind Hv1. injection Hv1 as <-.
  apply getTime_loop_empty in Hv2; [|exact Hge]. subst v2.
  cbn. repeat split; repeat constructor.
Qed.

Lemma init_empty_window_witness :
  exists b,
    Boundary.init demo_float_microseconds demo_strptime demo_sunpy_Grid "demo"
      ("20120102.0000", "20120101.0000", PyInt (-60)) 1 = Ok b /\
    Boundary.time (Boundary.clock b) = [] /\
    Boundary.Nt (Boundary.clock b) = 0%nat /\
    np.data (Boundary.h (Boundary.arrays b)) = [] /\
    np.shape (Boundary.h (Boundary.arrays b)) = [0%nat; 2%nat].
Proof.
  destruct (Boundary.init demo_float_microseconds demo_strptime demo_sunpy_Grid "demo"
              ("20120102.0000", "20120101.0000", PyInt (-60)) 1) as [b| |] eqn:E;
    [|vm_compute in E; discriminate E|vm_compute in E; discriminate E].
  exists b. split; [reflexivity|].
  destruct (init_empty_window demo_float_microseconds demo_strptime demo_sunpy_Grid
              "demo" "20120102.0000" "20120101.0000" (PyInt (-60))
              63461059200000000 63460972800000000 1 b E)
    as (Ht & Hn & _ & _ & Hd & Hs);
    [vm_compute; reflexivity|vm_compute; reflexivity|lia|].
  vm_compute in E. injection E as <-.
  split; [exact Ht|]. split; [exact Hn|]. split; [exact Hd|exact Hs].
Defined.

(** ** Boundary.loadBoundary: coordinates, provenance, bounds *)

Lemma Forall2_nth_r {A B : Type} (R : A -> B -> Prop) (l : list A) (r : list B)
    (i : nat) (y : B) :
  Forall2 R l r -> nth_error r i = Some y ->
  exists x, nth_error l i = Some x /\ R x y.
Proof.
  intros H; revert i; induction H as [|a b l r Hab _ IH]; intros [|i] Hy;
    simpl in *; try discriminate.
  - injection Hy as <-. eauto.
  - auto.
Qed.

(** The mid-point coordinate of the edge [e]: the mean of the coordinates of
    its two vertices. *)
Lemma edge_mean_nth (coords : list float) (es : list (Z * Z)) (m : list float)
    (i : nat) (x : float) :
  edge_mean coords es = Ok m -> nth_error m i = Some x ->
  exists a c xa xc,
    nth_error es i = Some (a, c) /\
    np.item coords a = Ok xa /\ np.item coords c = Ok xc /\
    x = ((xa + xc) / 2)%float.
Proof.
  unfold edge_mean. intros H Hx. inv_bind H. injection H as <-.
  unfold np.mean_axis1 in Hx. rewrite nth_error_map in Hx.
  destruct (nth_error v i) as [[xa xc]|] eqn:Er; [|discriminate].
  simpl in Hx. injection Hx as <-.
  apply mapM_Ok_Forall2 in Hv.
  destruct (Forall2_nth_r _ _ _ _ _ Hv Er) as ([a c] & He & Hac).
  simpl in Hac. inv_bind Hac. inv_bind Hac. injection Hac as -> ->.
  exists a, c, xa, xc. auto.
Qed.

(** X5: the coordinates that [loadBoundary] stores line up with its index
    lists: [xv], [yv] hold for each entry of [cellp], in order, the cell
    centre at that index, and [xe], [ye] hold for each entry of [edgep] the
    mean of the coordinates of the two vertices of that edge; so there are
    [N3] cell points and [N2] edge points. *)
Theorem loadBoundary_coordinates (g : Grid.t) (b : Boundary.Index) :
  Boundary.loadBoundary g = Ok b ->
  Forall2 (fun c x => np.item (Grid.xv g) c = Ok x) (Boundary.cellp b) (Boundary.xv b) /\
  Forall2 (fun c y => np.item (Grid.yv g) c = Ok y) (Boundary.cellp b) (Boundary.yv b) /\
  Forall2 (fun e x => exists a c xa xc,
             nth_error (Grid.edges g) (Z.to_nat e) = Some (a, c) /\
             np.item (Grid.xp g) a = Ok xa /\ np.item (Grid.xp g) c = Ok xc /\
             x = ((xa + xc) / 2)%float)
          (Boundary.edgep b) (Boundary.xe b) /\
  Forall2 (fun e y => exists a c ya yc,
             nth_error (Grid.edges g) (Z.to_nat e) = Some (a, c) /\
             np.item (Grid.yp g) a = Ok ya /\ np.item (Grid.yp g) c = Ok yc /\
             y = ((ya + yc) / 2)%float)
          (Boundary.edgep b) (Boundary.ye b) /\
  length (Boundary.xv b) = Boundary.N3 b /\ length (Boundary.yv b) = Boundary.N3 b /\
  length (Boundary.xe b) = Boundary.N2 b /\ length (Boundary.ye b) = Boundary.N2 b.
Proof.
  unfold Boundary.loadBoundary. intros H.
  inv_bind H. inv_bind H. do 6 inv_bind H. injection H as <-.
  cbn [Boundary.cellp Boundary.xv Boundary.yv Boundary.edgep Boundary.xe Boundary.ye
       Boundary.N2 Boundary.N3].
  unfold np.take in Hv1, Hv2, Hv5, Hv6.
  pose proof (mapM_Ok_Forall2 _ _ _ Hv1) as Hxv.
  pose proof (mapM_Ok_Forall2 _ _ _ Hv2) as Hyv.
  pose proof (mapM_Ok_Forall2 _ _ _ Hv5) as Hxe.
  pose proof (mapM_Ok_Forall2 _ _ _ Hv6) as Hye.
  assert (Hmid : forall coords m idx r,
            edge_mean coords (Grid.edges g) = Ok m ->
            Forall (fun e => 0 <= e) idx ->
            Forall2 (fun e x => np.item m e = Ok x) idx r ->
            Forall2 (fun e x => exists a c xa xc,
                       nth_error (Grid.edges g) (Z.to_nat e) = Some (a, c) /\
                       np.item coords a = Ok xa /\ np.item coords c = Ok xc /\
                       x = ((xa + xc) / 2)%float)
                    idx r).
  { intros coords m idx r Hm Hpos HF.
    induction HF as [|e x es r He _ IH]; constructor.
    - apply Forall_inv in Hpos. apply item_Ok_nth in He; [|exact Hpos].
      exact (edge_mean_nth _ _ _ _ _ Hm He).
    - apply IH. now apply Forall_inv_tail in Hpos. }
  pose proof (argwhere_nonneg (np.eq (Grid.mark g) 2)) as Hpos.
  split; [exact Hxv|]. split; [exact Hyv|].
  split; [exact (Hmid _ _ _ _ Hv3 Hpos Hxe)|].
  split; [exact (Hmid _ _ _ _ Hv4 Hpos Hye)|].
  rewrite <- (Forall2_length Hxv), <- (Forall2_length Hyv),
    <- (Forall2_length Hxe), <- (Forall2_length Hye). auto.
Qed.

Lemma loadBoundary_coordinates_witness :
  Forall2 (fun c x => np.item (Grid.xv demo_grid) c = Ok x) [0; 1] [0.75; 0.25]%float /\
  Forall2 (fun e x => exists a c xa xc,
             nth_error (Grid.edges demo_grid) (Z.to_nat e) = Some (a, c) /\
             np.item (Grid.xp demo_grid) a = Ok xa /\
             np.item (Grid.xp demo_grid) c = Ok xc /\
             x = ((xa + xc) / 2)%float)
          [1] [1]%float /\
  length (Boundary.xv demo_index) = 2%nat /\
  length (Boundary.xe demo_index) = 1%nat.
Proof.
  destruct (loadBoundary_coordinates demo_grid demo_index)
    as (Hxv & _ & Hxe & _ & Hn3 & _ & Hn2 & _).
  - vm_compute. reflexivity.
  - split; [exact Hxv|]. split; [exact Hxe|]. split; [exact Hn3|exact Hn2].
Defined.

Lemma in_flat_map_appended (g : Grid.t) (es : list Z) (c : Z) :
  In c (flat_map (appended_for g) es) ->
  exists e c1 c2, In e es /\ adjacency g e = Some (c1, c2) /\
    ((c1 = -1 /\ c = c2) \/ (c1 <> -1 /\ c2 = -1 /\ c = c1)).
Proof.
  intros H. apply in_flat_map in H as (e & He & Hc).
  unfold appended_for in Hc.
  destruct (adjacency g e) as [[c1 c2]|] eqn:E; [|contradiction].
  exists e, c1, c2. split; [exact He|]. split; [exact E|].
  simpl in Hc. destruct (c1 =? -1) eqn:E1.
  - apply Z.eqb_eq in E1. destruct Hc as [<-|[]]. auto.
  - apply Z.eqb_neq in E1. destruct (c2 =? -1) eqn:E2; [|contradiction].
    apply Z.eqb_eq in E2. destruct Hc as [<-|[]]. auto.
Qed.

Lemma count_occ_two (a : list Z) (u v : Z) :
  u <> v -> (count_occ Z.eq_dec a u + count_occ Z.eq_dec a v <= length a)%nat.
Proof.
  intros Huv. induction a as [|x a IH]; simpl; [lia|].
  destruct (Z.eq_dec x u), (Z.eq_dec x v); subst; try congruence; lia.
Qed.

(** X6: every entry of [self.cellp] is taken from the row of [grad] of an
    edge with marker 3, and is the partner of a sentinel in that row (or the
    second sentinel of a row of two); a row without a sentinel contributes
    nothing.  So [N3] never exceeds the number of marker-3 edges, and [N2]
    and [N3] together never exceed the number of edges. *)
Theorem loadBoundary_cellp_provenance (g : Grid.t) (b : Boundary.Index) :
  Boundary.loadBoundary g = Ok b ->
  (forall c, In c (Boundary.cellp b) ->
     exists e c1 c2,
       0 <= e /\ nth_error (Grid.mark g) (Z.to_nat e) = Some 3 /\
       nth_error (Grid.grad g) (Z.to_nat e) = Some (c1, c2) /\
       ((c1 = -1 /\ c = c2) \/ (c1 <> -1 /\ c2 = -1 /\ c = c1))) /\
  (Boundary.N3 b <= count_occ Z.eq_dec (Grid.mark g) 3%Z)%nat /\
  (Boundary.N2 b + Boundary.N3 b <= length (Grid.mark g))%nat.
Proof.
  intros H. destruct (loadBoundary_Ok g b H) as (He & Hn2 & Hadj & Hc & Hn3 & _).
  assert (H3 : (Boundary.N3 b <= count_occ Z.eq_dec (Grid.mark g) 3%Z)%nat).
  { rewrite Hn3, Hc. pose proof (flat_map_count g _ Hadj) as Hcount.
    unfold type3_edges at 3 in Hcount. unfold np.argwhere in Hcount.
    rewrite argwhere_from_length, count_true_eq in Hcount. lia. }
  split; [|split; [exact H3|]].
  - intros c Hin. rewrite Hc in Hin.
    destruct (in_flat_map_appended g _ c Hin) as (e & c1 & c2 & Hine & Hrow & Hcase).
    apply argwhere_eq_In in Hine as [Hpos Hm].
    exists e, c1, c2. auto.
  - rewrite Hn2, He. unfold type2_edges, np.argwhere.
    rewrite argwhere_from_length, count_true_eq.
    assert (Hne : 2 <> 3) by discriminate.
    pose proof (count_occ_two (Grid.mark g) 2 3 Hne). lia.
Qed.

Lemma loadBoundary_cellp_provenance_witness :
  (forall c, In c (Boundary.cellp demo_index) ->
     exists e c1 c2,
       0 <= e /\ nth_error (Grid.mark demo_grid_two_valid) (Z.to_nat e) = Some 3 /\
       nth_error (Grid.grad demo_grid_two_valid) (Z.to_nat e) = Some (c1, c2) /\
       ((c1 = -1 /\ c = c2) \/ (c1 <> -1 /\ c2 = -1 /\ c = c1))) /\
  (Boundary.N3 demo_index <= count_occ Z.eq_dec (Grid.mark demo_grid_two_valid) 3%Z)%nat /\
  (Boundary.N2 demo_index + Boundary.N3 demo_index
   <= length (Grid.mark demo_grid_two_valid))%nat.
Proof.
  apply (loadBoundary_cellp_provenance demo_grid_two_valid demo_index).
  vm_compute. reflexivity.
Defined.

Lemma item_cases {A : Type} (a : list A) (i : Z) :
  (exists x, np.item a i = Ok x) \/ np.item a i = Raise IndexError.
Proof.
  unfold np.item. destruct (_ && _); [|now right].
  destruct (nth_error a _); [left; eauto|now right].
Qed.

Lemma item_out_of_range {A : Type} (a : list A) (i : Z) :
  Z.of_nat (length a) <= i -> np.item a i = Raise IndexError.
Proof.
  intros Hi. unfold np.item.
  destruct (i <? 0) eqn:E; [apply Z.ltb_lt in E; lia|].
  destruct (i <? Z.of_nat (length a)) eqn:E2; [apply Z.ltb_lt in E2; lia|].
  now rewrite andb_false_r.
Qed.

Lemma take_out_of_range {A : Type} (a : list A) (idx : list Z) (i : Z) :
  In i idx -> Z.of_nat (length a) <= i -> np.take a idx = Raise IndexError.
Proof.
  unfold np.take. intros Hin Hi. induction idx as [|j idx IH]; [contradiction|].
  simpl. destruct (item_cases a j) as [(x & Hx)| ->]; [|reflexivity].
  rewrite Hx. cbn [bind]. destruct Hin as [->|Hin].
  - pose proof (item_out_of_range a i Hi) as Hr. congruence.
  - rewrite (IH Hin). reflexivity.
Qed.

Lemma loadBoundary_coordinates_aux (g : Grid.t) (b : Boundary.Index) :
  Boundary.loadBoundary g = Ok b ->
  length (Boundary.xv b) = length (Boundary.cellp b) /\
  length (Boundary.yv b) = length (Boundary.xv b) /\
  length (Boundary.xe b) = length (Boundary.edgep b) /\
  length (Boundary.ye b) = length (Boundary.xe b) /\
  Boundary.N3 b = length (Boundary.cellp b) /\
  Boundary.N2 b = length (Boundary.edgep b) /\
  Boundary.Nk b = Grid.Nkmax g /\
  Boundary.z b = Grid.z_r g.
Proof.
  unfold Boundary.loadBoundary. intros H.
  inv_bind H. inv_bind H. do 6 inv_bind H. injection H as <-.
  cbn [Boundary.cellp Boundary.xv Boundary.yv Boundary.edgep Boundary.xe Boundary.ye
       Boundary.N2 Boundary.N3 Boundary.Nk Boundary.z].
  unfold np.take in Hv1, Hv2, Hv5, Hv6.
  rewrite (mapM_length _ _ _ Hv1), (mapM_length _ _ _ Hv2),
    (mapM_length _ _ _ Hv5), (mapM_length _ _ _ Hv6).
  repeat split; reflexivity.
Qed.

Lemma take_cases {A : Type} (a : list A) (idx : list Z) :
  (exists r, np.take a idx = Ok r) \/ np.take a idx = Raise IndexError.
Proof.
  unfold np.take. induction idx as [|i idx IH]; simpl; [left; eauto|].
  destruct (item_cases a i) as [(x & ->)| ->]; [|now right]. cbn [bind].
  destruct IH as [(r & ->)| ->]; [left; eexists; reflexivity|now right].
Qed.

Lemma edge_mean_cases (coords : list float) (es : list (Z * Z)) :
  (exists m, edge_mean coords es = Ok m) \/ edge_mean coords es = Raise IndexError.
Proof.
  unfold edge_mean.
  assert (H : (exists rows,
                 mapM (fun e => a <- np.item coords (fst e) ;;
                                b <- np.item coords (snd e) ;; Ok (a, b)) es = Ok rows)
              \/ mapM (fun e => a <- np.item coords (fst e) ;;
                                b <- np.item coords (snd e) ;; Ok (a, b)) es
                 = Raise IndexError).
  { induction es as [|e es IH]; simpl; [left; eauto|].
    destruct (item_cases coords (fst e)) as [(x & ->)| ->]; [|now right]. cbn [bind].
    destruct (item_cases coords (snd e)) as [(y & ->)| ->]; [|now right]. cbn [bind].
    destruct IH as [(r & ->)| ->]; [left; eexists; reflexivity|now right]. }
  destruct H as [(rows & ->)| ->]; [left; eexists; reflexivity|now right].
Qed.

(** X7: [loadBoundary] either returns or raises IndexError, nothing else; it
    raises IndexError in particular when an edge with marker 3 has no row in
    [grad]. *)
Theorem loadBoundary_raises_only_IndexError (g : Grid.t) :
  ((exists b, Boundary.loadBoundary g = Ok b) \/
   Boundary.loadBoundary g = Raise IndexError) /\
  (forall e, In e (type3_edges g) -> Z.of_nat (length (Grid.grad g)) <= e ->
             Boundary.loadBoundary g = Raise IndexError).
Proof.
  split.
  - unfold Boundary.loadBoundary.
    repeat match goal with
    | |- context [np.take ?a ?i] =>
        destruct (take_cases a i) as [(? & ->)| ->]; [cbn [bind]|now right]
    | |- context [edge_mean ?a ?i] =>
        destruct (edge_mean_cases a i) as [(? & ->)| ->]; [cbn [bind]|now right]
    end.
    left. eexists. reflexivity.
  - intros e He Hlen. unfold Boundary.loadBoundary. fold (type3_edges g).
    rewrite (take_out_of_range (map fst (Grid.grad g)) (type3_edges g) e He);
      [reflexivity|now rewrite length_map].
Qed.

Lemma loadBoundary_raises_only_IndexError_witness :
  In 3 (type3_edges demo_grid_short_grad) /\
  Boundary.loadBoundary demo_grid_short_grad = Raise IndexError.
Proof.
  destruct (loadBoundary_raises_only_IndexError demo_grid_short_grad) as [_ H].
  split; [vm_compute; auto|].
  apply (H 3); [vm_compute; auto|vm_compute; discriminate].
Defined.

(** ** Boundary.__init__ and Boundary.write2NC: the dataset *)

(** X11: in an object that [__init__] has built, every one of the eleven
    field arrays fits the lists written beside it: the first dimension is
    the number of instants (and of values of [ncTime]), the second the number
    of layers of the grid, the last the number of edge points [xe], [ye],
    [edgep] for the five type-2 arrays and of cell points [xv], [yv],
    [cellp] for the five type-3 arrays and [h]; and every array holds as many
    entries as its shape says. *)
Theorem init_dimensions_fit (float_microseconds : float -> result Z)
    (strptime : string -> string -> result Z)
    (sunpy_Grid : string -> result Grid.t)
    (path : string) (timeinfo : string * string * number) (fuel : nat)
    (b : Boundary.t) :
  Boundary.init float_microseconds strptime sunpy_Grid path timeinfo fuel = Ok b ->
  let ix := Boundary.index b in
  let a := Boundary.arrays b in
  let nt := length (Boundary.time (Boundary.clock b)) in
  let nk := Grid.Nkmax (Boundary.grd b) in
  sunpy_Grid path = Ok (Boundary.grd b) /\
  Forall (fun x => np.shape x = [nt; nk; length (Boundary.xe ix)] /\
                   length (np.data x) = (nt * (nk * length (Boundary.xe ix)))%nat)
    [Boundary.boundary_u a; Boundary.boundary_v a; Boundary.boundary_w a;
     Boundary.boundary_T a; Boundary.boundary_S a] /\
  Forall (fun x => np.shape x = [nt; nk; length (Boundary.xv ix)] /\
                   length (np.data x) = (nt * (nk * length (Boundary.xv ix)))%nat)
    [Boundary.uc a; Boundary.vc a; Boundary.wc a; Boundary.T a; Boundary.S a] /\
  np.shape (Boundary.h a) = [nt; length (Boundary.xv ix)] /\
  length (np.data (Boundary.h a)) = (nt * length (Boundary.xv ix))%nat /\
  length (Boundary.ncTime b) = nt /\
  length (Boundary.ye ix) = length (Boundary.xe ix) /\
  length (Boundary.edgep ix) = length (Boundary.xe ix) /\
  length (Boundary.yv ix) = length (Boundary.xv ix) /\
  length (Boundary.cellp ix) = length (Boundary.xv ix) /\
  length (Boundary.z ix) = length (Grid.z_r (Boundary.grd b)).
Proof.
  unfold Boundary.init. intros H. cbv zeta.
  inv_bind H. inv_bind H. inv_bind H. injection H as <-.
  destruct (loadBoundary_coordinates_aux v v0 Hv0)
    as (Hxv & Hyv & Hxe & Hye & Hn3 & Hn2 & Hnk & Hz).
  unfold Boundary.getTime in Hv1. inv_bind Hv1. inv_bind Hv1. inv_bind Hv1.
  injection Hv1 as <-.
  cbn [Boundary.arrays Boundary.clock Boundary.index Boundary.grd Boundary.initArrays
       Boundary.boundary_u Boundary.boundary_v Boundary.boundary_w
       Boundary.boundary_T Boundary.boundary_S Boundary.uc Boundary.vc Boundary.wc
       Boundary.T Boundary.S Boundary.h Boundary.time Boundary.Nt].
  unfold Boundary.ncTime. cbn [Boundary.clock Boundary.time]. rewrite length_map.
  rewrite Hnk, Hz, Hyv, Hye, Hn2, Hn3, Hxv, Hxe.
  assert (Hz3 : forall p q r : nat,
             np.shape (np.zeros [p; q; r]) = [p; q; r] /\
             length (np.data (np.zeros [p; q; r])) = (p * (q * r))%nat).
  { intros p q r. unfold np.zeros. cbn [np.shape np.data]. split; [reflexivity|].
    rewrite repeat_length. cbn [np.size_of fold_right]. lia. }
  assert (Hz2 : forall p q : nat,
             np.shape (np.zeros [p; q]) = [p; q] /\
             length (np.data (np.zeros [p; q])) = (p * q)%nat).
  { intros p q. unfold np.zeros. cbn [np.shape np.data]. split; [reflexivity|].
    rewrite repeat_length. cbn [np.size_of fold_right]. lia. }
  split; [assumption|].
  split; [repeat constructor; apply Hz3|].
  split; [repeat constructor; apply Hz3|].
  split; [apply Hz2|]. split; [apply Hz2|].
  repeat split; reflexivity.
Qed.

Lemma init_dimensions_fit_witness :
  exists b,
    Boundary.init demo_float_microseconds demo_strptime demo_sunpy_Grid "demo"
      ("20120101.0000", "20120101.0200", PyInt 3600) 3 = Ok b /\
    Forall (fun x => np.shape x = [2; 2; 1]%nat /\ length (np.data x) = 4%nat)
      [Boundary.boundary_u (Boundary.arrays b); Boundary.boundary_v (Boundary.arrays b);
       Boundary.boundary_w (Boundary.arrays b); Boundary.boundary_T (Boundary.arrays b);
       Boundary.boundary_S (Boundary.arrays b)] /\
    Forall (fun x => np.shape x = [2; 2; 2]%nat /\ length (np.data x) = 8%nat)
      [Boundary.uc (Boundary.arrays b); Boundary.vc (Boundary.arrays b);
       Boundary.wc (Boundary.arrays b); Boundary.T (Boundary.arrays b);
       Boundary.S (Boundary.arrays b)] /\
    np.shape (Boundary.h (Boundary.arrays b)) = [2; 2]%nat /\
    length (Boundary.ncTime b) = 2%nat.
Proof.
  destruct (Boundary.init demo_float_microseconds demo_strptime demo_sunpy_Grid "demo"
              ("20120101.0000", "20120101.0200", PyInt 3600) 3) as [b| |] eqn:E;
    [|vm_compute in E; discriminate E|vm_compute in E; discriminate E].
  exists b. split; [reflexivity|].
  destruct (init_dimensions_fit demo_float_microseconds demo_strptime demo_sunpy_Grid
              "demo" ("20120101.0000", "20120101.0200", PyInt 3600) 3 b E)
    as (_ & H2 & H3 & Hh & _ & Ht & _).
  vm_compute in E. injection E as <-.
  split; [exact H2|]. split; [exact H3|]. split; [exact Hh|exact Ht].
Defined.

Lemma assigned_app (name : string) (tr1 tr2 : list event) :
  assigned name (tr1 ++ tr2) = assigned name tr1 ++ assigned name tr2.
Proof.
  induction tr1 as [|e tr1 IH]; [reflexivity|].
  destruct e; simpl; try exact IH.
  destruct (String.eqb name0 name); simpl; now rewrite IH.
Qed.

Lemma created_dims_app (tr1 tr2 : list event) :
  created_dims (tr1 ++ tr2) = created_dims tr1 ++ created_dims tr2.
Proof.
  induction tr1 as [|e tr1 IH]; [reflexivity|].
  destruct e; simpl; now rewrite ?IH.
Qed.

Lemma created_vars_app (tr1 tr2 : list event) :
  created_vars (tr1 ++ tr2) = created_vars tr1 ++ created_vars tr2.
Proof.
  induction tr1 as [|e tr1 IH]; [reflexivity|].
  destruct e; simpl; now rewrite ?IH.
Qed.

Lemma nc_run_app (ph : nc_phase) (tr1 tr2 : list event) :
  nc_run ph (tr1 ++ tr2)
  = match nc_run ph tr1 with
    | Some ph' => nc_run ph' tr2
    | None => None
    end.
Proof.
  revert ph; induction tr1 as [|e tr1 IH]; intros ph; [reflexivity|].
  simpl. destruct (nc_step ph e); [apply IH|reflexivity].
Qed.

(** The calls made are the first calls of the whole method, and all of them
    once [k] reaches their number. *)
Lemma write2NC_calls_split (self : Boundary.t) (ncfile : string) (k : nat) :
  Boundary.write2NC self ncfile
  = write2NC_calls self ncfile k ++ skipn k (Boundary.write2NC self ncfile).
Proof. unfold write2NC_calls. now rewrite firstn_skipn. Qed.

Lemma write2NC_calls_all (self : Boundary.t) (ncfile : string) (k : nat) :
  (length (Boundary.write2NC self ncfile) <= k)%nat ->
  write2NC_calls self ncfile k = Boundary.write2NC self ncfile.
Proof. intros H. unfold write2NC_calls. now apply firstn_all2. Qed.

Lemma assigned_once (name : string) (v : ncvalue) (self : Boundary.t)
    (ncfile : string) (k : nat) :
  assigned name (Boundary.write2NC self ncfile) = [] \/
  assigned name (Boundary.write2NC self ncfile) = [v] ->
  assigned name (write2NC_calls self ncfile k) = [] \/
  assigned name (write2NC_calls self ncfile k) = [v].
Proof.
  rewrite (write2NC_calls_split self ncfile k) at 1 2. rewrite assigned_app.
  destruct (assigned name (write2NC_calls self ncfile k)) as [|a [|a' l]];
    [auto| |].
  - intros [H|H]; [discriminate|]. injection H as -> _. auto.
  - intros [H|H]; discriminate.
Qed.

(** What the whole method assigns. *)
Lemma write2NC_assigned (self : Boundary.t) (ncfile : string) :
  let ix := Boundary.index self in
  let a := Boundary.arrays self in
  let tr := Boundary.write2NC self ncfile in
  assigned "z" tr = [VFloats (Boundary.z ix)] /\
  assigned "time" tr = [VFloats (Boundary.ncTime self)] /\
  (if (0 <? Boundary.N2 ix)%nat then
     assigned "xe" tr = [VFloats (Boundary.xe ix)] /\
     assigned "ye" tr = [VFloats (Boundary.ye ix)] /\
     assigned "edgep" tr = [VInts (Boundary.edgep ix)] /\
     assigned "boundary_u" tr = [VArray (Boundary.boundary_u a)] /\
     assigned "boundary_v" tr = [VArray (Boundary.boundary_v a)] /\
     assigned "boundary_w" tr = [VArray (Boundary.boundary_w a)] /\
     assigned "boundary_T" tr = [VArray (Boundary.boundary_T a)] /\
     assigned "boundary_S" tr = [VArray (Boundary.boundary_S a)]
   else
     assigned "xe" tr = [] /\ assigned "ye" tr = [] /\ assigned "edgep" tr = [] /\
     assigned "boundary_u" tr = [] /\ assigned "boundary_v" tr = [] /\
     assigned "boundary_w" tr = [] /\ assigned "boundary_T" tr = [] /\
     assigned "boundary_S" tr = []) /\
  (if (0 <? Boundary.N3 ix)%nat then
     assigned "xv" tr = [VFloats (Boundary.xv ix)] /\
     assigned "yv" tr = [VFloats (Boundary.yv ix)] /\
     assigned "cellp" tr = [VInts (Boundary.cellp ix)]
   else
     assigned "xv" tr = [] /\ assigned "yv" tr = [] /\ assigned "cellp" tr = []).
Proof.
  cbv zeta. unfold Boundary.write2NC.
  destruct (0 <? Boundary.N2 (Boundary.index self))%nat;
    destruct (0 <? Boundary.N3 (Boundary.index self))%nat;
    repeat split; reflexivity.
Qed.

(** X8: in every run of [write2NC], one that returns or one that an error
    cuts short, each of the variables 'z', 'time', 'xe', 'ye', 'edgep', the
    five type-2 fields (salinity included), 'xv', 'yv' and 'cellp' is
    assigned at most once, and then from the attribute of its own name
    ('time' from [ncTime]).  A run that makes all its calls has written 'z'
    and 'time', the eight type-2 variables when [N2 > 0], and 'xv', 'yv',
    'cellp' when [N3 > 0]. *)
Theorem write2NC_own_fields (self : Boundary.t) (ncfile : string) (k : nat) :
  let ix := Boundary.index self in
  let a := Boundary.arrays self in
  let tr := write2NC_calls self ncfile k in
  Forall (fun nv => assigned (fst nv) tr = [] \/ assigned (fst nv) tr = [snd nv])
    [("z", VFloats (Boundary.z ix));
     ("time", VFloats (Boundary.ncTime self));
     ("xe", VFloats (Boundary.xe ix));
     ("ye", VFloats (Boundary.ye ix));
     ("edgep", VInts (Boundary.edgep ix));
     ("boundary_u", VArray (Boundary.boundary_u a));
     ("boundary_v", VArray (Boundary.boundary_v a));
     ("boundary_w", VArray (Boundary.boundary_w a));
     ("boundary_T", VArray (Boundary.boundary_T a));
     ("boundary_S", VArray (Boundary.boundary_S a));
     ("xv", VFloats (Boundary.xv ix));
     ("yv", VFloats (Boundary.yv ix));
     ("cellp", VInts (Boundary.cellp ix))] /\
  ((length (Boundary.write2NC self ncfile) <= k)%nat ->
   assigned "z" tr = [VFloats (Boundary.z ix)] /\
   assigned "time" tr = [VFloats (Boundary.ncTime self)] /\
   ((0 < Boundary.N2 ix)%nat ->
    assigned "xe" tr = [VFloats (Boundary.xe ix)] /\
    assigned "ye" tr = [VFloats (Boundary.ye ix)] /\
    assigned "edgep" tr = [VInts (Boundary.edgep ix)] /\
    assigned "boundary_u" tr = [VArray (Boundary.boundary_u a)] /\
    assigned "boundary_v" tr = [VArray (Boundary.boundary_v a)] /\
    assigned "boundary_w" tr = [VArray (Boundary.boundary_w a)] /\
    assigned "boundary_T" tr = [VArray (Boundary.boundary_T a)] /\
    assigned "boundary_S" tr = [VArray (Boundary.boundary_S a)]) /\
   ((0 < Boundary.N3 ix)%nat ->
    assigned "xv" tr = [VFloats (Boundary.xv ix)] /\
    assigned "yv" tr = [VFloats (Boundary.yv ix)] /\
    assigned "cellp" tr = [VInts (Boundary.cellp ix)])).
Proof.
  cbv zeta. pose proof (write2NC_assigned self ncfile) as H. cbv zeta in H.
  destruct H as (Hz & Ht & H2 & H3). split.
  - assert (Hall : Forall (fun nv =>
               assigned (fst nv) (Boundary.write2NC self ncfile) = [] \/
               assigned (fst nv) (Boundary.write2NC self ncfile) = [snd nv])
        [("z", VFloats (Boundary.z (Boundary.index self)));
         ("time", VFloats (Boundary.ncTime self));
         ("xe", VFloats (Boundary.xe (Boundary.index self)));
         ("ye", VFloats (Boundary.ye (Boundary.index self)));
         ("edgep", VInts (Boundary.edgep (Boundary.index self)));
         ("boundary_u", VArray (Boundary.boundary_u (Boundary.arrays self)));
         ("boundary_v", VArray (Boundary.boundary_v (Boundary.arrays self)));
         ("boundary_w", VArray (Boundary.boundary_w (Boundary.arrays self)));
         ("boundary_T", VArray (Boundary.boundary_T (Boundary.arrays self)));
         ("boundary_S", VArray (Boundary.boundary_S (Boundary.arrays self)));
         ("xv", VFloats (Boundary.xv (Boundary.index self)));
         ("yv", VFloats (Boundary.yv (Boundary.index self)));
         ("cellp", VInts (Boundary.cellp (Boundary.index self)))]).
    { destruct (0 <? Boundary.N2 (Boundary.index self))%nat;
        destruct (0 <? Boundary.N3 (Boundary.index self))%nat;
        destruct H2 as (A1 & A2 & A3 & A4 & A5 & A6 & A7 & A8);
        destruct H3 as (B1 & B2 & B3);
        repeat (constructor; [cbn [fst snd]; auto|]); constructor. }
    eapply Forall_impl; [|exact Hall].
    intros [name v] Hnv. cbn [fst snd] in *. now apply assigned_once.
  - intros Hk. rewrite (write2NC_calls_all self ncfile k Hk).
    split; [exact Hz|]. split; [exact Ht|]. split; intros Hpos.
    + apply Nat.ltb_lt in Hpos. rewrite Hpos in H2. exact H2.
    + apply Nat.ltb_lt in Hpos. rewrite Hpos in H3. exact H3.
Qed.

Lemma prefix_of_app {A : Type} (l p r : list A) :
  l = p ++ r -> exists rest, l = p ++ rest.
Proof. intros ->. now exists r. Qed.

(** X9: in every run of [write2NC] the dimensions and the variables created
    are, in order, the first ones of this layout, and all of it in a run
    that makes all its calls: the dimensions 'Nt', 'Nk', then 'Ntype2' only
    when [N2 > 0] and 'Ntype3' only when [N3 > 0]; the variables 'xv', 'yv',
    'cellp' only when [N3 > 0], 'xe', 'ye', 'edgep' only when [N2 > 0], 'z',
    'time', the five type-2 fields only when [N2 > 0] and the six type-3
    fields only when [N3 > 0]. *)
Theorem write2NC_layout (self : Boundary.t) (ncfile : string) (k : nat) :
  let has2 := (0 <? Boundary.N2 (Boundary.index self))%nat in
  let has3 := (0 <? Boundary.N3 (Boundary.index self))%nat in
  let tr := write2NC_calls self ncfile k in
  let dims := ["Nt"; "Nk"] ++ (if has2 then ["Ntype2"] else [])
              ++ (if has3 then ["Ntype3"] else []) in
  let vars := (if has3 then ["xv"; "yv"; "cellp"] else [])
              ++ (if has2 then ["xe"; "ye"; "edgep"] else [])
              ++ ["z"; "time"]
              ++ (if has2 then ["boundary_u"; "boundary_v"; "boundary_w";
                                "boundary_T"; "boundary_S"] else [])
              ++ (if has3 then ["uc"; "vc"; "wc"; "T"; "S"; "h"] else []) in
  (exists rest, dims = created_dims tr ++ rest) /\
  (exists rest, vars = created_vars tr ++ rest) /\
  ((length (Boundary.write2NC self ncfile) <= k)%nat ->
   created_dims tr = dims /\ created_vars tr = vars).
Proof.
  cbv zeta.
  assert (Hd : created_dims (Boundary.write2NC self ncfile)
               = ["Nt"; "Nk"]
                 ++ (if (0 <? Boundary.N2 (Boundary.index self))%nat
                     then ["Ntype2"] else [])
                 ++ (if (0 <? Boundary.N3 (Boundary.index self))%nat
                     then ["Ntype3"] else [])).
  { unfold Boundary.write2NC.
    destruct (0 <? Boundary.N2 (Boundary.index self))%nat;
      destruct (0 <? Boundary.N3 (Boundary.index self))%nat; reflexivity. }
  assert (Hv : created_vars (Boundary.write2NC self ncfile)
               = (if (0 <? Boundary.N3 (Boundary.index self))%nat
                  then ["xv"; "yv"; "cellp"] else [])
                 ++ (if (0 <? Boundary.N2 (Boundary.index self))%nat
                     then ["xe"; "ye"; "edgep"] else [])
                 ++ ["z"; "time"]
                 ++ (if (0 <? Boundary.N2 (Boundary.index self))%nat
                     then ["boundary_u"; "boundary_v"; "boundary_w";
                           "boundary_T"; "boundary_S"] else [])
                 ++ (if (0 <? Boundary.N3 (Boundary.index self))%nat
                     then ["uc"; "vc"; "wc"; "T"; "S"; "h"] else [])).
  { unfold Boundary.write2NC.
    destruct (0 <? Boundary.N2 (Boundary.index self))%nat;
      destruct (0 <? Boundary.N3 (Boundary.index self))%nat; reflexivity. }
  rewrite <- Hd, <- Hv. split; [|split].
  - eapply prefix_of_app. rewrite (write2NC_calls_split self ncfile k) at 1.
    apply created_dims_app.
  - eapply prefix_of_app. rewrite (write2NC_calls_split self ncfile k) at 1.
    apply created_vars_app.
  - intros Hk. now rewrite (write2NC_calls_all self ncfile k Hk).
Qed.

(** X10: the calls of every run of [write2NC], one that returns or one that
    an error cuts short, are in order: the dataset is opened first; every
    dimension is created once; every variable is created once, over
    dimensions created before it, and is then assigned and given a long_name
    and units; nothing follows the closing of the dataset but the final
    [print].  A run that makes all its calls ends with the dataset closed
    and the [print]. *)
Theorem write2NC_well_formed (self : Boundary.t) (ncfile : string) (k : nat) :
  (exists ph, nc_run Unopened (write2NC_calls self ncfile k) = Some ph) /\
  ((length (Boundary.write2NC self ncfile) <= k)%nat ->
   nc_run Unopened (write2NC_calls self ncfile k) = Some Done).
Proof.
  assert (Hall : nc_run Unopened (Boundary.write2NC self ncfile) = Some Done).
  { unfold Boundary.write2NC.
    destruct (0 <? Boundary.N2 (Boundary.index self))%nat;
      destruct (0 <? Boundary.N3 (Boundary.index self))%nat; reflexivity. }
  split.
  - rewrite (write2NC_calls_split self ncfile k), nc_run_app in Hall.
    destruct (nc_run Unopened (write2NC_calls self ncfile k)) as [ph|];
      [now exists ph|discriminate].
  - intros Hk. now rewrite (write2NC_calls_all self ncfile k Hk).
Qed.

(** ** modifyBCmarker: what it changes, and what a second run does *)

Section ReclassifyMore.

Variable pnpoly : float -> float -> polygon -> bool.

Lemma relabel_all_containing (x y : float) (polys : list (polygon * Z)) (m : Z) :
  relabel_all pnpoly x y polys m
  = fold_left take_marker (containing pnpoly x y polys) m.
Proof.
  unfold relabel_all, containing. revert m.
  induction polys as [|[P c] polys IH]; intros m; simpl; [reflexivity|].
  unfold relabel_one at 2. simpl. destruct (pnpoly x y P); simpl.
  - rewrite IH. unfold take_marker at 2. now rewrite andb_true_r.
  - rewrite andb_false_r. apply IH.
Qed.

Lemma take_marker_nonpositive (cs : list Z) (m : Z) :
  m <= 0 -> fold_left take_marker cs m = m.
Proof.
  revert m; induction cs as [|c cs IH]; intros m Hm; simpl; [reflexivity|].
  unfold take_marker at 2. destruct (0 <? m) eqn:E; [apply Z.ltb_lt in E; lia|].
  now apply IH.
Qed.

Lemma take_marker_idempotent (cs : list Z) (m : Z) :
  fold_left take_marker cs (fold_left take_marker cs m) = fold_left take_marker cs m.
Proof.
  destruct (Z.le_gt_cases m 0) as [Hm|Hm].
  - rewrite (take_marker_nonpositive cs m Hm). exact (take_marker_nonpositive cs m Hm).
  - destruct cs as [|c cs]; [reflexivity|]. simpl.
    assert (Hb : (0 <? m) = true) by (apply Z.ltb_lt; lia).
    assert (E1 : take_marker m c = c) by (unfold take_marker; now rewrite Hb).
    rewrite E1. set (v := fold_left take_marker cs c).
    unfold take_marker. destruct (0 <? v) eqn:E; [reflexivity|].
    apply Z.ltb_ge in E. now apply take_marker_nonpositive.
Qed.

Lemma relabel_all_idempotent (x y : float) (polys : list (polygon * Z)) (m : Z) :
  relabel_all pnpoly x y polys (relabel_all pnpoly x y polys m)
  = relabel_all pnpoly x y polys m.
Proof. rewrite !relabel_all_containing. apply take_marker_idempotent. Qed.

Lemma relabel_all_closed (x y : float) (polys : list (polygon * Z)) (m : Z) :
  relabel_all pnpoly x y polys m = m \/
  (0 < m /\ exists P c, In (P, c) polys /\ pnpoly x y P = true /\
                        relabel_all pnpoly x y polys m = c).
Proof.
  unfold relabel_all. induction polys as [|[P c] polys IH] using rev_ind;
    [now left|].
  rewrite fold_left_app. cbn [fold_left].
  set (k := fold_left (relabel_one pnpoly x y) polys m) in *.
  set (r := relabel_one pnpoly x y k (P, c)).
  assert (Hr : r = if (0 <? k) && pnpoly x y P then c else k) by reflexivity.
  clearbody r.
  assert (Hkeep : r = k ->
            r = m \/
            (0 < m /\ exists Q d, In (Q, d) (polys ++ [(P, c)]) /\
                                  pnpoly x y Q = true /\ r = d)).
  { intros ->. destruct IH as [E|(Hm & Q & d & Hin & HQ & Hd)]; [now left|right].
    split; [exact Hm|]. exists Q, d. split; [apply in_or_app; now left|]. split; auto. }
  destruct (0 <? k) eqn:E; destruct (pnpoly x y P) eqn:EP; cbn [andb] in Hr;
    try (apply Hkeep; exact Hr).
  right. apply Z.ltb_lt in E.
  assert (Hm : 0 < m).
  { destruct (Z.le_gt_cases m 0) as [Hm|Hm]; [|lia].
    pose proof (relabel_all_nonpositive pnpoly x y polys m Hm) as Hn.
    unfold relabel_all in Hn. fold k in Hn. lia. }
  split; [exact Hm|]. exists P, c.
  split; [apply in_or_app; right; now left|]. split; [exact EP|exact Hr].
Qed.

Lemma relabel_all_frozen (x y : float) (pre post : list (polygon * Z))
    (P : polygon) (b m : Z) :
  0 < m ->
  (forall Q c, In (Q, c) pre -> pnpoly x y Q = true -> 0 < c) ->
  pnpoly x y P = true -> b <= 0 ->
  relabel_all pnpoly x y (pre ++ (P, b) :: post) m = b.
Proof.
  intros Hm Hpre HP Hb.
  pose proof (relabel_all_positive pnpoly x y pre m Hm Hpre) as Hk.
  unfold relabel_all in *. rewrite fold_left_app. simpl.
  unfold relabel_one at 2. simpl. apply Z.ltb_lt in Hk. rewrite Hk, HP. simpl.
  now apply (relabel_all_nonpositive pnpoly x y post b).
Qed.

(** The loop changes no other field of the grid than the markers. *)
Lemma reclassify_marks (xe ye : list float) (polys : list (polygon * Z)) (g g' : Grid.t) :
  reclassify pnpoly xe ye polys g = Ok g' -> g' = Grid.set_mark g (Grid.mark g').
Proof.
  revert g; induction polys as [|pb polys IH]; intros g H; simpl in H.
  - injection H as <-. now destruct g.
  - inv_bind H. apply reclassify_step_inv in Hv as (_ & _ & ->).
    apply IH in H. rewrite H at 1. reflexivity.
Qed.

(** X13: the loop of [modifyBCmarker] is idempotent: run again on its own
    result, with the same mid-points and polygons, it returns that result
    unchanged. *)
Theorem reclassify_idempotent (xe ye : list float) (polys : list (polygon * Z))
    (g g1 : Grid.t) :
  reclassify pnpoly xe ye polys g = Ok g1 ->
  reclassify pnpoly xe ye polys g1 = Ok g1.
Proof.
  intros H.
  destruct (reclassify_step_lengths pnpoly _ _ _ _ _ H) as [->|[Hx Hy]];
    [reflexivity|].
  destruct (reclassify_inv pnpoly _ _ _ _ _ H) as (Hlen & Hnth).
  destruct (reclassify_total pnpoly xe ye polys g1) as (g2 & H2); [lia|lia|].
  rewrite H2. f_equal.
  destruct (reclassify_inv pnpoly _ _ _ _ _ H2) as (Hlen2 & Hnth2).
  rewrite (reclassify_marks _ _ _ _ _ H2).
  replace (Grid.mark g2) with (Grid.mark g1); [now destruct g1|].
  apply nth_error_ext. intros i.
  destruct (nth_error (Grid.mark g) i) as [m|] eqn:Em.
  - assert (Hi : (i < length (Grid.mark g))%nat) by (apply nth_error_Some; congruence).
    destruct (nth_error xe i) as [x|] eqn:Ex; [|apply nth_error_None in Ex; lia].
    destruct (nth_error ye i) as [y|] eqn:Ey; [|apply nth_error_None in Ey; lia].
    pose proof (Hnth i x y m Ex Ey Em) as H1.
    rewrite (Hnth2 i x y _ Ex Ey H1), H1. f_equal. symmetry.
    apply relabel_all_idempotent.
  - apply nth_error_None in Em.
    assert (E1 : nth_error (Grid.mark g1) i = None) by (apply nth_error_None; lia).
    assert (E2 : nth_error (Grid.mark g2) i = None) by (apply nth_error_None; lia).
    congruence.
Qed.

End ReclassifyMore.

Lemma reclassify_idempotent_witness :
  reclassify demo_pnpoly demo_xe demo_ye [(poly_low, 5); (poly_high, 7)]
    (Grid.set_mark demo_grid [5; 7; 7; 3; 0])
  = Ok (Grid.set_mark demo_grid [5; 7; 7; 3; 0]).
Proof.
  apply (reclassify_idempotent demo_pnpoly demo_xe demo_ye
           [(poly_low, 5); (poly_high, 7)] demo_grid).
  vm_compute. reflexivity.
Defined.

Section ModifyBCmarkerMore.

Variable sunpy_Grid : string -> result Grid.t.
Variable readShpPoly : string -> string -> result (list polygon * list Z).
Variable pnpoly : float -> float -> polygon -> bool.

(** X12: a call of [modifyBCmarker] that returns has changed nothing of the
    grid but its markers; when the shapefile gave a polygon it has written
    two files, the grid it ends with to <path>/edges.dat and the figure to
    <path>/BoundaryMarkerTypes.pdf, and the grid it plotted is that grid
    too. *)
Theorem modifyBCmarker_writes (path bcfile : string) (g g' : Grid.t) (tr : list event)
    (XY : list polygon) (newmarker : list Z) :
  sunpy_Grid path = Ok g ->
  readShpPoly bcfile "marker" = Ok (XY, newmarker) ->
  modifyBCmarker sunpy_Grid readShpPoly pnpoly path bcfile = Ok (g', tr) ->
  g' = Grid.set_mark g (Grid.mark g') /\
  (XY <> [] ->
   filter is_write tr
   = [SaveEdges (path ++ "/edges.dat")%string g';
      PltSavefig (path ++ "/BoundaryMarkerTypes.pdf")%string] /\
   In (PlotBC g') tr).
Proof.
  intros Hg Hshp H. unfold modifyBCmarker in H.
  rewrite Hg in H. cbn [bind] in H. inv_bind H. inv_bind H.
  rewrite Hshp in H. cbn [bind] in H.
  destruct XY as [|P XY]; simpl in H.
  - injection H as <- <-. split; [now destruct g|]. congruence.
  - inv_bind H. injection H as <- <-.
    split; [exact (reclassify_marks pnpoly _ _ _ _ _ Hv1)|].
    intros _. split; [reflexivity|]. simpl. auto 10.
Qed.

(** X14: [modifyBCmarker] invents no marker: the marker an edge ends with is
    the one it had, or the marker of a polygon of the sequence that holds
    its mid-point, and the second only for an edge whose marker was
    positive. *)
Theorem modifyBCmarker_markers_closed (path bcfile : string) (g g' : Grid.t)
    (tr : list event) (xe ye : list float) (XY : list polygon) (newmarker : list Z)
    (i : nat) (x y : float) (m v : Z) :
  sunpy_Grid path = Ok g ->
  edge_mean (Grid.xp g) (Grid.edges g) = Ok xe ->
  edge_mean (Grid.yp g) (Grid.edges g) = Ok ye ->
  readShpPoly bcfile "marker" = Ok (XY, newmarker) ->
  modifyBCmarker sunpy_Grid readShpPoly pnpoly path bcfile = Ok (g', tr) ->
  nth_error xe i = Some x -> nth_error ye i = Some y ->
  nth_error (Grid.mark g) i = Some m ->
  nth_error (Grid.mark g') i = Some v ->
  v = m \/
  (0 < m /\ exists P, In (P, v) (combine XY newmarker) /\ pnpoly x y P = true).
Proof.
  intros Hg Hxe Hye Hshp H Hx Hy Hm Hv.
  destruct (modifyBCmarker_loop _ _ _ _ _ _ _ _ _ _ _ _ Hg Hxe Hye Hshp H) as (_ & Hnth).
  rewrite (Hnth i x y m Hx Hy Hm) in Hv. injection Hv as <-.
  destruct (relabel_all_closed pnpoly x y (combine XY newmarker) m)
    as [E|(Hpos & P & c & Hin & HP & E)]; [now left|right].
  split; [exact Hpos|]. exists P. rewrite E. auto.
Qed.

(** X15: once a polygon with a marker that is not positive has taken an
    edge (the polygons before it that hold the mid-point having positive
    markers), the edge keeps that marker: no later polygon of the sequence
    relabels it. *)
Theorem modifyBCmarker_nonpositive_marker_stays (path bcfile : string) (g g' : Grid.t)
    (tr : list event) (xe ye : list float) (XY : list polygon) (newmarker : list Z)
    (i : nat) (x y : float) (m : Z)
    (pre post : list (polygon * Z)) (P : polygon) (b : Z) :
  sunpy_Grid path = Ok g ->
  edge_mean (Grid.xp g) (Grid.edges g) = Ok xe ->
  edge_mean (Grid.yp g) (Grid.edges g) = Ok ye ->
  readShpPoly bcfile "marker" = Ok (XY, newmarker) ->
  modifyBCmarker sunpy_Grid readShpPoly pnpoly path bcfile = Ok (g', tr) ->
  nth_error xe i = Some x -> nth_error ye i = Some y ->
  nth_error (Grid.mark g) i = Some m -> 0 < m ->
  combine XY newmarker = pre ++ (P, b) :: post ->
  (forall Q c, In (Q, c) pre -> pnpoly x y Q = true -> 0 < c) ->
  pnpoly x y P = true -> b <= 0 ->
  nth_error (Grid.mark g') i = Some b.
Proof.
  intros Hg Hxe Hye Hshp H Hx Hy Hm Hpos Hsplit Hpre HP Hb.
  destruct (modifyBCmarker_loop _ _ _ _ _ _ _ _ _ _ _ _ Hg Hxe Hye Hshp H) as (_ & Hnth).
  rewrite (Hnth i x y m Hx Hy Hm), Hsplit. f_equal.
  now apply relabel_all_frozen.
Qed.

End ModifyBCmarkerMore.

Lemma modifyBCmarker_writes_witness :
  exists g' tr,
    modifyBCmarker demo_sunpy_Grid demo_readShpPoly demo_pnpoly "demo" "low5_high7.shp"
    = Ok (g', tr) /\
    g' = Grid.set_mark demo_grid (Grid.mark g') /\
    filter is_write tr
    = [SaveEdges "demo/edges.dat" g'; PltSavefig "demo/BoundaryMarkerTypes.pdf"].
Proof.
  destruct (modifyBCmarker demo_sunpy_Grid demo_readShpPoly demo_pnpoly
              "demo" "low5_high7.shp") as [[g' tr]| |] eqn:E;
    [|vm_compute in E; discriminate E|vm_compute in E; discriminate E].
  exists g', tr. split; [reflexivity|].
  destruct (modifyBCmarker_writes demo_sunpy_Grid demo_readShpPoly demo_pnpoly
              "demo" "low5_high7.shp" demo_grid g' tr [poly_low; poly_high] [5; 7])
    as (Hg & Hw); try (vm_compute; reflexivity); [exact E|].
  split; [exact Hg|]. destruct Hw as [Hw _]; [discriminate|exact Hw].
Defined.

Lemma modifyBCmarker_markers_closed_witness :
  exists g' tr,
    modifyBCmarker demo_sunpy_Grid demo_readShpPoly demo_pnpoly "demo" "low5_high7.shp"
    = Ok (g', tr) /\
    nth_error (Grid.mark g') 1 = Some 7 /\
    (7 = 2 \/
     (0 < 2 /\ exists P, In (P, 7) (combine [poly_low; poly_high] [5; 7]) /\
                         demo_pnpoly 1 0.5 P = true)).
Proof.
  destruct (modifyBCmarker demo_sunpy_Grid demo_readShpPoly demo_pnpoly
              "demo" "low5_high7.shp") as [[g' tr]| |] eqn:E;
    [|vm_compute in E; discriminate E|vm_compute in E; discriminate E].
  assert (Hn : nth_error (Grid.mark g') 1 = Some 7)
    by (clear -E; vm_compute in E; injection E as <- _; reflexivity).
  exists g', tr. split; [reflexivity|]. split; [exact Hn|].
  apply (modifyBCmarker_markers_closed demo_sunpy_Grid demo_readShpPoly demo_pnpoly
           "demo" "low5_high7.shp" demo_grid g' tr demo_xe demo_ye
           [poly_low; poly_high] [5; 7] 1%nat 1%float 0.5%float 2 7);
    try (vm_compute; reflexivity); [exact E|exact Hn].
Defined.

Lemma modifyBCmarker_nonpositive_marker_stays_witness :
  exists g' tr,
    modifyBCmarker demo_sunpy_Grid demo_readShpPoly demo_pnpoly "demo" "low0_all5.shp"
    = Ok (g', tr) /\
    demo_pnpoly 0.5 0 poly_all = true /\
    nth_error (Grid.mark g') 0 = Some 0.
Proof.
  destruct (modifyBCmarker demo_sunpy_Grid demo_readShpPoly demo_pnpoly
              "demo" "low0_all5.shp") as [[g' tr]| |] eqn:E;
    [|vm_compute in E; discriminate E|vm_compute in E; discriminate E].
  exists g', tr. split; [reflexivity|]. split; [vm_compute; reflexivity|].
  apply (modifyBCmarker_nonpositive_marker_stays demo_sunpy_Grid demo_readShpPoly
           demo_pnpoly "demo" "low0_all5.shp" demo_grid g' tr demo_xe demo_ye
           [poly_low; poly_all] [0; 5] 0%nat 0.5%float 0%float 3
           [] [(poly_all, 5)] poly_low 0);
    try (vm_compute; reflexivity); try exact E; try lia.
  intros Q c [].
Defined.

Section ReclassifyOrder.

Variable pnpoly : float -> float -> polygon -> bool.

Lemma containing_Permutation (x y : float) (polys polys' : list (polygon * Z)) :
  Permutation polys polys' ->
  Permutation (containing pnpoly x y polys) (containing pnpoly x y polys').
Proof.
  intros H. unfold containing. apply Permutation_map.
  induction H as [|p l l' _ IH|p q l|l l' l'' _ IH1 _ IH2]; simpl.
  - constructor.
  - destruct (pnpoly x y (fst p)); [now constructor|exact IH].
  - destruct (pnpoly x y (fst p)); destruct (pnpoly x y (fst q));
      try apply Permutation_refl. apply perm_swap.
  - eapply Permutation_trans; eassumption.
Qed.

Lemma Permutation_short {A : Type} (l l' : list A) :
  Permutation l l' -> (length l <= 1)%nat -> l = l'.
Proof.
  intros H Hlen. destruct l as [|a [|b l]]; simpl in Hlen; try lia.
  - apply Permutation_nil in H. now subst.
  - apply Permutation_length_1_inv in H. now subst.
Qed.

(** X16: when no mid-point of an edge lies in more than one polygon, the
    order of the polygons does not matter: the loop of [modifyBCmarker] run
    over any rearrangement of the sequence returns the same grid. *)
Theorem reclassify_order_irrelevant (xe ye : list float)
    (polys polys' : list (polygon * Z)) (g g1 : Grid.t) :
  Permutation polys polys' ->
  (forall i x y, nth_error xe i = Some x -> nth_error ye i = Some y ->
     (length (containing pnpoly x y polys) <= 1)%nat) ->
  reclassify pnpoly xe ye polys g = Ok g1 ->
  reclassify pnpoly xe ye polys' g = Ok g1.
Proof.
  intros Hperm Hone H.
  destruct (reclassify_step_lengths pnpoly _ _ _ _ _ H) as [->|[Hx Hy]].
  - apply Permutation_nil in Hperm. now subst.
  - destruct (reclassify_inv pnpoly _ _ _ _ _ H) as (Hlen & Hnth).
    destruct (reclassify_total pnpoly xe ye polys' g Hx Hy) as (g2 & H2).
    rewrite H2. f_equal.
    destruct (reclassify_inv pnpoly _ _ _ _ _ H2) as (Hlen2 & Hnth2).
    rewrite (reclassify_marks pnpoly _ _ _ _ _ H2), (reclassify_marks pnpoly _ _ _ _ _ H).
    f_equal. apply nth_error_ext. intros i.
    destruct (nth_error (Grid.mark g) i) as [m|] eqn:Em.
    + assert (Hi : (i < length (Grid.mark g))%nat) by (apply nth_error_Some; congruence).
      destruct (nth_error xe i) as [x|] eqn:Ex; [|apply nth_error_None in Ex; lia].
      destruct (nth_error ye i) as [y|] eqn:Ey; [|apply nth_error_None in Ey; lia].
      rewrite (Hnth i x y m Ex Ey Em), (Hnth2 i x y m Ex Ey Em). f_equal.
      rewrite !relabel_all_containing.
      now rewrite (Permutation_short _ _ (containing_Permutation x y _ _ Hperm)
                     (Hone i x y Ex Ey)).
    + apply nth_error_None in Em.
      assert (E1 : nth_error (Grid.mark g1) i = None) by (apply nth_error_None; lia).
      assert (E2 : nth_error (Grid.mark g2) i = None) by (apply nth_error_None; lia).
      congruence.
Qed.

End ReclassifyOrder.

Lemma reclassify_order_irrelevant_witness :
  reclassify demo_pnpoly demo_xe demo_ye [(poly_right, 7); (poly_left, 5)] demo_grid
  = Ok (Grid.set_mark demo_grid [3; 7; 1; 5; 0]).
Proof.
  apply (reclassify_order_irrelevant demo_pnpoly demo_xe demo_ye
           [(poly_left, 5); (poly_right, 7)] [(poly_right, 7); (poly_left, 5)]
           demo_grid).
  - apply perm_swap.
  - intros [|[|[|[|[|i]]]]] x y Hx Hy; simpl in Hx, Hy;
      try (destruct i; discriminate);
      injection Hx as <-; injection Hy as <-; vm_compute; lia.
  - vm_compute. reflexivity.
Defined.

Section Workflows.

Variable sunpy_Grid : string -> result Grid.t.
Variable readShpPoly : string -> string -> result (list polygon * list Z).
Variable pnpoly : float -> float -> polygon -> bool.

(** X17: the two workflows together.  In a Boundary loaded from the grid
    that [modifyBCmarker] leaves, an edge that was interior (marker 0) is
    neither a type-2 nor a type-3 edge, and an edge with a positive marker
    that the last polygon holding its mid-point relabels to 2 (the polygons
    before it that hold it having positive markers) is one of the type-2
    edges [edgep]. *)
Theorem reclassified_grid_boundary (path bcfile : string) (g g' : Grid.t)
    (tr : list event) (xe ye : list float) (XY : list polygon) (newmarker : list Z)
    (b : Boundary.Index) :
  sunpy_Grid path = Ok g ->
  edge_mean (Grid.xp g) (Grid.edges g) = Ok xe ->
  edge_mean (Grid.yp g) (Grid.edges g) = Ok ye ->
  readShpPoly bcfile "marker" = Ok (XY, newmarker) ->
  modifyBCmarker sunpy_Grid readShpPoly pnpoly path bcfile = Ok (g', tr) ->
  Boundary.loadBoundary g' = Ok b ->
  (forall i, nth_error (Grid.mark g) i = Some 0 ->
     ~ In (Z.of_nat i) (Boundary.edgep b) /\ ~ In (Z.of_nat i) (type3_edges g')) /\
  (forall i x y m pre post P,
     nth_error xe i = Some x -> nth_error ye i = Some y ->
     nth_error (Grid.mark g) i = Some m -> 0 < m ->
     combine XY newmarker = pre ++ (P, 2) :: post ->
     pnpoly x y P = true ->
     (forall Q c, In (Q, c) post -> pnpoly x y Q = false) ->
     (forall Q c, In (Q, c) pre -> pnpoly x y Q = true -> 0 < c) ->
     In (Z.of_nat i) (Boundary.edgep b)).
Proof.
  intros Hg Hxe Hye Hshp H Hb.
  destruct (loadBoundary_Ok g' b Hb) as (He & _).
  destruct (modifyBCmarker_loop _ _ _ _ _ _ _ _ _ _ _ _ Hg Hxe Hye Hshp H) as (Hlen & Hnth).
  split.
  - intros i Hm.
    assert (Hm' : nth_error (Grid.mark g') i = Some 0).
    { destruct (modifyBCmarker_inv _ _ _ _ _ _ _ H)
        as (g0 & xe0 & ye0 & XY0 & nm0 & Hg0 & Hxe0 & Hye0 & Hshp0 & Hcase).
      rewrite Hg in Hg0. injection Hg0 as <-.
      rewrite Hxe in Hxe0. injection Hxe0 as <-.
      rewrite Hye in Hye0. injection Hye0 as <-.
      destruct Hcase as [[_ ->]|[_ Hloop]]; [exact Hm|].
      destruct (reclassify_step_lengths pnpoly _ _ _ _ _ Hloop) as [Hnil|(Hx & Hy)].
      - rewrite Hnil in Hloop. simpl in Hloop. now injection Hloop as <-.
      - assert (Hi : (i < length (Grid.mark g))%nat)
          by (apply nth_error_Some; congruence).
        destruct (nth_error xe i) as [x|] eqn:Ex; [|apply nth_error_None in Ex; lia].
        destruct (nth_error ye i) as [y|] eqn:Ey; [|apply nth_error_None in Ey; lia].
        rewrite (Hnth i x y 0 Ex Ey Hm). f_equal.
        apply relabel_all_nonpositive. lia. }
    rewrite He. unfold type2_edges, type3_edges.
    split; intros Hin; apply argwhere_eq_In in Hin as [_ Hin];
      rewrite Nat2Z.id in Hin; congruence.
  - intros i x y m pre post P Hx Hy Hm Hpos Hsplit HP Hpost Hpre.
    rewrite He. unfold type2_edges. apply argwhere_eq_In.
    split; [lia|]. rewrite Nat2Z.id.
    rewrite (Hnth i x y m Hx Hy Hm), Hsplit. f_equal.
    now apply relabel_all_last.
Qed.

End Workflows.

Lemma reclassified_grid_boundary_witness :
  exists g' tr b,
    modifyBCmarker demo_sunpy_Grid demo_readShpPoly2 demo_pnpoly "demo" "left2.shp"
    = Ok (g', tr) /\
    Boundary.loadBoundary g' = Ok b /\
    ~ In (Z.of_nat 4) (Boundary.edgep b) /\
    In (Z.of_nat 3) (Boundary.edgep b).
Proof.
  destruct (modifyBCmarker demo_sunpy_Grid demo_readShpPoly2 demo_pnpoly
              "demo" "left2.shp") as [[g' tr]| |] eqn:E;
    [|vm_compute in E; discriminate E|vm_compute in E; discriminate E].
  destruct (Boundary.loadBoundary g') as [b| |] eqn:Eb;
    [|exfalso; clear -E Eb; vm_compute in E; injection E as <- _;
      vm_compute in Eb; discriminate Eb ..].
  exists g', tr, b. split; [reflexivity|]. split; [exact Eb|].
  destruct (reclassified_grid_boundary demo_sunpy_Grid demo_readShpPoly2 demo_pnpoly
              "demo" "left2.shp" demo_grid g' tr demo_xe demo_ye
              [poly_left] [2] b) as (Hzero & Htwo);
    try (vm_compute; reflexivity); try exact E; try exact Eb.
  split.
  - apply (Hzero 4%nat). reflexivity.
  - apply (Htwo 3%nat 0%float 0.5%float 3 [] [] poly_left);
      try (vm_compute; reflexivity); try lia.
    + intros Q c [].
    + intros Q c [].
Defined.
